(* ===== verification/_CoqProject ===== *)
-Q . S2P
Prelude.v
Bytes.v
Hex.v
Utf8.v
HashLib.v
Password.v
Policy.v
Models.v
Web.v
Accounts.v
Base64.v
Fernet.v
OrderCodec.v
Checkout.v
Enquiry.v
Helpers.v
Routing.v
App.v
Lifecycle.v
Access.v
