(* ===== verification/Prelude.v ===== *)
(** * A verification library for turbo-potato (Flask web backend)

    The repository is a Flask application ([src/apps]): user registration
    and login, an admin area, and a Stripe checkout whose success link
    carries the order id encrypted with Fernet.  [src/apps/__init__.py]
    builds the application ([create_app]: database, Flask-Login,
    [CSRFProtect], the blueprint, a 404 handler); [src/apps/home/routes.py]
    holds the views, [forms.py] the WTForms forms, [models.py] the ORM
    rows and the Flask-Login loaders, [util.py] the helpers (credentials,
    password policy, order-id codec, decorators).

    ** Parts of the program and how they interact

    A request is matched against the blueprint's rules (Werkzeug); on
    POST and DELETE [CSRFProtect] checks the token; the view runs behind
    its decorator ([login_required], [admin_required], [user_logged_in]),
    which consults [current_user] (the session's user, else the user the
    request's [username] field names); views read the form through
    [forms.py], call [hash_pass] / [verify_pass] and [is_valid_password]
    (accounts), [encrypt_order_id] / [decrypt_order_id] (checkout, success),
    and change the database through [db.session.commit()]; an exception a
    view does not catch becomes the 500 page.

    ** Files, in dependency order

    - [Prelude] (this file): Python exceptions ([exn]), the error monad
      [result] with its notation in [py_scope], the hint databases [pyrt]
      and [pyrt_rw], the tactics, shared lemmas on lists, bytes held in
      [Z] and the closure [star] of a step relation.
    - [Bytes], [Hex], [Utf8]: Python [bytes] and [str], ASCII, slicing,
      [hexlify]/[hexdigest], UTF-8 encoding and strict decoding.
    - [HashLib] (interface [Class HashLib]) and [Password]: [hash_pass] and
      [verify_pass] of util.py.
    - [Policy]: [password_callable] and [is_valid_password] (interface
      [Class UnicodeCategories] for [str.isdigit] and the like).
    - [Models]: every table of models.py as an association list in
      rowid order (users, orders, and the six tables no view writes),
      [commit] enforcing NOT NULL and UNIQUE ([db_ok]), the cascade of
      [User]'s relationships on deletion, unenforced foreign keys.
    - [Web]: responses, the server state [world] (database and session
      user), [current_user] (user_loader, then request_loader), the
      decorators of util.py.
    - [Accounts]: [login], [register], [logout] and the admin routes.
    - [Base64]: CPython's [b2a_base64] and non-strict [a2b_base64] (a
      state machine), behind [urlsafe_b64encode] / [urlsafe_b64decode].
    - [Fernet]: the token of [cryptography.fernet] (interface
      [Class FernetCrypto] for AES-CBC and HMAC), PKCS7 padding and the
      constant-time [check_pkcs7_padding] on Rust [u8] values.
    - [OrderCodec]: the module-level [cipher_suite], [encrypt_order_id],
      [decrypt_order_id], with CPython's [str(int)] and [int(str)]
      (interface [Class UnicodeNumeric]).
    - [Checkout]: [create_checkout_session], [success], [get_orders] and
      Flask's handling of an uncaught exception ([flask_dispatch]).
    - [Enquiry]: [send_enquiry_email_to_admin] of util.py, the Flask-Mail
      message it builds, with the e-mail template and [mail.send] as
      parameters that may raise and every exception swallowed; its
      [reply_to] is the company's own address.
    - [Helpers]: [get_segment] of routes.py (with [str.split]) and
      [get_image_url] of util.py (Cloudinary as a parameter), which no
      view calls.
    - [Routing]: Werkzeug's state-machine URL matcher and a declarative
      reference for it; [request.form] / [request.args].
    - [App]: the whole application answering one request ([app_handle]):
      the rule table of routes.py, converters, CSRF, the page views, the
      forms of forms.py, contact, the template catch-all; [create_app]
      as a record (mail settings, URL map, CSRF methods, error handler,
      first-request hook, context processor).
    - [Lifecycle]: requests as a step relation from the empty database,
      an abstract order book refined by every run, invariants and
      liveness over runs.
    - [Access]: who can see the admin page: every view, decorator and
      error handler, and the matcher's precedence.

    ** What the theorems show (claims C1-C37, in order of importance)

    - Credentials: [verify_pass] accepts what [hash_pass] produced (C1),
      compares the PBKDF2 keys (C19), [hash_pass] is not deterministic
      (C20), its only error (C21), the malformed-credential cases (C28,
      C29).
    - Order-id codec: the round trip (C2), the token is malleable (C3),
      changing its last character fails (C26), ignored characters (C30),
      encryption is not deterministic yet always decrypts (C31), tokens
      are url-safe (C32), the 4300-digit limit (C33).
    - Access: [admin_required] (C4), an anonymous request naming an admin
      in its form promotes any user through the whole application (C7),
      the admin page reaches admins only despite the catch-all (C9),
      login changes the session only on the right password (C15, C36),
      the password policy only checks the length (C11), registration
      never commits (C10), deletion with its cascade (C37).
    - Checkout: the empty-cart link marks exactly its order paid (C17,
      C22), a non-empty cart raises NameError after committing an order
      (C16), a tampered token is a 500 (C23), replay (C27).
    - Application: CSRF blocks every state change by POST and DELETE
      without a token (C6), GET changes the database only through
      [/success] (C14), the template catch-all serves every page without a
      login (C8), contact and register error paths (C25, C24); the
      enquiry e-mail is addressed, and replies go, to the company only
      (C34); [get_segment] equals its reference and never fails (C35).
    - Runs: every run refines the order book (C5), no user and no row of
      the six other tables ever exists, so every order names a missing
      user (C12), orders and payments are never lost (C18), every unpaid
      order can be paid by one request (C13).

    Lemmas that are facts about the libraries or the model rather than
    the program are kept as lemmas: the constant-time PKCS7 check of
    [cryptography] equals the plain condition ([check_pkcs7_padding_ref]),
    Werkzeug's matcher refines declarative matching ([match_path_spec]),
    [commit] keeps the constraints in every reachable state
    ([reachable_db_ok]), and the fuel of [str(int)] is enough
    ([digits_of_terminates]).

    ** Bounds and fuel

    [digits_of] (the digits of [str(int)]) runs on fuel [digit_fuel n],
    one step per bit of [n], which [digits_of_terminates] shows is enough and stable.
    [str(int)] and [int(str)] fail beyond 4300 digits (CPython 3.11
    [default_max_str_digits]); theorems about tokens assume ids below
    [10^4300], and the shape theorems ids below [10^15] (a token of 100
    characters).  [check_pkcs7_padding] is the Rust function on [u8]: its
    equivalence holds for blocks of at most 255 bytes; the unpadder calls
    it on 16.

    ** Assumptions

    CPython 3.11 or later ([int]/[str] limit, non-strict Base64), Flask 2.2
    with Werkzeug 2.2 ([before_first_request], the state-machine
    matcher), Flask-Login 0.6, Flask-WTF's [CSRFProtect] with its default
    methods, SQLite ([.first()] in rowid order, new ids one past the
    largest, foreign keys not enforced) as the database [configure_database]
    ends up with, and SQLAlchemy's ORM cascade on [db.session.delete].  The blueprint [home_blueprint] has no URL prefix (its
    [apps/home/__init__.py] is not in the repository).  The templates
    directory is not in [src]: the literal templates the views render are
    taken to exist, and the catch-all asks the parameter
    [template_exists].  The witnesses use executable toy instances of the
    interfaces, not real cryptography.

    ** What is not modelled

    Template contents (and the context processor [inject_categories] that
    feeds them), flash messages and logging; the mail server, Cloudinary
    and Stripe, which are parameters ([Enquiry] takes [mail.send];
    [contact_us] raises before calling it; [get_image_url] takes the
    upload); the column defaults of the tables no code writes; the CSRF
    token stored in the session by [get_csrf_token] (the request carries
    whether its token is valid); HEAD and OPTIONS requests, and the
    redirects Werkzeug issues for merged or trailing slashes; the
    configuration values ([initialize_mail], [app.config]) and the
    library wiring of [register_extensions] and [register_blueprints].
    The session holds the user's id: [login_user] stores [get_id()], the
    decimal [str(id)], and SQLite compares that text with the integer
    column under numeric affinity, so [user_loader] finds the same row.  SHA-256, PBKDF2, AES and
    HMAC are abstract: their only properties used are output lengths,
    determinism and the decryption law of AES-CBC. *)

From Stdlib Require Import Bool ZArith List Lia.
From Stdlib Require String.
Import ListNotations.

(** ** Python exceptions raised along the modelled paths *)
Inductive exn :=
| UnicodeEncodeError
| UnicodeDecodeError
| ValueError
| TypeError
| AttributeError
| BinasciiError
| InvalidToken
| IntegrityError
| OverflowError
| BadRequest
| StripeError
| BadRequestKeyError     (** [request.form[key]] of an absent key: HTTP 400 *)
| TemplateNotFound       (** [jinja2.TemplateNotFound] *)
| IndexError
| KeyError
| NameError (name : String.string).

(** Python computations that may raise: [Ok v] returns, [Err e] raises. *)
Inductive result (A : Type) : Type :=
| Ok (a : A)
| Err (e : exn).
Arguments Ok {A} a.
Arguments Err {A} e.

Declare Scope py_scope.
Delimit Scope py_scope with py.
Open Scope py_scope.

Notation "x <- m ;; k" :=
  (match m with Ok x => k | Err e => Err e end)
  (at level 60, m at next level, right associativity) : py_scope.

Notation "' pat <- m ;; k" :=
  (match m with Ok pat => k | Err e => Err e end)
  (at level 60, pat pattern, m at next level, right associativity) : py_scope.

Lemma Ok_inj {A} (a b : A) : Ok a = Ok b -> a = b.
Proof. congruence. Qed.

(** [raise_if b e] is the guard [if b: raise e]. *)
Definition raise_if (b : bool) (e : exn) : result unit :=
  if b then Err e else Ok tt.

(** The Python [all(...)] / [any(...)] of a list of booleans. *)
(** A column that holds a value (SQL [IS NOT NULL]). *)
Definition is_set {A} (o : option A) : bool := match o with Some _ => true | None => false end.

Definition py_all (l : list bool) : bool := forallb (fun b => b) l.
Definition py_any (l : list bool) : bool := existsb (fun b => b) l.

(** ** Automation *)
Create HintDb pyrt discriminated.
Create Rewrite HintDb pyrt_rw.

Ltac inv H := inversion H; subst; clear H.

(** Split a hypothesis [(x <- m ;; k) = Ok v] into [m = Ok x] and the rest. *)
Ltac py_destruct :=
  repeat match goal with
  | H : match ?m with Ok _ => _ | Err _ => _ end = Ok _ |- _ =>
      let E := fresh "E" in destruct m eqn:E; [|discriminate H]
  | H : Ok _ = Ok _ |- _ => injection H as H
  | H : Err _ = Ok _ |- _ => discriminate H
  end.

(** Evaluate the powers of two with literal exponents, then decide the
    linear arithmetic with [/] and [mod] by constants. *)
Ltac pow_consts :=
  repeat match goal with
  | |- context [(2 ^ Z.pos ?p)%Z] =>
      let v := eval vm_compute in (2 ^ Z.pos p)%Z in change (2 ^ Z.pos p)%Z with v
  end.

Ltac zarith := pow_consts; Z.div_mod_to_equations; lia.

(** ** Shared list lemmas *)
Section Lists.
Context {A : Type}.

Lemma firstn_app_length (l1 l2 : list A) :
  firstn (length l1) (l1 ++ l2) = l1.
Proof.
  rewrite firstn_app, Nat.sub_diag, firstn_O, app_nil_r.
  apply firstn_all.
Qed.

Lemma skipn_app_length (l1 l2 : list A) :
  skipn (length l1) (l1 ++ l2) = l2.
Proof.
  rewrite skipn_app, Nat.sub_diag, skipn_all. reflexivity.
Qed.

Lemma firstn_app_eq (n : nat) (l1 l2 : list A) :
  length l1 = n -> firstn n (l1 ++ l2) = l1.
Proof. intros <-. apply firstn_app_length. Qed.

Lemma skipn_app_eq (n : nat) (l1 l2 : list A) :
  length l1 = n -> skipn n (l1 ++ l2) = l2.
Proof. intros <-. apply skipn_app_length. Qed.

Lemma app_inv_length (l1 l2 l1' l2' : list A) :
  length l1 = length l1' -> l1 ++ l2 = l1' ++ l2' -> l1 = l1' /\ l2 = l2'.
Proof.
  intros Hl Heq. split.
  - rewrite <- (firstn_app_length l1 l2), <- (firstn_app_length l1' l2'), Hl.
    now rewrite Heq.
  - rewrite <- (skipn_app_length l1 l2), <- (skipn_app_length l1' l2'), Hl.
    now rewrite Heq.
Qed.

Lemma forallb_firstn (f : A -> bool) (n : nat) (l : list A) :
  forallb f l = true -> forallb f (firstn n l) = true.
Proof.
  revert l; induction n as [|n IH]; intros [|x l] H; simpl in *; auto.
  apply andb_true_iff in H as [H1 H2]. now rewrite H1, IH.
Qed.

Lemma forallb_skipn (f : A -> bool) (n : nat) (l : list A) :
  forallb f l = true -> forallb f (skipn n l) = true.
Proof.
  revert l; induction n as [|n IH]; intros [|x l] H; simpl in *; auto.
  apply andb_true_iff in H as [_ H2]. now apply IH.
Qed.
End Lists.

Section Maps.
Context {A B : Type}.

(** [map] with a function that is injective on the list's elements. *)
Lemma map_inj_on (f : A -> B) (P : A -> Prop) (l1 l2 : list A) :
  (forall x y, P x -> P y -> f x = f y -> x = y) ->
  Forall P l1 -> Forall P l2 -> map f l1 = map f l2 -> l1 = l2.
Proof.
  intros Hf H1; revert l2; induction H1 as [|x l1 Hx H1 IH];
    intros [|y l2] H2 Heq; simpl in *; try discriminate; auto.
  inv H2. injection Heq as Hxy Hl. f_equal; auto.
Qed.

Lemma forallb_rev (f : A -> bool) (l : list A) : forallb f (rev l) = forallb f l.
Proof.
  apply eq_iff_eq_true. rewrite !forallb_forall.
  split; intros H x Hx; apply H; [rewrite in_rev, rev_involutive | apply in_rev]; exact Hx.
Qed.

Lemma forallb_map_comp (f : B -> bool) (g : A -> B) (l : list A) :
  forallb f (map g l) = forallb (fun x => f (g x)) l.
Proof. induction l as [|x l IH]; simpl; congruence. Qed.

Lemma flat_map_const_length (f : A -> list B) (k : nat) (l : list A) :
  (forall x, length (f x) = k) -> length (flat_map f l) = k * length l.
Proof.
  intros Hk; induction l as [|x l IH]; simpl; [lia|].
  rewrite length_app, Hk, IH. lia.
Qed.
End Maps.

(** ** Shared integer lemmas *)
Lemma Z_lor_disjoint_add (a b : Z) : Z.land a b = 0%Z -> Z.lor a b = (a + b)%Z.
Proof.
  intros H. pose proof (Z.sub_2lor_lxor a b) as E.
  rewrite (Z.lxor_lor a b H) in E. lia.
Qed.

(** [t | q] is [t + q] when [q] fits in the low [n] bits that [t] leaves
    clear: how a tag and a payload are packed into one byte. *)
Lemma Z_lor_low_bits (t q n : Z) :
  (0 <= n)%Z -> Z.land t (Z.ones n) = 0%Z -> (0 <= q < 2 ^ n)%Z -> Z.lor t q = (t + q)%Z.
Proof.
  intros Hn Ht Hq. apply Z_lor_disjoint_add.
  assert (Eq : Z.land q (Z.ones n) = q) by (rewrite Z.land_ones by lia; apply Z.mod_small; lia).
  rewrite <- Eq, (Z.land_comm q), Z.land_assoc, Ht. apply Z.land_0_l.
Qed.

(** [q & (2^n - 1)] is [q mod 2^n] and [q >> n] is [q / 2^n]. *)
Lemma Z_land_mask (q n : Z) : (0 <= n)%Z -> Z.land q (Z.ones n) = (q mod 2 ^ n)%Z.
Proof. apply Z.land_ones. Qed.

(** Bytes held in a [Z], as Rust's [u8] values are: closed under [|] and
    [^], and a [|] is zero exactly when both sides are. *)
Lemma Z_byte_shiftr (a : Z) : (0 <= a)%Z -> (a < 256)%Z <-> Z.shiftr a 8 = 0%Z.
Proof.
  intros H. rewrite Z.shiftr_div_pow2 by lia. change (2 ^ 8)%Z with 256%Z.
  split; intros E; [apply Z.div_small; lia|].
  destruct (Z.lt_ge_cases a 256); auto.
  assert (1 <= a / 256)%Z by (apply Z.div_le_lower_bound; lia). lia.
Qed.

Lemma Z_lor_byte (a b : Z) : (0 <= a < 256)%Z -> (0 <= b < 256)%Z -> (0 <= Z.lor a b < 256)%Z.
Proof.
  intros Ha Hb. assert (H0 : (0 <= Z.lor a b)%Z) by (apply Z.lor_nonneg; lia).
  split; [exact H0|]. apply Z_byte_shiftr; [exact H0|].
  rewrite Z.shiftr_lor, (proj1 (Z_byte_shiftr a ltac:(lia)) ltac:(lia)),
    (proj1 (Z_byte_shiftr b ltac:(lia)) ltac:(lia)). reflexivity.
Qed.

Lemma Z_lxor_byte (a b : Z) : (0 <= a < 256)%Z -> (0 <= b < 256)%Z -> (0 <= Z.lxor a b < 256)%Z.
Proof.
  intros Ha Hb. assert (H0 : (0 <= Z.lxor a b)%Z) by (apply Z.lxor_nonneg; lia).
  split; [exact H0|]. apply Z_byte_shiftr; [exact H0|].
  rewrite Z.shiftr_lxor, (proj1 (Z_byte_shiftr a ltac:(lia)) ltac:(lia)),
    (proj1 (Z_byte_shiftr b ltac:(lia)) ltac:(lia)). reflexivity.
Qed.

Lemma Z_lor_eqb_0 (a b : Z) : (Z.lor a b =? 0)%Z = ((a =? 0) && (b =? 0))%Z.
Proof.
  apply eq_iff_eq_true. rewrite andb_true_iff, !Z.eqb_eq. apply Z.lor_eq_0_iff.
Qed.

Lemma Z_lxor_eqb_0 (a b : Z) : (Z.lxor a b =? 0)%Z = (b =? a)%Z.
Proof.
  apply eq_iff_eq_true. rewrite !Z.eqb_eq, Z.lxor_eq_0_iff. split; congruence.
Qed.

(** [0 .. n-1] as integers: the range a finite check by evaluation runs
    over, with the lemma that puts every integer of the range in it. *)
Definition zrange (n : nat) : list Z := map Z.of_nat (seq 0 n).

Lemma zrange_in (n : nat) (a : Z) : (0 <= a < Z.of_nat n)%Z -> In a (zrange n).
Proof.
  intros H. unfold zrange. apply in_map_iff. exists (Z.to_nat a).
  rewrite in_seq. split; lia.
Qed.

(** ** Sequences of steps *)

(** The reflexive-transitive closure of a step relation, built one step at
    a time from the left, as in the sequences library of the
    mechanised-semantics courses. *)
Section Star.
Context {S : Type} (R : S -> S -> Prop).

Inductive star : S -> S -> Prop :=
| star_refl a : star a a
| star_step a b c : R a b -> star b c -> star a c.

Lemma star_one (a b : S) : R a b -> star a b.
Proof. intros H. eapply star_step; [exact H | apply star_refl]. Qed.

Lemma star_trans (a b c : S) : star a b -> star b c -> star a c.
Proof. induction 1; intros; [assumption | eapply star_step; eauto]. Qed.

(** A property that every step preserves holds along every sequence. *)
Lemma star_invariant (P : S -> Prop) :
  (forall a b, P a -> R a b -> P b) -> forall a b, star a b -> P a -> P b.
Proof. intros Hstep a b H. induction H; eauto. Qed.
End Star.

#[export] Hint Rewrite @firstn_app_length @skipn_app_length Z_lor_eqb_0 Z_lxor_eqb_0 : pyrt_rw.
#[export] Hint Resolve forallb_firstn forallb_skipn Z_lor_byte Z_lxor_byte : pyrt.
