(* ===== verification/Bytes.v ===== *)
(** Python [bytes] and [str] as the code uses them: a [bytes] value is a
    list of [byte]s, a [str] a list of Unicode code points.  This file holds
    the conversions between them ([.encode("ascii")], [.decode("ascii")])
    and Python's slice [s[a:b]] with its clamping of negative and
    out-of-range indices. *)

From Stdlib Require Import Bool ZArith List Lia.
From Stdlib Require Strings.Byte.
From S2P Require Import Prelude.
Import ListNotations.
Open Scope Z_scope.

Abbreviation byte := Init.Byte.byte.
Abbreviation bytes := (list byte).

(** A Python [str]: its code points, each in [0, 0x10FFFF]. *)
Abbreviation pystr := (list Z).

(** ** Bytes as integers in [0, 256) *)

(** [ord(b)] for a byte [b]. *)
Definition ord (b : byte) : Z := Z.of_N (Byte.to_N b).

(** [bytes([z % 256])]: the byte whose value is [z] modulo 256. *)
Definition chr (z : Z) : byte :=
  match Byte.of_N (Z.to_N (z mod 256)) with
  | Some b => b
  | None => Byte.x00
  end.

Lemma ord_range (b : byte) : 0 <= ord b < 256.
Proof. unfold ord. pose proof (Byte.to_N_bounded b). lia. Qed.

Lemma chr_ord (b : byte) : chr (ord b) = b.
Proof.
  unfold chr, ord. rewrite Z.mod_small by (pose proof (Byte.to_N_bounded b); lia).
  rewrite N2Z.id, Byte.of_to_N. reflexivity.
Qed.

Lemma ord_chr (z : Z) : 0 <= z < 256 -> ord (chr z) = z.
Proof.
  intros Hz. unfold chr, ord. rewrite Z.mod_small by lia.
  destruct (Byte.of_N (Z.to_N z)) eqn:E.
  - apply Byte.to_of_N in E. rewrite E. lia.
  - exfalso. apply Byte.of_N_None_iff in E. lia.
Qed.

Lemma ord_inj (a b : byte) : ord a = ord b -> a = b.
Proof. intros H. rewrite <- (chr_ord a), <- (chr_ord b), H. reflexivity. Qed.

Lemma map_ord_inj (l1 l2 : bytes) : map ord l1 = map ord l2 -> l1 = l2.
Proof.
  intros H. apply (map_inj_on ord (fun _ => True)); auto using ord_inj;
    apply Forall_forall; auto.
Qed.

(** ** ASCII *)

(** A Python [str] literal of ASCII characters. *)
Definition pys (s : String.string) : pystr :=
  map (fun a => Z.of_nat (Ascii.nat_of_ascii a)) (String.list_ascii_of_string s).

Definition is_ascii (c : Z) : bool := (0 <=? c) && (c <? 128).

(** [s.encode("ascii")]: raises [UnicodeEncodeError] on a code point
    outside ASCII. *)
Definition str_encode_ascii (s : pystr) : result bytes :=
  if forallb is_ascii s then Ok (map chr s) else Err UnicodeEncodeError.

(** [b.decode("ascii")]: raises [UnicodeDecodeError] on a byte >= 128. *)
Definition bytes_decode_ascii (b : bytes) : result pystr :=
  if forallb (fun x => is_ascii (ord x)) b then Ok (map ord b)
  else Err UnicodeDecodeError.

(** Equality of two [str]s, Python's [==]. *)
Definition pystr_eqb (s t : pystr) : bool :=
  if list_eq_dec Z.eq_dec s t then true else false.

Lemma pystr_eqb_spec (s t : pystr) : pystr_eqb s t = true <-> s = t.
Proof. unfold pystr_eqb. destruct (list_eq_dec Z.eq_dec s t); intuition congruence. Qed.

(** Equality of two [bytes], Python's [==]. *)
Definition bytes_eqb (a b : bytes) : bool :=
  if list_eq_dec Byte.byte_eq_dec a b then true else false.

Lemma bytes_eqb_spec (a b : bytes) : bytes_eqb a b = true <-> a = b.
Proof. unfold bytes_eqb. destruct (list_eq_dec Byte.byte_eq_dec a b); intuition congruence. Qed.

Lemma pystr_eqb_length (s t : pystr) : length s <> length t -> pystr_eqb s t = false.
Proof.
  intros H. destruct (pystr_eqb s t) eqn:E; auto.
  apply pystr_eqb_spec in E. subst. congruence.
Qed.

Lemma forallb_map_ascii_ord (s : pystr) :
  forallb is_ascii s = true -> forallb (fun x => is_ascii (ord x)) (map chr s) = true.
Proof.
  induction s as [|c s IH]; simpl; auto.
  intros H. apply andb_true_iff in H as [Hc Hs].
  unfold is_ascii in Hc. apply andb_true_iff in Hc as [H1 H2].
  apply Z.leb_le in H1. apply Z.ltb_lt in H2.
  rewrite ord_chr by lia. unfold is_ascii.
  rewrite (proj2 (Z.leb_le _ _) H1), (proj2 (Z.ltb_lt _ _) H2). simpl. auto.
Qed.

Lemma map_ord_chr_ascii (s : pystr) :
  forallb is_ascii s = true -> map ord (map chr s) = s.
Proof.
  induction s as [|c s IH]; simpl; auto.
  intros H. apply andb_true_iff in H as [Hc Hs].
  unfold is_ascii in Hc. apply andb_true_iff in Hc as [H1 H2].
  apply Z.leb_le in H1. apply Z.ltb_lt in H2.
  rewrite ord_chr by lia. f_equal. auto.
Qed.

(** Encoding an ASCII [str] and decoding it back gives the [str]. *)
Lemma decode_encode_ascii (s : pystr) (b : bytes) :
  str_encode_ascii s = Ok b -> bytes_decode_ascii b = Ok s.
Proof.
  unfold str_encode_ascii, bytes_decode_ascii.
  destruct (forallb is_ascii s) eqn:E; intros H; inv H.
  rewrite forallb_map_ascii_ord by exact E. rewrite map_ord_chr_ascii by exact E.
  reflexivity.
Qed.

(** Decoding ASCII bytes and encoding the [str] back gives the bytes. *)
Lemma encode_decode_ascii (b : bytes) (s : pystr) :
  bytes_decode_ascii b = Ok s -> str_encode_ascii s = Ok b.
Proof.
  unfold str_encode_ascii, bytes_decode_ascii.
  destruct (forallb _ b) eqn:E; intros H; inv H.
  rewrite forallb_map_comp, E. f_equal.
  rewrite map_map. rewrite <- (map_id b) at 2. apply map_ext. apply chr_ord.
Qed.

(** Any prefix of a decoded ASCII string encodes back without error. *)
Lemma encode_ascii_firstn_decoded (b : bytes) (s : pystr) (n : nat) :
  bytes_decode_ascii b = Ok s -> str_encode_ascii (firstn n s) = Ok (firstn n b).
Proof.
  intros H. apply encode_decode_ascii in H. unfold str_encode_ascii in *.
  destruct (forallb is_ascii s) eqn:E; [|discriminate].
  rewrite forallb_firstn by exact E. apply Ok_inj in H. subst b.
  rewrite firstn_map. reflexivity.
Qed.

Lemma decode_ascii_app (a b : bytes) (s t : pystr) :
  bytes_decode_ascii a = Ok s -> bytes_decode_ascii b = Ok t ->
  bytes_decode_ascii (a ++ b) = Ok (s ++ t).
Proof.
  unfold bytes_decode_ascii.
  destruct (forallb _ a) eqn:Ea; [|discriminate]. destruct (forallb _ b) eqn:Eb; [|discriminate].
  intros Ha Hb. apply Ok_inj in Ha, Hb. subst.
  rewrite forallb_app, Ea, Eb, map_app. reflexivity.
Qed.

Lemma decode_ascii_ok_iff (b : bytes) :
  (exists s, bytes_decode_ascii b = Ok s) <-> forallb (fun x => is_ascii (ord x)) b = true.
Proof.
  unfold bytes_decode_ascii. destruct (forallb _ b); split; intros H;
    try discriminate; eauto. destruct H; discriminate.
Qed.

Lemma decode_ascii_length (b : bytes) (s : pystr) :
  bytes_decode_ascii b = Ok s -> length s = length b.
Proof.
  unfold bytes_decode_ascii. destruct (forallb _ b); intros H; inv H.
  apply length_map.
Qed.

(** ** Python slicing [l[a:b]] *)

(** An index of a slice, normalised against the length [n]: negative
    indices count from the end, and both are clamped to [0, n]. *)
Definition slice_index (n : Z) (i : Z) : Z :=
  if i <? 0 then Z.max 0 (n + i) else Z.min i n.

(** [l[a:b]]; [None] is an omitted bound. *)
Definition py_slice {A} (l : list A) (a b : option Z) : list A :=
  let n := Z.of_nat (length l) in
  let lo := match a with None => 0 | Some i => slice_index n i end in
  let hi := match b with None => n | Some i => slice_index n i end in
  firstn (Z.to_nat (hi - lo)) (skipn (Z.to_nat lo) l).

Lemma py_slice_prefix {A} (l : list A) (k : nat) :
  py_slice l None (Some (Z.of_nat k)) = firstn k l.
Proof.
  unfold py_slice, slice_index. simpl.
  destruct (Z.of_nat k <? 0) eqn:E; [apply Z.ltb_lt in E; lia|].
  rewrite Z.sub_0_r. destruct (Nat.le_ge_cases k (length l)).
  - rewrite Z.min_l, Nat2Z.id by lia. reflexivity.
  - rewrite Z.min_r, Nat2Z.id by lia. rewrite !firstn_all2 by lia. reflexivity.
Qed.

Lemma py_slice_suffix {A} (l : list A) (k : nat) :
  py_slice l (Some (Z.of_nat k)) None = skipn k l.
Proof.
  unfold py_slice, slice_index.
  destruct (Z.of_nat k <? 0) eqn:E; [apply Z.ltb_lt in E; lia|].
  rewrite firstn_all2; [|rewrite length_skipn; lia].
  destruct (Nat.le_ge_cases k (length l)).
  - rewrite Z.min_l, Nat2Z.id by lia. reflexivity.
  - rewrite Z.min_r, Nat2Z.id by lia. rewrite !skipn_all2 by lia. reflexivity.
Qed.

(** [l[:-k]] drops the last [k] elements (all of them when [l] is shorter);
    [k] is positive, since [l[:-0]] is [l[:0]], the empty slice. *)
Lemma py_slice_drop_last {A} (l : list A) (k : nat) :
  (0 < k)%nat -> py_slice l None (Some (- Z.of_nat k)) = firstn (length l - k) l.
Proof.
  intros Hk. unfold py_slice, slice_index. simpl.
  destruct (- Z.of_nat k <? 0) eqn:E; [|apply Z.ltb_ge in E; lia].
  f_equal. lia.
Qed.

(** [l[-k:]] keeps the last [k] elements (all of them when [l] is shorter). *)
Lemma py_slice_last {A} (l : list A) (k : nat) :
  (0 < k)%nat -> py_slice l (Some (- Z.of_nat k)) None = skipn (length l - k) l.
Proof.
  intros Hk. unfold py_slice, slice_index.
  destruct (- Z.of_nat k <? 0) eqn:E; [|apply Z.ltb_ge in E; lia].
  rewrite firstn_all2; [|rewrite length_skipn; lia]. f_equal. lia.
Qed.

(** [l[i:j]] with [0 <= i <= j <= len(l)]. *)
Lemma py_slice_mid {A} (l : list A) (i j : nat) :
  (i <= j <= length l)%nat ->
  py_slice l (Some (Z.of_nat i)) (Some (Z.of_nat j)) = firstn (j - i) (skipn i l).
Proof.
  intros H. unfold py_slice, slice_index.
  destruct (Z.of_nat i <? 0) eqn:E; [apply Z.ltb_lt in E; lia|].
  destruct (Z.of_nat j <? 0) eqn:E'; [apply Z.ltb_lt in E'; lia|].
  rewrite !Z.min_l by lia. rewrite Nat2Z.id.
  replace (Z.to_nat (Z.of_nat j - Z.of_nat i)) with (j - i)%nat by lia. reflexivity.
Qed.

(** [l[i:-k]] with [i + k <= len(l)]. *)
Lemma py_slice_mid_neg {A} (l : list A) (i k : nat) :
  (0 < k)%nat -> (i + k <= length l)%nat ->
  py_slice l (Some (Z.of_nat i)) (Some (- Z.of_nat k)) = firstn (length l - k - i) (skipn i l).
Proof.
  intros Hk H. unfold py_slice, slice_index.
  destruct (Z.of_nat i <? 0) eqn:E; [apply Z.ltb_lt in E; lia|].
  destruct (- Z.of_nat k <? 0) eqn:E'; [|apply Z.ltb_ge in E'; lia].
  rewrite Z.min_l by lia. rewrite Z.max_r by lia. rewrite Nat2Z.id.
  replace (Z.to_nat (Z.of_nat (length l) + - Z.of_nat k - Z.of_nat i)) with (length l - k - i)%nat
    by lia. reflexivity.
Qed.

#[export] Hint Resolve ord_range chr_ord ord_inj : pyrt.
#[export] Hint Rewrite chr_ord @py_slice_prefix @py_slice_suffix : pyrt_rw.
