(* ===== verification/Hex.v ===== *)
(** Hexadecimal encoding as the credential code uses it:
    [hashlib.sha256(...).hexdigest()] (a [str]) and [binascii.hexlify]
    (a [bytes]), both with lowercase digits, two per byte, high nibble
    first.  A decoder ([binascii.unhexlify]'s contract) gives the round
    trip, hence injectivity: two credentials with the same hex text have
    the same digest. *)

From Stdlib Require Import Bool ZArith List Lia.
From S2P Require Import Prelude Bytes.
Import ListNotations.
Open Scope Z_scope.

(** The lowercase hex digit of a nibble [d] in [0, 16): ['0'..'9'] are
    48..57, ['a'..'f'] are 97..102. *)
Definition hex_digit (d : Z) : Z := if d <? 10 then 48 + d else 87 + d.

(** [h.hexdigest()] of a digest [b]. *)
Definition hexdigest (b : bytes) : pystr :=
  flat_map (fun x => [hex_digit (ord x / 16); hex_digit (ord x mod 16)]) b.

(** [binascii.hexlify(b)]: the same digits as ASCII bytes. *)
Definition hexlify (b : bytes) : bytes := map chr (hexdigest b).

(** The value of a hex digit, upper or lower case, as [unhexlify] reads it. *)
Definition unhex_digit (c : Z) : option Z :=
  if (48 <=? c) && (c <=? 57) then Some (c - 48)
  else if (97 <=? c) && (c <=? 102) then Some (c - 87)
  else if (65 <=? c) && (c <=? 70) then Some (c - 55)
  else None.

(** [binascii.unhexlify]: pairs of digits to bytes; odd length or a
    non-digit fails. *)
Fixpoint hex_decode (s : pystr) : option bytes :=
  match s with
  | [] => Some []
  | h :: l :: rest =>
      match unhex_digit h, unhex_digit l, hex_decode rest with
      | Some a, Some b, Some r => Some (chr (16 * a + b) :: r)
      | _, _, _ => None
      end
  | [_] => None
  end.

(** A lowercase hex digit. *)
Definition is_hex_lower (c : Z) : bool :=
  ((48 <=? c) && (c <=? 57)) || ((97 <=? c) && (c <=? 102)).

(** ** Lemmas *)

Lemma hex_digit_range (d : Z) :
  0 <= d < 16 -> is_hex_lower (hex_digit d) = true.
Proof.
  intros Hd. unfold is_hex_lower, hex_digit.
  destruct (Z.ltb_spec d 10);
    repeat match goal with
           | |- context [?a <=? ?b] => destruct (Z.leb_spec a b)
           end; cbv [andb orb]; auto; lia.
Qed.

Lemma unhex_hex_digit (d : Z) : 0 <= d < 16 -> unhex_digit (hex_digit d) = Some d.
Proof.
  intros Hd. unfold unhex_digit, hex_digit.
  destruct (Z.ltb_spec d 10);
    repeat match goal with
           | |- context [?a <=? ?b] => destruct (Z.leb_spec a b)
           end; cbv [andb]; try (f_equal; lia); lia.
Qed.

Lemma nibbles_range (x : byte) : 0 <= ord x / 16 < 16 /\ 0 <= ord x mod 16 < 16.
Proof.
  pose proof (ord_range x). split; [split|].
  - apply Z.div_pos; lia.
  - apply Z.div_lt_upper_bound; lia.
  - apply Z.mod_pos_bound; lia.
Qed.

Lemma nibbles_recombine (x : byte) : chr (16 * (ord x / 16) + ord x mod 16) = x.
Proof. rewrite <- Z.div_mod by lia. apply chr_ord. Qed.

Lemma hex_is_ascii (c : Z) : is_hex_lower c = true -> is_ascii c = true.
Proof.
  unfold is_hex_lower, is_ascii. intros H.
  apply orb_true_iff in H as [H|H]; apply andb_true_iff in H as [H1 H2];
    apply Z.leb_le in H1, H2; apply andb_true_iff; split; apply Z.leb_le || apply Z.ltb_lt; lia.
Qed.

(** ** Theorems *)

(** Two hex digits per byte. *)
Lemma hexdigest_length (b : bytes) : length (hexdigest b) = (2 * length b)%nat.
Proof. unfold hexdigest. apply flat_map_const_length. reflexivity. Qed.

Lemma hexlify_length (b : bytes) : length (hexlify b) = (2 * length b)%nat.
Proof. unfold hexlify. rewrite length_map. apply hexdigest_length. Qed.

(** Every character of a hex digest is a lowercase hex digit. *)
Lemma hexdigest_alphabet (b : bytes) : forallb is_hex_lower (hexdigest b) = true.
Proof.
  induction b as [|x b IH]; simpl; auto.
  destruct (nibbles_range x) as [H1 H2].
  rewrite !hex_digit_range by assumption. exact IH.
Qed.

Lemma hexdigest_ascii (b : bytes) : forallb is_ascii (hexdigest b) = true.
Proof.
  pose proof (hexdigest_alphabet b) as H. induction (hexdigest b) as [|c s IH]; simpl in *; auto.
  apply andb_true_iff in H as [H1 H2]. rewrite hex_is_ascii by exact H1. auto.
Qed.

Lemma hexlify_alphabet (b : bytes) : forallb (fun x => is_hex_lower (ord x)) (hexlify b) = true.
Proof.
  unfold hexlify. rewrite forallb_map_comp. pose proof (hexdigest_alphabet b) as H.
  induction (hexdigest b) as [|c s IH]; simpl in *; auto.
  apply andb_true_iff in H as [H1 H2]. pose proof (hex_is_ascii c H1) as A.
  unfold is_ascii in A. apply andb_true_iff in A as [A1 A2].
  apply Z.leb_le in A1. apply Z.ltb_lt in A2.
  rewrite ord_chr by lia. rewrite H1. auto.
Qed.

(** Decoding a hex digest gives the digest back. *)
Lemma hex_decode_hexdigest (b : bytes) : hex_decode (hexdigest b) = Some b.
Proof.
  induction b as [|x b IH]; [reflexivity|].
  change (hexdigest (x :: b))
    with (hex_digit (ord x / 16) :: hex_digit (ord x mod 16) :: hexdigest b).
  destruct (nibbles_range x) as [H1 H2]. cbn [hex_decode].
  rewrite !unhex_hex_digit, IH, nibbles_recombine by assumption. reflexivity.
Qed.

Lemma hexdigest_inj (b1 b2 : bytes) : hexdigest b1 = hexdigest b2 -> b1 = b2.
Proof.
  intros H. apply (f_equal hex_decode) in H. rewrite !hex_decode_hexdigest in H.
  congruence.
Qed.

(** [hexlify(b).decode("ascii")] is the hex digest [str]. *)
Lemma decode_ascii_hexlify (b : bytes) : bytes_decode_ascii (hexlify b) = Ok (hexdigest b).
Proof.
  apply decode_encode_ascii. unfold str_encode_ascii, hexlify.
  rewrite hexdigest_ascii. reflexivity.
Qed.

(** [h.hexdigest().encode("ascii")] is [hexlify] of the digest. *)
Lemma encode_ascii_hexdigest (b : bytes) : str_encode_ascii (hexdigest b) = Ok (hexlify b).
Proof. unfold str_encode_ascii, hexlify. rewrite hexdigest_ascii. reflexivity. Qed.

Lemma hexlify_inj (b1 b2 : bytes) : hexlify b1 = hexlify b2 -> b1 = b2.
Proof.
  intros H. apply hexdigest_inj.
  pose proof (decode_ascii_hexlify b1) as E1. pose proof (decode_ascii_hexlify b2) as E2.
  rewrite H in E1. congruence.
Qed.

#[export] Hint Rewrite hexdigest_length hexlify_length decode_ascii_hexlify
  encode_ascii_hexdigest : pyrt_rw.
