(* ===== verification/Utf8.v ===== *)
(** [str.encode("utf-8")] as CPython's strict encoder computes it: one to
    four bytes per code point, and [UnicodeEncodeError] on a lone surrogate
    (U+D800..U+DFFF), which a Python [str] may hold.  [hash_pass] and
    [verify_pass] encode the password this way before key derivation.  A
    decoder gives the round trip, hence injectivity: two different
    passwords never reach PBKDF2 as the same bytes. *)

From Stdlib Require Import Bool ZArith List Lia.
From S2P Require Import Prelude Bytes.
Import ListNotations.
Open Scope Z_scope.

(** A code point a Python [str] can hold. *)
Definition valid_cp (c : Z) : Prop := 0 <= c <= 0x10FFFF.

Definition is_surrogate (c : Z) : bool := (0xD800 <=? c) && (c <=? 0xDFFF).

(** The UTF-8 bytes of one code point. *)
Definition encode_cp (c : Z) : result bytes :=
  if c <? 0x80 then Ok [chr c]
  else if c <? 0x800 then
    Ok [chr (Z.lor 0xC0 (Z.shiftr c 6)); chr (Z.lor 0x80 (Z.land c 0x3F))]
  else if c <? 0x10000 then
    if is_surrogate c then Err UnicodeEncodeError
    else Ok [chr (Z.lor 0xE0 (Z.shiftr c 12));
             chr (Z.lor 0x80 (Z.land (Z.shiftr c 6) 0x3F));
             chr (Z.lor 0x80 (Z.land c 0x3F))]
  else Ok [chr (Z.lor 0xF0 (Z.shiftr c 18));
           chr (Z.lor 0x80 (Z.land (Z.shiftr c 12) 0x3F));
           chr (Z.lor 0x80 (Z.land (Z.shiftr c 6) 0x3F));
           chr (Z.lor 0x80 (Z.land c 0x3F))].

(** [s.encode("utf-8")]: the encodings of the code points in order; the
    first surrogate raises. *)
Fixpoint str_encode_utf8 (s : pystr) : result bytes :=
  match s with
  | [] => Ok []
  | c :: s' =>
      b <- encode_cp c ;;
      r <- str_encode_utf8 s' ;;
      Ok (b ++ r)
  end.

(** A decoder that inverts [str_encode_utf8] on what it produces: the lead
    byte gives the length of the sequence. *)
Fixpoint utf8_decode (b : bytes) : option pystr :=
  match b with
  | [] => Some []
  | x :: r1 =>
      let v := ord x in
      if v <? 0x80 then option_map (cons v) (utf8_decode r1)
      else if v <? 0xE0 then
        match r1 with
        | y :: r2 => option_map (cons ((v - 0xC0) * 64 + (ord y - 0x80))) (utf8_decode r2)
        | [] => None
        end
      else if v <? 0xF0 then
        match r1 with
        | y :: z :: r3 =>
            option_map (cons ((v - 0xE0) * 4096 + (ord y - 0x80) * 64 + (ord z - 0x80)))
              (utf8_decode r3)
        | _ => None
        end
      else
        match r1 with
        | y :: z :: w :: r4 =>
            option_map (cons ((v - 0xF0) * 262144 + (ord y - 0x80) * 4096
                              + (ord z - 0x80) * 64 + (ord w - 0x80)))
              (utf8_decode r4)
        | _ => None
        end
  end.

Definition valid_cpb (c : Z) : bool := (0 <=? c) && (c <=? 0x10FFFF).

(** [bytes.decode("utf-8")] (strict).  CPython accepts exactly the
    well-formed UTF-8 byte strings, which are the encodings of the strings
    of scalar values; the definition says so: the bytes are accepted when
    [utf8_decode] reads code points whose encoding gives the bytes back. *)
Definition bytes_decode_utf8 (b : bytes) : result pystr :=
  match utf8_decode b with
  | Some s =>
      match str_encode_utf8 s with
      | Ok b' => if forallb valid_cpb s && bytes_eqb b' b then Ok s else Err UnicodeDecodeError
      | Err _ => Err UnicodeDecodeError
      end
  | None => Err UnicodeDecodeError
  end.

(** ** Byte-level lemmas *)

Lemma ord_chr_tag (t q n : Z) :
  0 <= n -> Z.land t (Z.ones n) = 0 -> 0 <= q < 2 ^ n -> 0 <= t -> t + 2 ^ n <= 256 ->
  ord (chr (Z.lor t q)) = t + q.
Proof. intros. rewrite (Z_lor_low_bits t q n) by assumption. apply ord_chr. lia. Qed.

Lemma ord_cont (q : Z) : ord (chr (Z.lor 0x80 (Z.land q 0x3F))) = 128 + q mod 64.
Proof.
  change 0x3F with (Z.ones 6). rewrite Z_land_mask by lia.
  apply (ord_chr_tag 0x80 _ 6); try reflexivity; try lia.
  apply Z.mod_pos_bound. lia.
Qed.

Lemma ord_lead (t c k n : Z) :
  0 <= k -> 0 <= n -> Z.land t (Z.ones n) = 0 -> 0 <= t -> t + 2 ^ n <= 256 ->
  0 <= c < 2 ^ (k + n) -> ord (chr (Z.lor t (Z.shiftr c k))) = t + c / 2 ^ k.
Proof.
  intros Hk Hn Ht Ht0 Hb Hc. rewrite Z.shiftr_div_pow2 by lia.
  apply (ord_chr_tag t _ n); auto. split.
  - apply Z.div_pos; [lia | apply Z.pow_pos_nonneg; lia].
  - apply Z.div_lt_upper_bound; [apply Z.pow_pos_nonneg; lia|].
    rewrite <- Z.pow_add_r by lia. lia.
Qed.

Lemma shiftr_6 (c : Z) : Z.shiftr c 6 = c / 64.
Proof. rewrite Z.shiftr_div_pow2 by lia. reflexivity. Qed.

Lemma shiftr_12 (c : Z) : Z.shiftr c 12 = c / 4096.
Proof. rewrite Z.shiftr_div_pow2 by lia. reflexivity. Qed.

Lemma shiftr_18 (c : Z) : Z.shiftr c 18 = c / 262144.
Proof. rewrite Z.shiftr_div_pow2 by lia. reflexivity. Qed.

Lemma utf8_decode_1 (x : byte) (r : bytes) :
  ord x < 0x80 -> utf8_decode (x :: r) = option_map (cons (ord x)) (utf8_decode r).
Proof. intros H. cbn [utf8_decode]. destruct (Z.ltb_spec (ord x) 0x80); [reflexivity|lia]. Qed.

Lemma utf8_decode_2 (x y : byte) (r : bytes) :
  0x80 <= ord x < 0xE0 ->
  utf8_decode (x :: y :: r) =
  option_map (cons ((ord x - 0xC0) * 64 + (ord y - 0x80))) (utf8_decode r).
Proof.
  intros H. cbn [utf8_decode].
  destruct (Z.ltb_spec (ord x) 0x80); [lia|].
  destruct (Z.ltb_spec (ord x) 0xE0); [reflexivity|lia].
Qed.

Lemma utf8_decode_3 (x y z : byte) (r : bytes) :
  0xE0 <= ord x < 0xF0 ->
  utf8_decode (x :: y :: z :: r) =
  option_map (cons ((ord x - 0xE0) * 4096 + (ord y - 0x80) * 64 + (ord z - 0x80)))
    (utf8_decode r).
Proof.
  intros H. cbn [utf8_decode].
  destruct (Z.ltb_spec (ord x) 0x80); [lia|].
  destruct (Z.ltb_spec (ord x) 0xE0); [lia|].
  destruct (Z.ltb_spec (ord x) 0xF0); [reflexivity|lia].
Qed.

Lemma utf8_decode_4 (x y z w : byte) (r : bytes) :
  0xF0 <= ord x ->
  utf8_decode (x :: y :: z :: w :: r) =
  option_map (cons ((ord x - 0xF0) * 262144 + (ord y - 0x80) * 4096
                    + (ord z - 0x80) * 64 + (ord w - 0x80)))
    (utf8_decode r).
Proof.
  intros H. cbn [utf8_decode].
  destruct (Z.ltb_spec (ord x) 0x80); [lia|].
  destruct (Z.ltb_spec (ord x) 0xE0); [lia|].
  destruct (Z.ltb_spec (ord x) 0xF0); [lia|reflexivity].
Qed.

(** Decoding the bytes of one code point, followed by anything. *)
Lemma decode_encode_cp (c : Z) (bs rest : bytes) :
  valid_cp c -> encode_cp c = Ok bs ->
  utf8_decode (bs ++ rest) = option_map (cons c) (utf8_decode rest).
Proof.
  unfold valid_cp, encode_cp. intros Hc.
  pose proof (Z.div_mod c 64 ltac:(lia)) as D6.
  assert (D12 : c / 64 = 64 * (c / 4096) + (c / 64) mod 64).
  { rewrite (Z.div_mod (c / 64) 64) at 1 by lia. rewrite Z.div_div by lia. reflexivity. }
  assert (D18 : c / 4096 = 64 * (c / 262144) + (c / 4096) mod 64).
  { rewrite (Z.div_mod (c / 4096) 64) at 1 by lia. rewrite Z.div_div by lia. reflexivity. }
  intros Henc.
  destruct (Z.ltb_spec c 0x80) as [L1|L1].
  { apply Ok_inj in Henc; subst bs. cbn [app]. rewrite utf8_decode_1; rewrite ord_chr; lia || reflexivity. }
  destruct (Z.ltb_spec c 0x800) as [L2|L2].
  { apply Ok_inj in Henc; subst bs. cbn [app].
    rewrite utf8_decode_2; rewrite ?ord_cont, ?shiftr_6;
      rewrite (ord_chr_tag 0xC0 _ 5) by (reflexivity || zarith);
      [f_equal; f_equal; lia | zarith]. }
  destruct (Z.ltb_spec c 0x10000) as [L3|L3];
    [destruct (is_surrogate c); [discriminate|]|].
  { apply Ok_inj in Henc; subst bs. cbn [app].
    rewrite utf8_decode_3; rewrite ?ord_cont, ?shiftr_6, ?shiftr_12;
      rewrite (ord_chr_tag 0xE0 _ 4) by (reflexivity || zarith);
      [f_equal; f_equal; lia | zarith]. }
  { apply Ok_inj in Henc; subst bs. cbn [app].
    rewrite utf8_decode_4; rewrite ?ord_cont, ?shiftr_6, ?shiftr_12, ?shiftr_18;
      rewrite (ord_chr_tag 0xF0 _ 4) by (reflexivity || zarith);
      [f_equal; f_equal; zarith | zarith]. }
Qed.

(** ** Theorems *)

(** Only a surrogate code point makes the encoder raise. *)
Lemma encode_cp_error (c : Z) (e : exn) :
  encode_cp c = Err e -> is_surrogate c = true /\ e = UnicodeEncodeError.
Proof.
  unfold encode_cp. destruct (c <? 0x80); [discriminate|].
  destruct (c <? 0x800); [discriminate|]. destruct (c <? 0x10000); [|discriminate].
  destruct (is_surrogate c); intros H; inv H; auto.
Qed.

Lemma encode_cp_ok (c : Z) : is_surrogate c = false -> exists bs, encode_cp c = Ok bs.
Proof.
  intros Hs. destruct (encode_cp c) as [bs|e] eqn:E; eauto.
  apply encode_cp_error in E as [E _]. congruence.
Qed.

Lemma encode_cp_surrogate (c : Z) : is_surrogate c = true -> encode_cp c = Err UnicodeEncodeError.
Proof.
  unfold encode_cp. intros Hs. pose proof Hs as Hs'.
  unfold is_surrogate in Hs'. apply andb_true_iff in Hs' as [H1 H2].
  apply Z.leb_le in H1, H2.
  destruct (Z.ltb_spec c 0x80); [lia|]. destruct (Z.ltb_spec c 0x800); [lia|].
  destruct (Z.ltb_spec c 0x10000); [|lia]. now rewrite Hs.
Qed.

(** The encoder raises [UnicodeEncodeError] exactly when the string holds
    a surrogate; otherwise it returns. *)
Lemma str_encode_utf8_cases (s : pystr) :
  match str_encode_utf8 s with
  | Ok _ => existsb is_surrogate s = false
  | Err e => existsb is_surrogate s = true /\ e = UnicodeEncodeError
  end.
Proof.
  induction s as [|c s IH]; simpl; auto.
  destruct (is_surrogate c) eqn:S.
  - rewrite encode_cp_surrogate by exact S. auto.
  - destruct (encode_cp_ok c S) as [bs ->]. destruct (str_encode_utf8 s); auto.
Qed.

Lemma utf8_decode_encode (s : pystr) (b : bytes) :
  Forall valid_cp s -> str_encode_utf8 s = Ok b -> utf8_decode b = Some s.
Proof.
  intros Hv; revert b; induction Hv as [|c s Hc Hs IH]; intros b H; simpl in H.
  - inv H. reflexivity.
  - destruct (encode_cp c) as [bs|] eqn:E1; [|discriminate].
    destruct (str_encode_utf8 s) as [r|]; [|discriminate].
    apply Ok_inj in H; subst b. rewrite (decode_encode_cp c bs) by assumption.
    rewrite (IH r eq_refl). reflexivity.
Qed.

(** Decoding what [str.encode("utf-8")] produced gives the string
    back, for every string of valid code points: the encoding is
    injective, so distinct passwords reach PBKDF2 as distinct bytes. *)
Theorem utf8_roundtrip (s : pystr) (b : bytes) :
  Forall valid_cp s -> str_encode_utf8 s = Ok b -> utf8_decode b = Some s.
Proof. apply utf8_decode_encode. Qed.

(** Two strings with the same UTF-8 encoding are equal. *)
Lemma str_encode_utf8_inj (s1 s2 : pystr) (b : bytes) :
  Forall valid_cp s1 -> Forall valid_cp s2 ->
  str_encode_utf8 s1 = Ok b -> str_encode_utf8 s2 = Ok b -> s1 = s2.
Proof.
  intros H1 H2 E1 E2. apply utf8_decode_encode in E1, E2; auto. congruence.
Qed.

(** ["aé€😀"]: one code point of each encoded length. *)
Definition utf8_sample : pystr := [97; 233; 8364; 128512].

Lemma utf8_roundtrip_witness :
  str_encode_utf8 utf8_sample
  = Ok [Byte.x61; Byte.xc3; Byte.xa9; Byte.xe2; Byte.x82; Byte.xac;
        Byte.xf0; Byte.x9f; Byte.x98; Byte.x80]
  /\ utf8_decode [Byte.x61; Byte.xc3; Byte.xa9; Byte.xe2; Byte.x82; Byte.xac;
                  Byte.xf0; Byte.x9f; Byte.x98; Byte.x80] = Some utf8_sample.
Proof.
  split; [vm_compute; reflexivity|].
  apply utf8_roundtrip.
  - repeat (constructor; [unfold valid_cp; lia|]). constructor.
  - vm_compute. reflexivity.
Defined.

(** [b.decode()] inverts [s.encode()]: a string of valid code points
    encodes and decodes back to itself. *)
Lemma bytes_decode_utf8_encode (s : pystr) (b : bytes) :
  Forall valid_cp s -> str_encode_utf8 s = Ok b -> bytes_decode_utf8 b = Ok s.
Proof.
  intros Hv He. unfold bytes_decode_utf8. rewrite (utf8_decode_encode s b Hv He), He.
  replace (forallb valid_cpb s) with true.
  - replace (bytes_eqb b b) with true; [reflexivity|]. symmetry. apply bytes_eqb_spec. reflexivity.
  - symmetry. apply forallb_forall. intros c Hc. rewrite Forall_forall in Hv.
    specialize (Hv c Hc). unfold valid_cpb, valid_cp in *.
    destruct (Z.leb_spec 0 c), (Z.leb_spec c 0x10FFFF); cbv [andb]; lia.
Qed.

(** ** ASCII *)

Lemma str_encode_utf8_ascii (s : pystr) :
  forallb is_ascii s = true -> str_encode_utf8 s = Ok (map chr s).
Proof.
  induction s as [|c s IH]; intros H; [reflexivity|].
  cbn [forallb] in H. apply andb_prop in H as [Hc Hs].
  unfold is_ascii in Hc. apply andb_prop in Hc as [H1 H2]. apply Z.ltb_lt in H2.
  cbn [str_encode_utf8]. unfold encode_cp. destruct (Z.ltb_spec c 0x80); [|lia].
  rewrite IH by exact Hs. reflexivity.
Qed.

Lemma str_encode_utf8_app (s1 s2 : pystr) (b1 b2 : bytes) :
  str_encode_utf8 s1 = Ok b1 -> str_encode_utf8 s2 = Ok b2 ->
  str_encode_utf8 (s1 ++ s2) = Ok (b1 ++ b2).
Proof.
  revert b1. induction s1 as [|c s1 IH]; intros b1 E1 E2.
  - apply Ok_inj in E1. subst b1. exact E2.
  - cbn [str_encode_utf8 app] in *. destruct (encode_cp c) as [bc|]; [|discriminate].
    destruct (str_encode_utf8 s1) as [r|]; [|discriminate].
    apply Ok_inj in E1. subst b1. rewrite (IH r eq_refl E2), app_assoc. reflexivity.
Qed.

(** ASCII bytes decode to their code points. *)
Lemma bytes_decode_utf8_ascii (b : bytes) :
  Forall (fun x => ord x < 128) b -> bytes_decode_utf8 b = Ok (map ord b).
Proof.
  intros H. apply bytes_decode_utf8_encode.
  - apply Forall_map. eapply Forall_impl; [|exact H]. intros x Hx.
    pose proof (ord_range x). unfold valid_cp. lia.
  - rewrite str_encode_utf8_ascii.
    + rewrite map_map. f_equal. rewrite <- map_id. apply map_ext. apply chr_ord.
    + apply forallb_forall. intros c Hc. apply in_map_iff in Hc as (x & <- & Hx).
      rewrite Forall_forall in H. specialize (H x Hx). pose proof (ord_range x).
      unfold is_ascii. apply andb_true_intro. split; [apply Z.leb_le|apply Z.ltb_lt]; lia.
Qed.

(** Every byte of a non-ASCII code point has its high bit set. *)
Lemma encode_cp_high (c : Z) (bs : bytes) :
  0x80 <= c <= 0x10FFFF -> encode_cp c = Ok bs -> Forall (fun b => 128 <= ord b) bs.
Proof.
  intros Hc. unfold encode_cp. destruct (Z.ltb_spec c 0x80); [lia|].
  destruct (Z.ltb_spec c 0x800) as [L2|L2].
  { intros E; apply Ok_inj in E; subst bs. rewrite shiftr_6.
    repeat constructor; rewrite ?ord_cont; [|pose proof (Z.mod_pos_bound c 64); lia].
    rewrite (ord_chr_tag 0xC0 _ 5) by (reflexivity || zarith). zarith. }
  destruct (Z.ltb_spec c 0x10000) as [L3|L3]; [destruct (is_surrogate c); [discriminate|]|].
  { intros E; apply Ok_inj in E; subst bs. rewrite shiftr_6, shiftr_12.
    repeat constructor; rewrite ?ord_cont; try (pose proof (Z.mod_pos_bound (c / 64) 64); lia);
      try (pose proof (Z.mod_pos_bound c 64); lia).
    rewrite (ord_chr_tag 0xE0 _ 4) by (reflexivity || zarith). zarith. }
  { intros E; apply Ok_inj in E; subst bs. rewrite shiftr_6, shiftr_12, shiftr_18.
    repeat constructor; rewrite ?ord_cont; try (pose proof (Z.mod_pos_bound (c / 4096) 64); lia);
      try (pose proof (Z.mod_pos_bound (c / 64) 64); lia); try (pose proof (Z.mod_pos_bound c 64); lia).
    rewrite (ord_chr_tag 0xF0 _ 4) by (reflexivity || zarith). zarith. }
Qed.
