(* ===== verification/HashLib.v ===== *)
(** What the credential code needs of Python's [hashlib], as an interface.
    [util.py] calls [hashlib.sha256(data).hexdigest()] and
    [hashlib.pbkdf2_hmac("sha512", password, salt, 100000)] with the default
    key length.  The theorems of [Password] use only what this class
    states: both are functions (the same inputs give the same bytes), a
    SHA-256 digest has 32 bytes, and a PBKDF2 key has the digest size of
    its hash (64 bytes for SHA-512).  [toy_hashlib] is an executable
    instance, used to run the definitions on concrete inputs; it is not a
    cryptographic hash. *)

From Stdlib Require Import ZArith List Lia.
From S2P Require Import Prelude Bytes.
Import ListNotations.

(** The hash names the code passes to [hashlib]. *)
Inductive hash_name := sha256 | sha512.

(** [hashlib.new(name).digest_size]. *)
Definition digest_size (h : hash_name) : nat :=
  match h with sha256 => 32 | sha512 => 64 end.

Class HashLib := {
  (** [hashlib.sha256(data).digest()] *)
  sha256_digest : bytes -> bytes;
  (** [hashlib.pbkdf2_hmac(name, password, salt, iterations)] *)
  pbkdf2_hmac : hash_name -> bytes -> bytes -> Z -> bytes;
  sha256_digest_length : forall data, length (sha256_digest data) = digest_size sha256;
  pbkdf2_hmac_length : forall h pw salt n, length (pbkdf2_hmac h pw salt n) = digest_size h
}.

(** ** An executable instance *)

Definition pad_to (k : nat) (l : bytes) : bytes := firstn k (l ++ repeat Byte.x00 k).

Lemma pad_to_length (k : nat) (l : bytes) : length (pad_to k l) = k.
Proof. unfold pad_to. rewrite length_firstn, length_app, repeat_length. lia. Qed.

#[export] Instance toy_hashlib : HashLib := {
  sha256_digest data := pad_to 32 (rev data);
  pbkdf2_hmac h pw salt n := pad_to (digest_size h) (pw ++ salt);
  sha256_digest_length data := pad_to_length 32 (rev data);
  pbkdf2_hmac_length h pw salt n := pad_to_length (digest_size h) (pw ++ salt)
}.
