(* ===== verification/Password.v ===== *)
(** The credential subsystem of [src/apps/home/util.py]: [hash_pass]
    (lines 76-82) and [verify_pass] (lines 85-95).

    [hash_pass] takes the 60 bytes that [os.urandom(60)] returned as an
    argument ([urandom60]): the model is a function of the entropy, so "two
    calls give different credentials" is stated as "different entropy
    (with different SHA-256 digests) gives different credentials".
    Exceptions are [Err] values; the only ones on these paths are
    [UnicodeEncodeError] (a password holding a surrogate) and
    [UnicodeDecodeError] (a stored credential with a non-ASCII byte). *)

From Stdlib Require Import Bool ZArith List Lia.
From S2P Require Import Prelude Bytes Hex Utf8 HashLib.
Import ListNotations.

Section Credentials.
Context `{HL : HashLib}.

(** The iteration count both functions pass to PBKDF2. *)
Definition ITERATIONS : Z := 100000.

(** [hash_pass(password)] *)
Definition hash_pass (urandom60 : bytes) (password : pystr) : result bytes :=
  (* salt = hashlib.sha256(os.urandom(60)).hexdigest().encode("ascii") *)
  salt <- str_encode_ascii (hexdigest (sha256_digest urandom60)) ;;
  (* pwdhash = hashlib.pbkdf2_hmac("sha512", password.encode("utf-8"), salt, 100000) *)
  pw <- str_encode_utf8 password ;;
  let pwdhash := pbkdf2_hmac sha512 pw salt ITERATIONS in
  (* pwdhash = binascii.hexlify(pwdhash) *)
  let pwdhash := hexlify pwdhash in
  (* return salt + pwdhash *)
  Ok (salt ++ pwdhash).

(** [verify_pass(provided_password, stored_password)] *)
Definition verify_pass (provided_password : pystr) (stored_password : bytes)
  : result bool :=
  (* stored_password = stored_password.decode("ascii") *)
  stored <- bytes_decode_ascii stored_password ;;
  (* salt = stored_password[:64] *)
  let salt := py_slice stored None (Some 64%Z) in
  (* stored_password = stored_password[64:] *)
  let stored := py_slice stored (Some 64%Z) None in
  (* pwdhash = hashlib.pbkdf2_hmac("sha512", provided_password.encode("utf-8"),
                                   salt.encode("ascii"), 100000) *)
  pw <- str_encode_utf8 provided_password ;;
  salt_b <- str_encode_ascii salt ;;
  let pwdhash := pbkdf2_hmac sha512 pw salt_b ITERATIONS in
  (* pwdhash = binascii.hexlify(pwdhash).decode("ascii") *)
  pwdhash <- bytes_decode_ascii (hexlify pwdhash) ;;
  (* return pwdhash == stored_password *)
  Ok (pystr_eqb pwdhash stored).

(** The salt [hash_pass] derives from the entropy: 64 ASCII hex digits. *)
Definition salt_of (urandom60 : bytes) : bytes := hexlify (sha256_digest urandom60).

(** The derived-key part of a credential for the salt [salt]. *)
Definition derived_key_hex (pw salt : bytes) : bytes :=
  hexlify (pbkdf2_hmac sha512 pw salt ITERATIONS).

(** ** Lemmas *)

Lemma salt_of_length (r : bytes) : length (salt_of r) = 64%nat.
Proof. unfold salt_of. rewrite hexlify_length, sha256_digest_length. reflexivity. Qed.

Lemma derived_key_hex_length (pw salt : bytes) : length (derived_key_hex pw salt) = 128%nat.
Proof. unfold derived_key_hex. rewrite hexlify_length, pbkdf2_hmac_length. reflexivity. Qed.

(** A credential is all ASCII, so [verify_pass]'s first step succeeds. *)
Lemma decode_ascii_credential (salt dk : bytes) :
  bytes_decode_ascii (hexlify salt ++ hexlify dk) = Ok (hexdigest salt ++ hexdigest dk).
Proof.
  apply decode_encode_ascii. unfold str_encode_ascii, hexlify.
  rewrite forallb_app, !hexdigest_ascii, map_app. reflexivity.
Qed.

(** [verify_pass] on any [salt ++ key] layout whose salt has 64 bytes:
    it re-derives with the stored salt and compares. *)
Lemma verify_pass_layout (p : pystr) (salt dk : bytes) :
  length (hexdigest salt) = 64%nat ->
  verify_pass p (hexlify salt ++ hexlify dk) =
  match str_encode_utf8 p with
  | Ok pw => Ok (pystr_eqb (hexdigest (pbkdf2_hmac sha512 pw (hexlify salt) ITERATIONS))
                          (hexdigest dk))
  | Err e => Err e
  end.
Proof.
  intros Hs. unfold verify_pass. rewrite decode_ascii_credential.
  replace (Some 64%Z) with (Some (Z.of_nat (length (hexdigest salt)))) by (rewrite Hs; reflexivity).
  rewrite py_slice_prefix, py_slice_suffix.
  rewrite firstn_app_length, skipn_app_length.
  destruct (str_encode_utf8 p); [|reflexivity].
  rewrite encode_ascii_hexdigest, decode_ascii_hexlify. reflexivity.
Qed.

Lemma hexdigest_sha256_length (r : bytes) : length (hexdigest (sha256_digest r)) = 64%nat.
Proof. rewrite hexdigest_length, sha256_digest_length. reflexivity. Qed.

(** [hash_pass] in closed form: the salt, then the hex key. *)
Lemma hash_pass_eq (r : bytes) (p : pystr) :
  hash_pass r p =
  match str_encode_utf8 p with
  | Ok pw => Ok (salt_of r ++ derived_key_hex pw (salt_of r))
  | Err e => Err e
  end.
Proof. unfold hash_pass. rewrite encode_ascii_hexdigest. reflexivity. Qed.

Lemma hash_pass_err_iff (r : bytes) (p : pystr) (e : exn) :
  hash_pass r p = Err e <-> existsb is_surrogate p = true /\ e = UnicodeEncodeError.
Proof.
  rewrite hash_pass_eq. pose proof (str_encode_utf8_cases p) as C.
  destruct (str_encode_utf8 p) as [pw|e']; split; intros H; try discriminate.
  - destruct H. congruence.
  - inv H. exact C.
  - destruct C, H. subst. reflexivity.
Qed.

(** ** Theorems *)

(** [hash_pass] stores the hex salt followed by the hex PBKDF2 key
    derived from the UTF-8 password and that salt, or raises what the
    password's encoding raises. *)
Theorem hash_pass_spec (r : bytes) (p : pystr) :
  hash_pass r p =
  match str_encode_utf8 p with
  | Ok pw => Ok (salt_of r ++ derived_key_hex pw (salt_of r))
  | Err e => Err e
  end.
Proof. apply hash_pass_eq. Qed.

(** C1: verifying a password against the credential [hash_pass] made from
    it succeeds. *)
Theorem verify_hash_pass (r : bytes) (p : pystr) (c : bytes) :
  hash_pass r p = Ok c -> verify_pass p c = Ok true.
Proof.
  rewrite hash_pass_eq. destruct (str_encode_utf8 p) as [pw|] eqn:E; [|discriminate].
  intros H. apply Ok_inj in H. subst c. unfold salt_of, derived_key_hex.
  rewrite verify_pass_layout by apply hexdigest_sha256_length. rewrite E.
  f_equal. apply pystr_eqb_spec. reflexivity.
Qed.

(** C19: against a credential of [hash_pass], [verify_pass] returns
    [True] exactly when the provided password derives, with the stored
    salt, the same PBKDF2 key as the original one; it never raises for a
    password that encodes. *)
Theorem verify_pass_same_key (r : bytes) (p p' : pystr) (c pw pw' : bytes) :
  hash_pass r p = Ok c -> str_encode_utf8 p = Ok pw -> str_encode_utf8 p' = Ok pw' ->
  verify_pass p' c =
  Ok (bytes_eqb (pbkdf2_hmac sha512 pw' (salt_of r) ITERATIONS)
                (pbkdf2_hmac sha512 pw (salt_of r) ITERATIONS)).
Proof.
  rewrite hash_pass_eq. intros H Hp Hp'. rewrite Hp in H.
  apply Ok_inj in H. subst c. unfold salt_of, derived_key_hex.
  rewrite verify_pass_layout by apply hexdigest_sha256_length. rewrite Hp'. f_equal.
  destruct (bytes_eqb _ _) eqn:E.
  - apply bytes_eqb_spec in E. rewrite E. apply pystr_eqb_spec. reflexivity.
  - destruct (pystr_eqb _ _) eqn:F; auto. apply pystr_eqb_spec, hexdigest_inj in F.
    apply bytes_eqb_spec in F. congruence.
Qed.

(** C21: the error paths of [hash_pass]: it raises exactly when the
    password holds a surrogate code point, and then [UnicodeEncodeError]. *)
Theorem hash_pass_error (r : bytes) (p : pystr) (e : exn) :
  hash_pass r p = Err e <-> existsb is_surrogate p = true /\ e = UnicodeEncodeError.
Proof. apply hash_pass_err_iff. Qed.

(** A credential is 192 bytes (64 for the salt, 128 for the key),
    every one a lowercase hexadecimal digit. *)
Theorem hash_pass_layout (r : bytes) (p : pystr) (c : bytes) :
  hash_pass r p = Ok c ->
  length c = 192%nat /\ forallb (fun x => is_hex_lower (ord x)) c = true.
Proof.
  rewrite hash_pass_eq. destruct (str_encode_utf8 p); intros H; [|discriminate].
  apply Ok_inj in H. subst c. split.
  - rewrite length_app, salt_of_length, derived_key_hex_length. reflexivity.
  - unfold salt_of, derived_key_hex. rewrite forallb_app, !hexlify_alphabet. reflexivity.
Qed.

(** [verify_pass] re-derives with the salt stored in the credential:
    any 64-byte ASCII salt followed by the hex key derived with it
    verifies, whatever produced the salt. *)
Theorem verify_pass_stored_salt (p : pystr) (salt pw : bytes) :
  length salt = 64%nat -> forallb (fun x => is_ascii (ord x)) salt = true ->
  str_encode_utf8 p = Ok pw ->
  verify_pass p (salt ++ derived_key_hex pw salt) = Ok true.
Proof.
  intros Hl Ha Hp. unfold bytes_decode_ascii in Ha.
  assert (Ds : bytes_decode_ascii salt = Ok (map ord salt))
    by (unfold bytes_decode_ascii; rewrite Ha; reflexivity).
  unfold verify_pass, derived_key_hex.
  rewrite (decode_ascii_app _ _ _ _ Ds (decode_ascii_hexlify _)).
  change (Some 64%Z) with (Some (Z.of_nat 64)).
  rewrite py_slice_prefix, py_slice_suffix, <- Hl, <- (length_map ord salt).
  rewrite firstn_app_length, skipn_app_length, Hp.
  rewrite (encode_decode_ascii _ _ Ds), decode_ascii_hexlify.
  f_equal. apply pystr_eqb_spec. reflexivity.
Qed.

(** C28: a credential of the wrong length (not 64 + 128 characters) is not
    rejected as malformed: [verify_pass] returns [False] for every
    password, where spec §4.1 asks for a [MalformedCredentialError]. *)
Theorem verify_pass_wrong_length (p : pystr) (c pw : bytes) :
  forallb (fun x => is_ascii (ord x)) c = true -> length c <> 192%nat ->
  str_encode_utf8 p = Ok pw -> verify_pass p c = Ok false.
Proof.
  intros Ha Hl Hp.
  assert (Dc : bytes_decode_ascii c = Ok (map ord c))
    by (unfold bytes_decode_ascii; rewrite Ha; reflexivity).
  unfold verify_pass. rewrite Dc. change (Some 64%Z) with (Some (Z.of_nat 64)).
  rewrite py_slice_prefix, py_slice_suffix, Hp, (encode_ascii_firstn_decoded _ _ _ Dc).
  rewrite decode_ascii_hexlify. f_equal. apply pystr_eqb_length.
  rewrite hexdigest_length, pbkdf2_hmac_length, length_skipn, length_map. cbn. lia.
Qed.

(** C29: a stored credential with a byte outside ASCII makes [verify_pass]
    raise [UnicodeDecodeError] before any derivation. *)
Theorem verify_pass_non_ascii (p : pystr) (c : bytes) :
  forallb (fun x => is_ascii (ord x)) c = false -> verify_pass p c = Err UnicodeDecodeError.
Proof. intros H. unfold verify_pass, bytes_decode_ascii. rewrite H. reflexivity. Qed.

(** C20: two calls whose entropy has different SHA-256 digests store
    different salts, hence different credentials, for the same password. *)
Theorem hash_pass_fresh_salt (r1 r2 : bytes) (p : pystr) (c1 c2 : bytes) :
  sha256_digest r1 <> sha256_digest r2 ->
  hash_pass r1 p = Ok c1 -> hash_pass r2 p = Ok c2 -> c1 <> c2.
Proof.
  rewrite !hash_pass_eq. destruct (str_encode_utf8 p); [|discriminate].
  intros Hd H1 H2 Heq. apply Ok_inj in H1, H2. subst.
  apply app_inv_length in Heq as [Hs _]; [|rewrite !salt_of_length; reflexivity].
  apply Hd, hexlify_inj, Hs.
Qed.
End Credentials.

(** ** Runs on concrete inputs, with the executable [toy_hashlib] *)

Definition demo_entropy : bytes := repeat Byte.x2a 60.
Definition demo_entropy' : bytes := repeat Byte.x07 60.
(** ["secret"] and ["wrong"] *)
Definition secret : pystr := [115; 101; 99; 114; 101; 116]%Z.
Definition wrong : pystr := [119; 114; 111; 110; 103]%Z.

Definition credential_of (r : bytes) (p : pystr) : bytes :=
  match hash_pass r p with Ok c => c | Err _ => [] end.

Definition demo_credential : bytes := credential_of demo_entropy secret.

Lemma verify_hash_pass_witness :
  hash_pass demo_entropy secret = Ok demo_credential /\
  verify_pass secret demo_credential = Ok true.
Proof.
  split; [vm_compute; reflexivity|].
  apply (verify_hash_pass demo_entropy secret). vm_compute. reflexivity.
Defined.

Lemma verify_pass_same_key_witness :
  verify_pass wrong demo_credential = Ok false.
Proof.
  rewrite (verify_pass_same_key demo_entropy secret wrong demo_credential
             (map chr secret) (map chr wrong)) by (vm_compute; reflexivity).
  vm_compute. reflexivity.
Defined.

Lemma hash_pass_layout_witness :
  length demo_credential = 192%nat /\
  forallb (fun x => is_hex_lower (ord x)) demo_credential = true.
Proof. apply (hash_pass_layout demo_entropy secret). vm_compute. reflexivity. Defined.

Lemma verify_pass_stored_salt_witness :
  verify_pass secret (repeat Byte.x41 64 ++ derived_key_hex (map chr secret) (repeat Byte.x41 64))
  = Ok true.
Proof. apply verify_pass_stored_salt; vm_compute; reflexivity. Defined.

(** The spec's malformed-credential example [b"too-short"]. *)
Definition too_short : bytes :=
  [Byte.x74; Byte.x6f; Byte.x6f; Byte.x2d; Byte.x73; Byte.x68; Byte.x6f; Byte.x72; Byte.x74].

Lemma verify_pass_wrong_length_witness : verify_pass secret too_short = Ok false.
Proof.
  apply (verify_pass_wrong_length secret too_short (map chr secret));
    [vm_compute; reflexivity | discriminate | vm_compute; reflexivity].
Defined.

Lemma verify_pass_non_ascii_witness :
  verify_pass secret [Byte.xff] = Err UnicodeDecodeError.
Proof. apply verify_pass_non_ascii. vm_compute. reflexivity. Defined.

Lemma hash_pass_fresh_salt_witness :
  credential_of demo_entropy secret <> credential_of demo_entropy' secret.
Proof.
  apply (hash_pass_fresh_salt demo_entropy demo_entropy' secret); [| vm_compute; reflexivity ..].
  vm_compute. discriminate.
Defined.

#[export] Hint Resolve salt_of_length derived_key_hex_length hexdigest_sha256_length : pyrt.
