(* ===== verification/Policy.v ===== *)
(** The password policy of [src/apps/home/util.py]: [password_callable]
    (lines 65-66) and [is_valid_password] (lines 69-72), which the
    [register] handler calls.

    [is_valid_password] ends with
    [any(lambda a: password_callable(char) for char in password)]: the
    generator yields one lambda per character and never calls it, and a
    function object is truthy.  The model keeps that: the generator yields
    [PyFunc] values, and [any] tests their truthiness.

    [str.isdigit], [str.isupper] and [str.isalnum] depend on the Unicode
    database; they are the fields of the class [UnicodeCategories], whose
    laws fix them on ASCII, the only part the theorems need. *)

From Stdlib Require Import Bool ZArith List Lia.
From S2P Require Import Prelude Bytes.
Import ListNotations.
Open Scope Z_scope.

(** A Python value as [any] sees it: a boolean or a one-argument callable
    (the argument of [lambda a: ...] is never used; it is typed [Z]). *)
Inductive pyval :=
| PyBool (b : bool)
| PyFunc (f : Z -> bool).

(** [bool(v)]: a function object is always true. *)
Definition truthy (v : pyval) : bool :=
  match v with PyBool b => b | PyFunc _ => true end.

(** [any(iterable)] *)
Definition py_any_vals (l : list pyval) : bool := existsb truthy l.

Definition ascii_digit (c : Z) : bool := (48 <=? c) && (c <=? 57).
Definition ascii_upper (c : Z) : bool := (65 <=? c) && (c <=? 90).
Definition ascii_lower (c : Z) : bool := (97 <=? c) && (c <=? 122).

(** The character predicates of [str], on one code point. *)
Class UnicodeCategories := {
  isdigit : Z -> bool;
  isupper : Z -> bool;
  isalnum : Z -> bool;
  isdigit_ascii : forall c, 0 <= c < 128 -> isdigit c = ascii_digit c;
  isupper_ascii : forall c, 0 <= c < 128 -> isupper c = ascii_upper c;
  isalnum_ascii : forall c, 0 <= c < 128 ->
    isalnum c = ascii_digit c || ascii_upper c || ascii_lower c
}.

Section Policy.
Context `{UC : UnicodeCategories}.

(** [password_callable(character)] *)
Definition password_callable (character : Z) : bool :=
  isdigit character || isupper character || negb (isalnum character).

(** [is_valid_password(password)] *)
Definition is_valid_password (password : pystr) : bool :=
  if Z.of_nat (length password) <? 8 then false
  else py_any_vals (map (fun char => PyFunc (fun a => password_callable char)) password).

Lemma is_valid_password_eq (password : pystr) :
  is_valid_password password = (8 <=? Z.of_nat (length password)).
Proof.
  unfold is_valid_password. destruct (Z.ltb_spec (Z.of_nat (length password)) 8) as [H|H].
  - symmetry. apply Z.leb_gt. lia.
  - rewrite (proj2 (Z.leb_le _ _) H). destruct password as [|c s]; simpl in *; [lia|].
    reflexivity.
Qed.

(** ** Theorems *)

(** C11: [is_valid_password] accepts exactly the passwords of at least 8
    characters: the character test is never applied. *)
Theorem is_valid_password_length_only (password : pystr) :
  is_valid_password password = (8 <=? Z.of_nat (length password)).
Proof. apply is_valid_password_eq. Qed.

(** On ASCII, [password_callable] is false exactly for the lowercase
    letters: digits, capitals and every non-alphanumeric character pass. *)
Theorem password_callable_ascii (c : Z) :
  0 <= c < 128 -> password_callable c = negb (ascii_lower c).
Proof.
  intros Hc. unfold password_callable.
  rewrite isdigit_ascii, isupper_ascii, isalnum_ascii by exact Hc.
  unfold ascii_digit, ascii_upper, ascii_lower.
  repeat match goal with |- context [?a <=? ?b] => destruct (Z.leb_spec a b) end;
    cbv [andb orb negb]; try reflexivity; lia.
Qed.
End Policy.

(** ** An executable instance: the ASCII tables, no character beyond. *)
#[export] Instance ascii_categories : UnicodeCategories := {
  isdigit c := ascii_digit c;
  isupper c := ascii_upper c;
  isalnum c := ascii_digit c || ascii_upper c || ascii_lower c;
  isdigit_ascii c _ := eq_refl;
  isupper_ascii c _ := eq_refl;
  isalnum_ascii c _ := eq_refl
}.

(** ["aaaaaaaa"] *)
Definition eight_a : pystr := repeat 97 8.

Lemma password_callable_ascii_witness : password_callable 97 = false.
Proof. rewrite password_callable_ascii by lia. reflexivity. Defined.

