(* ===== verification/Models.v ===== *)
(** The ORM layer of [src/apps/home/models.py]: every table, its
    constraints, and what [db.session.delete] of a user removes.

    A table is an association list [(id, row)] in insertion order: the
    handlers call [.first()] without [order_by], which on SQLite returns
    rows in rowid order, and [User.query.get(id)] looks a row up by id.
    A new row's id is one more than the largest id (SQLite's [INTEGER
    PRIMARY KEY] without [AUTOINCREMENT]).  Columns that the code may leave
    unset are [option]s; [commit] enforces the [nullable=False] and
    [unique=True] constraints of the model and raises [IntegrityError]
    otherwise, leaving the database as it was (the session is discarded by
    [shutdown_session]).  The database holds the [User] and [Order] tables
    the views write and, in [aux_tables], the six tables no view writes
    (order items, monitor accounts, subscriptions, social-media channels,
    pricing tasks, cards).  Deleting a user deletes the rows of the three
    relationships of [User] with [cascade="all, delete-orphan"]; the other
    foreign keys are not enforced, as on SQLite ([orders_fk_ok]). *)

From Stdlib Require Import Bool ZArith List Lia.
From S2P Require Import Prelude Bytes Utf8 HashLib Password.
Import ListNotations.
Open Scope Z_scope.

(** A table: rows with their primary keys, in insertion order. *)
Abbreviation table A := (list (Z * A)).

(** [Model.query.get(id)] *)
Definition get_row {A} (t : table A) (id : Z) : option A :=
  option_map snd (find (fun '(k, _) => k =? id) t).

(** The next primary key: one past the largest. *)
Definition fresh_id {A} (t : table A) : Z := 1 + fold_right (fun '(k, _) m => Z.max k m) 0 t.

(** [UPDATE ... WHERE id = id]: apply [f] to the row with that key. *)
Definition update_row {A} (t : table A) (id : Z) (f : A -> A) : table A :=
  map (fun '(k, r) => if k =? id then (k, f r) else (k, r)) t.

(** [DELETE ... WHERE id = id] *)
Definition delete_row {A} (t : table A) (id : Z) : table A :=
  filter (fun '(k, _) => negb (k =? id)) t.

(** ** [class User] (lines 8-77) *)
Record user_row := mk_user {
  u_first_name : option pystr;
  u_last_name : option pystr;
  u_email : option pystr;
  u_username : option pystr;
  u_biography : option pystr;
  u_house_address : option pystr;
  u_is_active : option bool;
  u_is_admin : option bool;
  u_password : option bytes
}.

Section UserModel.
Context `{HL : HashLib}.

(** [User.__init__(first_name, last_name, username, email, password,
    house_address=None, is_active=True, is_admin=False)]; [hash_pass] draws
    its salt from [urandom60].  [biography] is not assigned. *)
Definition user_init (urandom60 : bytes) (first_name last_name username email password : pystr)
  (house_address : option pystr) (is_active is_admin : bool) : result user_row :=
  pw <- hash_pass urandom60 password ;;
  Ok {| u_first_name := Some first_name; u_last_name := Some last_name;
        u_email := Some email; u_username := Some username; u_biography := None;
        u_house_address := house_address; u_is_active := Some is_active;
        u_is_admin := Some is_admin; u_password := Some pw |}.

(** [User.set_password(plain_password)] *)
Definition set_password (urandom60 : bytes) (u : user_row) (plain_password : pystr)
  : result user_row :=
  pw <- hash_pass urandom60 plain_password ;;
  Ok {| u_first_name := u_first_name u; u_last_name := u_last_name u;
        u_email := u_email u; u_username := u_username u; u_biography := u_biography u;
        u_house_address := u_house_address u; u_is_active := u_is_active u;
        u_is_admin := u_is_admin u; u_password := Some pw |}.
End UserModel.

(** [User.format()]: the JSON object the admin listing returns. *)
Record user_json := {
  j_id : Z; j_first_name : option pystr; j_last_name : option pystr;
  j_username : option pystr; j_email : option pystr; j_house_address : option pystr;
  j_is_active : option bool; j_is_admin : option bool
}.

Definition user_format (id : Z) (u : user_row) : user_json :=
  {| j_id := id; j_first_name := u_first_name u; j_last_name := u_last_name u;
     j_username := u_username u; j_email := u_email u; j_house_address := u_house_address u;
     j_is_active := u_is_active u; j_is_admin := u_is_admin u |}.

(** [f"{value}"] / [str(value)] of a nullable text column: ["None"] for NULL. *)
Definition py_str_opt (v : option pystr) : pystr :=
  match v with Some s => s | None => [78; 111; 110; 101] end.

(** [User.__repr__]: [str(self.username)] *)
Definition user_repr (u : user_row) : pystr := py_str_opt (u_username u).

(** [User.name]: [f"{self.first_name} {self.last_name}"] *)
Definition user_name (u : user_row) : pystr :=
  py_str_opt (u_first_name u) ++ [32] ++ py_str_opt (u_last_name u).

(** Setting the [is_admin] column, as [make_admin] and [remove_admin] do. *)
Definition with_admin (b : bool) (u : user_row) : user_row :=
  {| u_first_name := u_first_name u; u_last_name := u_last_name u;
     u_email := u_email u; u_username := u_username u; u_biography := u_biography u;
     u_house_address := u_house_address u; u_is_active := u_is_active u;
     u_is_admin := Some b; u_password := u_password u |}.

(** ** Constraints of the [jd_users] table *)

(** [nullable=False]: first_name, last_name, email, username, biography. *)
Definition user_not_null (u : user_row) : bool :=
  match u_first_name u, u_last_name u, u_email u, u_username u, u_biography u with
  | Some _, Some _, Some _, Some _, Some _ => true
  | _, _, _, _, _ => false
  end.

Definition opt_pystr_eqb (a b : option pystr) : bool :=
  match a, b with Some x, Some y => pystr_eqb x y | _, _ => false end.

Definition opt_z_eqb (a b : option Z) : bool :=
  match a, b with Some x, Some y => x =? y | _, _ => false end.

(** [unique=True] on a column: no two rows share a non-NULL value. *)
Fixpoint unique_on (col : user_row -> option pystr) (t : table user_row) : bool :=
  match t with
  | [] => true
  | (_, u) :: rest =>
      negb (existsb (fun '(_, v) => opt_pystr_eqb (col u) (col v)) rest) && unique_on col rest
  end.

(** A uniqueness constraint over a table: no two rows [same]. *)
Fixpoint unique_key {A} (same : A -> A -> bool) (t : table A) : bool :=
  match t with
  | [] => true
  | (_, r) :: rest => negb (existsb (fun '(_, r') => same r r') rest) && unique_key same rest
  end.

Fixpoint keys_distinct {A} (t : table A) : bool :=
  match t with
  | [] => true
  | (k, _) :: rest => negb (existsb (fun '(k', _) => k =? k') rest) && keys_distinct rest
  end.

Definition users_ok (t : table user_row) : bool :=
  forallb (fun '(_, u) => user_not_null u) t && unique_on u_username t
  && unique_on u_email t && keys_distinct t.

(** ** [class Order] (lines 147-175) and [class OrderItem] (lines 178-199) *)
Record order_row := mk_order {
  o_user_id : option Z;
  o_order_date : option Z;
  o_total_price : option Z;   (** [Numeric(10, 2)], in cents *)
  o_payment_status : option bool
}.

(** [Order.__init__(user_id, order_date, total_price, payment_status=False)] *)
Definition order_init (user_id : option Z) (order_date : Z) (total_price : option Z) : order_row :=
  {| o_user_id := user_id; o_order_date := Some order_date; o_total_price := total_price;
     o_payment_status := Some false |}.

Definition with_paid (o : order_row) : order_row :=
  {| o_user_id := o_user_id o; o_order_date := o_order_date o;
     o_total_price := o_total_price o; o_payment_status := Some true |}.

(** [Order.format()] *)
Record order_json := {
  oj_order_id : Z; oj_user_id : option Z; oj_order_date : option Z;
  oj_total_price : option Z; oj_payment_status : option bool
}.

Definition order_format (id : Z) (o : order_row) : order_json :=
  {| oj_order_id := id; oj_user_id := o_user_id o; oj_order_date := o_order_date o;
     oj_total_price := o_total_price o; oj_payment_status := o_payment_status o |}.

Definition order_not_null (o : order_row) : bool :=
  match o_user_id o, o_order_date o, o_total_price o, o_payment_status o with
  | Some _, Some _, Some _, Some _ => true
  | _, _, _, _ => false
  end.

(** ** The tables no view writes *)

(** [class UserAccountMonitor] (lines 80-91) *)
Record monitor_account_row := mk_monitor_account {
  ma_user_id : option Z;
  ma_api_key : option pystr;
  ma_secret_key : option pystr;
  ma_passphrase : option pystr;
  ma_exchange_name : option pystr;
  ma_trade_type : option Z;
  ma_task_status : option Z;
  ma_date_added : option Z;
  ma_date_updated : option Z
}.

Definition monitor_account_not_null (r : monitor_account_row) : bool :=
  is_set (ma_user_id r) && is_set (ma_api_key r) && is_set (ma_secret_key r)
  && is_set (ma_passphrase r) && is_set (ma_exchange_name r) && is_set (ma_task_status r)
  && is_set (ma_date_added r) && is_set (ma_date_updated r).

(** [class Subscription] (lines 94-102) *)
Record subscription_row := mk_subscription {
  s_user_id : option Z;
  s_is_active : option bool;
  s_start_date : option Z;
  s_end_date : option Z;
  s_date_subscribed : option Z;
  s_sub_type : option pystr
}.

Definition subscription_not_null (r : subscription_row) : bool :=
  is_set (s_user_id r) && is_set (s_start_date r) && is_set (s_date_subscribed r)
  && is_set (s_sub_type r).

(** [class SocialMediaChannel] (lines 105-116), with its
    [UniqueConstraint("user_id", "channel_name", "username")]. *)
Record social_media_row := mk_social_media {
  sm_user_id : option Z;
  sm_channel_name : option pystr;
  sm_username : option pystr
}.

Definition social_media_not_null (r : social_media_row) : bool :=
  is_set (sm_user_id r) && is_set (sm_channel_name r) && is_set (sm_username r).

(** Two rows clash under [sm_unique_constraint] when the three columns are
    equal and not NULL (SQL treats NULLs as distinct). *)
Definition social_media_same (r r' : social_media_row) : bool :=
  opt_z_eqb (sm_user_id r) (sm_user_id r') && opt_pystr_eqb (sm_channel_name r) (sm_channel_name r')
  && opt_pystr_eqb (sm_username r) (sm_username r').

(** [class AssignedPricingTask] (lines 119-132) *)
Record pricing_task_row := mk_pricing_task {
  pt_user_id : option Z;
  pt_date_created : option Z;
  pt_date_updated : option Z;
  pt_symbols : option pystr;
  pt_trade_type : option pystr;
  pt_exchange : option pystr;
  pt_percentage : option Z;
  pt_direction : option pystr;
  pt_time_ms : option Z;
  pt_duration : option pystr;
  pt_status : option pystr
}.

Definition pricing_task_not_null (r : pricing_task_row) : bool :=
  is_set (pt_user_id r) && is_set (pt_date_created r) && is_set (pt_date_updated r)
  && is_set (pt_symbols r) && is_set (pt_trade_type r) && is_set (pt_exchange r).

(** [class PaymentInformation] (lines 135-144); [belongs_to] may be NULL. *)
Record payment_information_row := mk_payment_information {
  pi_belongs_to : option Z;
  pi_name_on_card : option pystr;
  pi_card_number : option pystr;
  pi_cvv2 : option pystr;
  pi_expiry_month : option Z;
  pi_expiry_year : option Z
}.

Definition payment_information_not_null (r : payment_information_row) : bool :=
  is_set (pi_name_on_card r) && is_set (pi_card_number r) && is_set (pi_cvv2 r)
  && is_set (pi_expiry_month r) && is_set (pi_expiry_year r).

(** [card_number] is [unique=True]. *)
Definition card_same (r r' : payment_information_row) : bool :=
  opt_pystr_eqb (pi_card_number r) (pi_card_number r').

(** [class OrderItem] (lines 178-188) *)
Record order_item_row := mk_order_item {
  oi_order_id : option Z;
  oi_quantity : option Z;
  oi_price : option Z   (** [Numeric(10, 2)], in cents *)
}.

(** [OrderItem.__init__(order_id, quantity, price)] *)
Definition order_item_init (order_id quantity price : option Z) : order_item_row :=
  {| oi_order_id := order_id; oi_quantity := quantity; oi_price := price |}.

(** [OrderItem.format()] *)
Record order_item_json := {
  oij_order_item_id : Z; oij_order_id : option Z; oij_quantity : option Z; oij_price : option Z
}.

Definition order_item_format (id : Z) (r : order_item_row) : order_item_json :=
  {| oij_order_item_id := id; oij_order_id := oi_order_id r; oij_quantity := oi_quantity r;
     oij_price := oi_price r |}.

Definition order_item_not_null (r : order_item_row) : bool :=
  is_set (oi_order_id r) && is_set (oi_quantity r) && is_set (oi_price r).

Record aux_tables := mk_aux {
  order_items : table order_item_row;
  monitor_accounts : table monitor_account_row;
  subscriptions : table subscription_row;
  social_media : table social_media_row;
  pricing_tasks : table pricing_task_row;
  payment_information : table payment_information_row
}.

Definition empty_aux : aux_tables := mk_aux [] [] [] [] [] [].

(** A table's own constraints: non-NULL columns and distinct keys. *)
Definition rows_ok {A} (not_null : A -> bool) (t : table A) : bool :=
  forallb (fun '(_, r) => not_null r) t && keys_distinct t.

Definition aux_ok (x : aux_tables) : bool :=
  rows_ok order_item_not_null (order_items x)
  && rows_ok monitor_account_not_null (monitor_accounts x)
  && rows_ok subscription_not_null (subscriptions x)
  && rows_ok social_media_not_null (social_media x) && unique_key social_media_same (social_media x)
  && rows_ok pricing_task_not_null (pricing_tasks x)
  && rows_ok payment_information_not_null (payment_information x)
  && unique_key card_same (payment_information x).

(** ** The database and [db.session.commit()] *)
Record db := mk_db {
  users : table user_row;
  orders : table order_row;
  aux : aux_tables
}.

Definition set_users (d : db) (t : table user_row) : db := {| d with users := t |}.
Definition set_orders (d : db) (t : table order_row) : db := {| d with orders := t |}.

(** The database [db.create_all()] makes: every table empty. *)
Definition empty_db : db := mk_db [] [] empty_aux.

Definition db_ok (d : db) : bool :=
  users_ok (users d) && rows_ok order_not_null (orders d) && aux_ok (aux d).

(** Rows whose foreign key names the user [id]. *)
Definition owned_by (owner : option Z) (id : Z) : bool :=
  match owner with Some k => k =? id | None => false end.

Definition drop_owned {A} (owner : A -> option Z) (id : Z) (t : table A) : table A :=
  filter (fun '(_, r) => negb (owned_by (owner r) id)) t.

(** [db.session.delete(user)]: the relationships [social_media],
    [pricing_tasks] and [cards] of [User] (lines 20-31) cascade
    ["all, delete-orphan"], so the rows pointing to the user are deleted
    with it.  Orders, order items, monitor accounts and subscriptions have
    a foreign key but no relationship on [User]: they stay, their
    [user_id] naming no user (SQLite leaves foreign keys unenforced). *)
Definition cascade_user_delete (id : Z) (x : aux_tables) : aux_tables :=
  mk_aux (order_items x) (monitor_accounts x) (subscriptions x)
    (drop_owned sm_user_id id (social_media x)) (drop_owned pt_user_id id (pricing_tasks x))
    (drop_owned pi_belongs_to id (payment_information x)).

Definition delete_user_rows (d : db) (id : Z) : db :=
  mk_db (delete_row (users d) id) (orders d) (cascade_user_delete id (aux d)).

(** Referential integrity of [Order.user_id] ([ForeignKey("jd_users.id")]),
    which no part of the stack enforces. *)
Definition orders_fk_ok (d : db) : bool :=
  forallb (fun '(_, o) => match o_user_id o with
                          | Some u => is_set (get_row (users d) u)
                          | None => true
                          end) (orders d).

Definition commit (pending : db) : result db :=
  if db_ok pending then Ok pending else Err IntegrityError.

Lemma commit_ok (pending d : db) : commit pending = Ok d -> d = pending /\ db_ok d = true.
Proof. unfold commit. destruct (db_ok pending) eqn:E; intros H; inv H; auto. Qed.

(** ** The constraints under the handlers' updates *)

Section TablePreservation.
Context {A : Type}.

Lemma get_row_cons (k id : Z) (r : A) (t : table A) :
  get_row ((k, r) :: t) id = if k =? id then Some r else get_row t id.
Proof. unfold get_row. simpl. destruct (k =? id); reflexivity. Qed.

Lemma existsb_filter (p : Z * A -> bool) (q : Z * A -> bool) (t : table A) :
  existsb q (filter p t) = true -> existsb q t = true.
Proof.
  induction t as [|x t IH]; simpl; [discriminate|]. destruct (p x); simpl; intros H.
  - apply orb_true_iff in H as [H|H]; [rewrite H; reflexivity|].
    rewrite IH by exact H. apply orb_true_r.
  - rewrite IH by exact H. apply orb_true_r.
Qed.

Lemma keys_distinct_filter (p : Z * A -> bool) (t : table A) :
  keys_distinct t = true -> keys_distinct (filter p t) = true.
Proof.
  induction t as [|[k r] t IH]; simpl; auto.
  intros H. apply andb_true_iff in H as [H1 H2]. destruct (p (k, r)); simpl; auto.
  rewrite IH by exact H2. rewrite andb_true_r. apply negb_true_iff.
  apply negb_true_iff in H1. destruct (existsb _ (filter p t)) eqn:E; auto.
  apply existsb_filter in E. congruence.
Qed.

Lemma keys_distinct_fst (t1 t2 : table A) :
  map fst t1 = map fst t2 -> keys_distinct t1 = keys_distinct t2.
Proof.
  revert t2; induction t1 as [|[k r] t1 IH]; intros [|[k' r'] t2] H; try discriminate; auto.
  simpl in H. injection H as -> H. simpl. rewrite (IH t2 H). f_equal. f_equal.
  clear IH. revert t2 H; induction t1 as [|[j s] t1 IH]; intros [|[j' s'] t2] H;
    try discriminate; auto.
  simpl in H. injection H as -> H. simpl. rewrite (IH t2 H). reflexivity.
Qed.

Lemma update_row_fst (t : table A) (id : Z) (f : A -> A) :
  map fst (update_row t id f) = map fst t.
Proof. induction t as [|[k r] t IH]; simpl; auto. destruct (k =? id); simpl; congruence. Qed.

Lemma keys_distinct_update (t : table A) (id : Z) (f : A -> A) :
  keys_distinct (update_row t id f) = keys_distinct t.
Proof. apply keys_distinct_fst, update_row_fst. Qed.

Lemma get_row_delete_eq (t : table A) (id : Z) : get_row (delete_row t id) id = None.
Proof.
  induction t as [|[k r] t IH]; auto. unfold delete_row in *. simpl.
  destruct (Z.eqb_spec k id); simpl; auto. rewrite get_row_cons.
  destruct (Z.eqb_spec k id); [congruence|exact IH].
Qed.

Lemma get_row_delete_ne (t : table A) (id k : Z) :
  k <> id -> get_row (delete_row t id) k = get_row t k.
Proof.
  intros Hne. induction t as [|[k' r] t IH]; auto. unfold delete_row in *. simpl.
  rewrite get_row_cons. destruct (Z.eqb_spec k' id); simpl.
  - subst. destruct (Z.eqb_spec id k); [congruence|exact IH].
  - rewrite get_row_cons. rewrite IH. reflexivity.
Qed.

Lemma get_row_update_eq (t : table A) (id : Z) (f : A -> A) :
  get_row (update_row t id f) id = option_map f (get_row t id).
Proof.
  induction t as [|[k r] t IH]; auto. unfold update_row in *. simpl.
  destruct (Z.eqb_spec k id) as [->|Hne]; rewrite !get_row_cons.
  - rewrite Z.eqb_refl. reflexivity.
  - rewrite (proj2 (Z.eqb_neq k id) Hne). exact IH.
Qed.
End TablePreservation.

Lemma forallb_filter_true {A} (f p : A -> bool) (l : list A) :
  forallb f l = true -> forallb f (filter p l) = true.
Proof.
  induction l as [|x l IH]; simpl; auto. intros H. apply andb_true_iff in H as [H1 H2].
  destruct (p x); simpl; rewrite ?H1; auto.
Qed.

Lemma unique_key_filter {A} (same : A -> A -> bool) (p : Z * A -> bool) (t : table A) :
  unique_key same t = true -> unique_key same (filter p t) = true.
Proof.
  induction t as [|[k u] t IH]; simpl; auto.
  intros H. apply andb_true_iff in H as [H1 H2]. destruct (p (k, u)); simpl; auto.
  rewrite IH by exact H2. rewrite andb_true_r. apply negb_true_iff.
  apply negb_true_iff in H1. destruct (existsb _ (filter p t)) eqn:E; auto.
  apply existsb_filter in E. congruence.
Qed.

Lemma unique_on_key (col : user_row -> option pystr) (t : table user_row) :
  unique_on col t = unique_key (fun u v => opt_pystr_eqb (col u) (col v)) t.
Proof. induction t as [|[k u] t IH]; simpl; [reflexivity | rewrite IH; reflexivity]. Qed.

Lemma unique_on_filter (col : user_row -> option pystr) (p : Z * user_row -> bool)
  (t : table user_row) :
  unique_on col t = true -> unique_on col (filter p t) = true.
Proof. rewrite !unique_on_key. apply unique_key_filter. Qed.

Lemma rows_ok_filter {A} (nn : A -> bool) (p : Z * A -> bool) (t : table A) :
  rows_ok nn t = true -> rows_ok nn (filter p t) = true.
Proof.
  unfold rows_ok. intros H. apply andb_true_iff in H as [H1 H2].
  rewrite (forallb_filter_true _ _ _ H1), (keys_distinct_filter _ _ H2). reflexivity.
Qed.

(** Updating a column that a uniqueness constraint does not watch keeps it. *)
Lemma unique_on_update (col : user_row -> option pystr) (t : table user_row) (id : Z)
  (f : user_row -> user_row) :
  (forall u, col (f u) = col u) -> unique_on col (update_row t id f) = unique_on col t.
Proof.
  intros Hf. induction t as [|[k u] t IH]; simpl; auto.
  assert (E : forall c, existsb (fun '(_, v) => opt_pystr_eqb c (col v)) (update_row t id f)
                      = existsb (fun '(_, v) => opt_pystr_eqb c (col v)) t).
  { intros c. clear IH. induction t as [|[k' v] t IHt]; simpl; auto.
    destruct (k' =? id); simpl; rewrite ?Hf, IHt; reflexivity. }
  destruct (k =? id); simpl; rewrite ?Hf, E, IH; reflexivity.
Qed.

Lemma forallb_not_null_update (t : table user_row) (id : Z) (f : user_row -> user_row) :
  (forall u, user_not_null (f u) = user_not_null u) ->
  forallb (fun '(_, u) => user_not_null u) (update_row t id f)
  = forallb (fun '(_, u) => user_not_null u) t.
Proof.
  intros Hf. induction t as [|[k u] t IH]; simpl; auto.
  destruct (k =? id); simpl; rewrite ?Hf, IH; reflexivity.
Qed.


Lemma aux_ok_cascade (x : aux_tables) (id : Z) :
  aux_ok x = true -> aux_ok (cascade_user_delete id x) = true.
Proof.
  unfold aux_ok, cascade_user_delete, drop_owned. cbn [order_items monitor_accounts subscriptions social_media
    pricing_tasks payment_information]. intros H. repeat rewrite andb_true_iff in H |- *.
  destruct H as [[[[[[[H1 H2] H3] H4] H5] H6] H7] H8].
  repeat split; auto using rows_ok_filter, unique_key_filter.
Qed.

(** Deleting a user, with the rows its relationships cascade to, keeps
    the database's constraints. *)
Lemma db_ok_delete_user (d : db) (id : Z) :
  db_ok d = true -> db_ok (delete_user_rows d id) = true.
Proof.
  unfold db_ok, users_ok, delete_user_rows, delete_row. cbn [users orders aux]. intros H.
  repeat rewrite andb_true_iff in H |- *. destruct H as [[[[[Hn Hu] He] Hk] Ho] Ha].
  repeat split; auto using forallb_filter_true, unique_on_filter, keys_distinct_filter, aux_ok_cascade.
Qed.

Lemma in_drop_owned {A} (owner : A -> option Z) (id k : Z) (r : A) (t : table A) :
  In (k, r) (drop_owned owner id t) <-> In (k, r) t /\ owner r <> Some id.
Proof.
  unfold drop_owned. rewrite filter_In. cbn. rewrite negb_true_iff.
  unfold owned_by. destruct (owner r) as [j|]; [|intuition congruence].
  rewrite Z.eqb_neq. intuition congruence.
Qed.

(** Setting [is_admin] keeps the database's constraints. *)
Lemma db_ok_set_admin (d : db) (id : Z) (b : bool) :
  db_ok (set_users d (update_row (users d) id (with_admin b))) = db_ok d.
Proof.
  unfold db_ok, users_ok, set_users. cbn [users orders aux].
  rewrite forallb_not_null_update, !unique_on_update, keys_distinct_update by reflexivity.
  reflexivity.
Qed.

(** A row with a NULL in a [nullable=False] column never commits. *)
Lemma commit_null_user_fails (d : db) (k : Z) (u : user_row) :
  user_not_null u = false -> commit (set_users d (users d ++ [(k, u)])) = Err IntegrityError.
Proof.
  intros H. unfold commit, db_ok, users_ok, set_users. cbn [users]. rewrite forallb_app. simpl.
  rewrite H, andb_false_r. reflexivity.
Qed.

Lemma user_init_no_biography `{HashLib} (r : bytes) f l n e p h a b u :
  user_init r f l n e p h a b = Ok u -> u_biography u = None.
Proof. unfold user_init. destruct (hash_pass r p); intros H'; inv H'. reflexivity. Qed.

Lemma user_not_null_no_biography (u : user_row) : u_biography u = None -> user_not_null u = false.
Proof.
  unfold user_not_null. intros ->.
  destruct (u_first_name u), (u_last_name u), (u_email u), (u_username u); reflexivity.
Qed.

(** No user that [User.__init__] builds can be committed. *)
Lemma user_init_commit_fails `{HashLib} (d : db) (k : Z) (r : bytes) f l n e p h a b u :
  user_init r f l n e p h a b = Ok u ->
  commit (set_users d (users d ++ [(k, u)])) = Err IntegrityError.
Proof.
  intros Hu. apply commit_null_user_fails, user_not_null_no_biography.
  exact (user_init_no_biography _ _ _ _ _ _ _ _ _ _ Hu).
Qed.

(** ** Inserting a row under a fresh key, and updating it *)

Section FreshRows.
Context {A : Type}.

Lemma fresh_id_gt (t : table A) (k : Z) (r : A) : In (k, r) t -> k < fresh_id t.
Proof.
  unfold fresh_id. induction t as [|[k' r'] t IH]; cbn [In fold_right]; [tauto|].
  intros [E|H]; [inv E; lia|specialize (IH H); lia].
Qed.

Lemma fresh_id_new (t : table A) : forall k r, In (k, r) t -> k <> fresh_id t.
Proof. intros k r H. pose proof (fresh_id_gt t k r H). lia. Qed.

Lemma keys_distinct_app_new (t : table A) (n : Z) (x : A) :
  (forall k r, In (k, r) t -> k <> n) -> keys_distinct (t ++ [(n, x)]) = keys_distinct t.
Proof.
  induction t as [|[k r] t IH]; intros Hn; [reflexivity|]. cbn [app keys_distinct].
  rewrite existsb_app. cbn [existsb]. rewrite (proj2 (Z.eqb_neq k n)) by (apply (Hn k r); left; reflexivity).
  rewrite orb_false_r, IH by (intros k' r' H; apply (Hn k' r'); right; exact H). reflexivity.
Qed.

Lemma get_row_app_new (t : table A) (n : Z) (x : A) :
  (forall k r, In (k, r) t -> k <> n) -> get_row (t ++ [(n, x)]) n = Some x.
Proof.
  induction t as [|[k r] t IH]; intros Hn.
  - cbn [app]. rewrite get_row_cons, Z.eqb_refl. reflexivity.
  - cbn [app]. rewrite get_row_cons, (proj2 (Z.eqb_neq k n)) by (apply (Hn k r); left; reflexivity).
    apply IH. intros k' r' H. apply (Hn k' r'). right. exact H.
Qed.

Lemma update_row_app_new (t : table A) (n : Z) (x : A) (f : A -> A) :
  (forall k r, In (k, r) t -> k <> n) -> update_row (t ++ [(n, x)]) n f = t ++ [(n, f x)].
Proof.
  induction t as [|[k r] t IH]; intros Hn.
  - unfold update_row. cbn [app map]. rewrite Z.eqb_refl. reflexivity.
  - unfold update_row in *. cbn [app map].
    rewrite (proj2 (Z.eqb_neq k n)) by (apply (Hn k r); left; reflexivity).
    rewrite IH by (intros k' r' H; apply (Hn k' r'); right; exact H). reflexivity.
Qed.

Lemma update_row_idem (t : table A) (id : Z) (f : A -> A) :
  (forall a, f (f a) = f a) -> update_row (update_row t id f) id f = update_row t id f.
Proof.
  intros Hf. unfold update_row. rewrite map_map. apply map_ext. intros [k r].
  destruct (Z.eqb_spec k id) as [E|E]; cbn.
  - rewrite (proj2 (Z.eqb_eq k id) E), Hf. reflexivity.
  - rewrite (proj2 (Z.eqb_neq k id) E). reflexivity.
Qed.

Lemma forallb_update_row (P : A -> bool) (t : table A) (id : Z) (f : A -> A) :
  (forall r, P r = true -> P (f r) = true) ->
  forallb (fun '(_, r) => P r) t = true -> forallb (fun '(_, r) => P r) (update_row t id f) = true.
Proof.
  intros Hf. induction t as [|[k r] t IH]; intros H; [reflexivity|].
  cbn [forallb] in H. apply andb_true_iff in H as [H1 H2].
  unfold update_row in *. cbn [map]. destruct (k =? id); cbn [forallb];
    apply andb_true_iff; split; auto.
Qed.
End FreshRows.

(** [db.session.add(order); db.session.commit()] of an order with no NULL
    keeps the constraints. *)
Lemma db_ok_add_order (d : db) (o : order_row) :
  db_ok d = true -> order_not_null o = true ->
  db_ok (set_orders d (orders d ++ [(fresh_id (orders d), o)])) = true.
Proof.
  unfold db_ok, rows_ok, set_orders. cbn [users orders aux]. intros H Ho.
  repeat rewrite andb_true_iff in H. destruct H as [[Hu [Hn Hk]] Ha].
  rewrite Hu, Ha, forallb_app, Hn, keys_distinct_app_new by apply fresh_id_new. cbn. rewrite Ho, Hk.
  reflexivity.
Qed.

Lemma with_paid_not_null (o : order_row) : order_not_null o = true -> order_not_null (with_paid o) = true.
Proof. unfold order_not_null, with_paid. cbn. destruct (o_user_id o), (o_order_date o), (o_total_price o), (o_payment_status o); auto. Qed.

(** Marking an order paid keeps the constraints. *)
Lemma db_ok_pay_order (d : db) (id : Z) :
  db_ok d = true -> db_ok (set_orders d (update_row (orders d) id with_paid)) = true.
Proof.
  unfold db_ok, rows_ok, set_orders. cbn [users orders aux]. intros H.
  repeat rewrite andb_true_iff in H. destruct H as [[Hu [Hn Hk]] Ha].
  rewrite Hu, Ha, keys_distinct_update, Hk, (forallb_update_row order_not_null) by (exact with_paid_not_null || exact Hn).
  reflexivity.
Qed.

Lemma fresh_id_pos {A} (t : table A) : 0 < fresh_id t.
Proof.
  unfold fresh_id. enough (0 <= fold_right (fun '(k, _) m => Z.max k m) 0 t) by lia.
  induction t as [|[k r] t IH]; cbn [fold_right]; lia.
Qed.
