(* ===== verification/Web.v ===== *)
(** The request layer the handlers of [src/apps/home/routes.py] run in:
    responses, the server state (database and the session's user id), the
    user Flask-Login exposes as [current_user], and the decorators
    [admin_required] and [user_logged_in] of [src/apps/home/util.py]
    (lines 39-62).

    [current_user] is computed as Flask-Login does: the session's user id
    through [user_loader] (models.py lines 202-204); when that gives no
    user, the [request_loader] (models.py lines 207-211), which loads the
    user named by the request's form field [username], with no password.
    A loaded user's [is_authenticated] is its [is_active] column
    ([UserMixin] of Flask-Login 0.6; the column shadows the property).

    A handler is a function of the state that returns a response and the
    new state, or raises; an exception that escapes becomes a 500 response
    with the state unchanged (the session is removed at teardown). *)

From Stdlib Require Import Bool ZArith List Lia.
From Stdlib Require String.
Import String.StringSyntax.
From S2P Require Import Prelude Bytes Models.
Import ListNotations.
Open Scope Z_scope.
Local Open Scope string_scope.
Local Open Scope list_scope.

(** ** Responses *)
Inductive response :=
| Redirect (endpoint : String.string)
| Page (template : String.string) (msg : option String.string) (status : Z)
| JsonMsg (message : String.string) (status : Z)
| JsonUsers (data : list user_json) (total : nat)
| JsonCheckout (session_id url : String.string) (status : Z)
| JsonCsrfToken (status : Z)            (** [jsonify({"csrf_token": ...})] *)
| TemplatePage (template : pystr)       (** [render_template] of a computed name *)
| HttpError (status : Z).               (** Werkzeug's default error page *)

(** ** Server state *)
Record world := mk_world {
  w_db : db;
  w_session : option Z     (** [session["_user_id"]] *)
}.

Definition set_db (w : world) (d : db) : world := mk_world d (w_session w).
Definition set_session (w : world) (s : option Z) : world := mk_world (w_db w) s.

Inductive http_method := GET | POST | DELETE.

(** What a handler reads from the request besides its own arguments. *)
Record request := mk_request {
  req_method : http_method;
  req_form_username : option pystr   (** [request.form.get("username")] *)
}.

Abbreviation handler := (world -> result (response * world)).

(** ** [current_user] *)

(** [user_loader(user_id)]: [User.query.filter_by(id=user_id).first()] *)
Definition user_loader (d : db) (user_id : Z) : option (Z * user_row) :=
  option_map (pair user_id) (get_row (users d) user_id).

Definition username_is (n : pystr) (u : user_row) : bool := opt_pystr_eqb (u_username u) (Some n).

(** [request_loader(request)]: the first user whose username is the form's
    [username] field; an absent field matches no row. *)
Definition request_loader (d : db) (form_username : option pystr) : option (Z * user_row) :=
  match form_username with
  | Some n => find (fun '(_, u) => username_is n u) (users d)
  | None => None
  end.

Definition current_user (w : world) (rq : request) : option (Z * user_row) :=
  match match w_session w with
        | Some id => user_loader (w_db w) id
        | None => None
        end with
  | Some cu => Some cu
  | None => request_loader (w_db w) (req_form_username rq)
  end.

Definition flag (b : option bool) : bool := match b with Some true => true | _ => false end.

(** [current_user.is_authenticated]: false for the anonymous user. *)
Definition is_authenticated (cu : option (Z * user_row)) : bool :=
  match cu with Some (_, u) => flag (u_is_active u) | None => false end.

(** [current_user.is_admin] *)
Definition cu_is_admin (cu : option (Z * user_row)) : bool :=
  match cu with Some (_, u) => flag (u_is_admin u) | None => false end.

(** ** The decorators *)

(** [admin_required(func)] *)
Definition admin_required (cu : option (Z * user_row)) (func : handler) : handler :=
  fun w =>
    if negb (is_authenticated cu) then Ok (Redirect "home_blueprint.login", w)
    else if negb (cu_is_admin cu) then Ok (Page "home/admin-page-404.html" None 404, w)
    else func w.

(** [user_logged_in(func)] *)
Definition user_logged_in (cu : option (Z * user_row)) (func : handler) : handler :=
  fun w =>
    if negb (is_authenticated cu) then Ok (Redirect "home_blueprint.login", w)
    else func w.

(** ** Theorems *)

(** C4: a handler behind [admin_required] can change the server state only
    when the current user is authenticated and an admin. *)
Theorem admin_required_guard (cu : option (Z * user_row)) (func : handler) (w w' : world)
  (r : response) :
  admin_required cu func w = Ok (r, w') -> w' <> w ->
  is_authenticated cu = true /\ cu_is_admin cu = true.
Proof.
  unfold admin_required.
  destruct (is_authenticated cu), (cu_is_admin cu); simpl; intros H Hne; auto;
    inv H; congruence.
Qed.

(** Without a session user, the current user is whoever the request's
    form field [username] names: [request_loader] authenticates a request
    by a user name alone. *)
Theorem current_user_from_form (w : world) (rq : request) (n : pystr) :
  w_session w = None -> req_form_username rq = Some n ->
  current_user w rq = find (fun '(_, u) => username_is n u) (users (w_db w)).
Proof. unfold current_user. intros -> ->. reflexivity. Qed.

Lemma user_logged_in_guard (cu : option (Z * user_row)) (func : handler) (w w' : world)
  (r : response) :
  user_logged_in cu func w = Ok (r, w') -> w' <> w -> is_authenticated cu = true.
Proof.
  unfold user_logged_in. destruct (is_authenticated cu); simpl; intros H Hne; auto.
  inv H. congruence.
Qed.

Lemma admin_required_runs (cu : option (Z * user_row)) (func : handler) (w : world) :
  is_authenticated cu = true -> cu_is_admin cu = true -> admin_required cu func w = func w.
Proof. unfold admin_required. intros -> ->. reflexivity. Qed.
