(* ===== verification/Accounts.v ===== *)
(** The account handlers of [src/apps/home/routes.py]: [login]
    (lines 76-111), [register] (lines 114-217), [logout] (lines 248-251),
    and the admin routes [delete_user] (lines 221-232), [get_users]
    (lines 236-245), [make_admin] (lines 341-349) and [remove_admin]
    (lines 353-361), each behind [admin_required].

    The handlers take the outcome of [validate_on_submit()] as the
    boolean [form_valid] ([App] computes it from the request's form as
    forms.py declares it) and the entropy [os.urandom(60)] of [hash_pass]
    as [urandom60].  The username comparison of [login] is SQL [lower()],
    which on SQLite folds ASCII letters only. *)

From Stdlib Require Import Bool ZArith List Lia.
From Stdlib Require String.
Import String.StringSyntax.
From S2P Require Import Prelude Bytes Utf8 HashLib Password Policy Models Web.
Import ListNotations.
Open Scope Z_scope.
Local Open Scope string_scope.
Local Open Scope list_scope.

(** SQLite's [lower(x)]: ASCII capitals to lowercase, other characters kept. *)
Definition sql_lower (s : pystr) : pystr :=
  map (fun c => if ascii_upper c then c + 32 else c) s.

(** [func.lower(User.username) == func.lower(username)] *)
Definition username_ci_is (n : pystr) (u : user_row) : bool :=
  match u_username u with
  | Some m => pystr_eqb (sql_lower m) (sql_lower n)
  | None => false
  end.

Definition msg_invalid : String.string := "Invalid Username or Password.".

(** [login_user(user, remember=...)]: Flask-Login refuses an inactive user
    (it returns [False] and leaves the session alone). *)
Definition login_user (id : Z) (u : user_row) (w : world) : world :=
  if flag (u_is_active u) then set_session w (Some id) else w.

(** [verify_pass(password, user.password)]; a NULL password column is
    [None], and [None.decode] raises [AttributeError]. *)
Definition check_password `{HashLib} (password : pystr) (u : user_row) : result bool :=
  match u_password u with
  | Some stored => verify_pass password stored
  | None => Err AttributeError
  end.

Section Handlers.
Context `{HL : HashLib} `{UC : UnicodeCategories}.

(** [login()] *)
Definition login (form_valid : bool) (username password : pystr) (remember_me : bool) : handler :=
  fun w =>
    if negb form_valid then Ok (Page "accounts/login.html" None 200, w) else
    match find (fun '(_, u) => username_ci_is username u) (users (w_db w)) with
    | None => Ok (Page "accounts/login.html" (Some msg_invalid) 200, w)
    | Some (id, u) =>
        ok <- check_password password u ;;
        if ok then Ok (Redirect "home_blueprint.index", login_user id u w)
        else Ok (Page "accounts/login.html" (Some msg_invalid) 200, w)
    end.

(** [logout()] *)
Definition logout : handler :=
  fun w => Ok (Redirect "home_blueprint.login", set_session w None).

(** The fields of [CreateAccountForm] the handler reads. *)
Record register_form := mk_register_form {
  f_first_name : pystr; f_last_name : pystr; f_username : pystr;
  f_email : pystr; f_confirm_email : pystr;
  f_password : pystr; f_confirm_password : pystr;
  f_term_agreement : bool
}.

Definition msg_pw_mismatch : String.string := "Passwords do not match".
Definition msg_email_mismatch : String.string := "Email addresses do not match".
Definition msg_weak : String.string :=
  "Make sure the password is at least 6 characters long, contains at least one digit, one upper case and one special symbol".
Definition msg_terms : String.string := "You need to agree to the terms".
Definition msg_user_taken : String.string := "Username already registered".
Definition msg_email_taken : String.string := "Email already registered".

Definition register_page (msg : option String.string) : response :=
  Page "accounts/register.html" msg 200.

(** [register()] *)
Definition register (method : http_method) (form : register_form) (form_valid : bool)
  (urandom60 : bytes) : handler :=
  fun w =>
    match method with
    | POST =>
      if negb (pystr_eqb (f_password form) (f_confirm_password form))
      then Ok (register_page (Some msg_pw_mismatch), w)
      else if negb (pystr_eqb (f_email form) (f_confirm_email form))
      then Ok (register_page (Some msg_email_mismatch), w)
      else if negb (is_valid_password (f_password form))
      then Ok (register_page (Some msg_weak), w)
      else if negb form_valid then Ok (register_page None, w)
      else if negb (f_term_agreement form) then Ok (register_page (Some msg_terms), w)
      else if existsb (fun '(_, u) => username_is (f_username form) u) (users (w_db w))
      then Ok (register_page (Some msg_user_taken), w)
      else if existsb (fun '(_, u) => opt_pystr_eqb (u_email u) (Some (f_email form)))
                      (users (w_db w))
      then Ok (register_page (Some msg_email_taken), w)
      else
        u <- user_init urandom60 (f_first_name form) (f_last_name form) (f_username form)
                       (f_email form) (f_password form) None true false ;;
        let d := w_db w in
        d' <- commit (set_users d (users d ++ [(fresh_id (users d), u)])) ;;
        Ok (Redirect "home_blueprint.login", set_db w d')
    | _ => Ok (register_page None, w)
    end.

(** [delete_user(user_id)] *)
Definition delete_user (user_id : Z) : handler :=
  fun w =>
    let d := w_db w in
    match get_row (users d) user_id with
    | None => Ok (JsonMsg "User not found" 404, w)
    | Some _ =>
        d' <- commit (delete_user_rows d user_id) ;;
        Ok (JsonMsg "User deleted successfully" 201, set_db w d')
    end.

(** [get_users()] *)
Definition get_users : handler :=
  fun w =>
    let us := users (w_db w) in
    Ok (JsonUsers (map (fun '(id, u) => user_format id u) us) (length us), w).

(** [make_admin(user_id)] and [remove_admin(user_id)]: they differ in the
    value written and the message. *)
Definition set_admin (b : bool) (msg : String.string) (user_id : Z) : handler :=
  fun w =>
    let d := w_db w in
    match get_row (users d) user_id with
    | None => Ok (JsonMsg "User not found" 404, w)
    | Some _ =>
        d' <- commit (set_users d (update_row (users d) user_id (with_admin b))) ;;
        Ok (JsonMsg msg 200, set_db w d')
    end.

Definition make_admin (user_id : Z) : handler := set_admin true "User is now admin" user_id.
Definition remove_admin (user_id : Z) : handler := set_admin false "User is no longer admin" user_id.

(** The routes as Flask dispatches them: the decorator, then the view. *)
Definition route_delete_user (rq : request) (user_id : Z) : handler :=
  fun w => admin_required (current_user w rq) (delete_user user_id) w.
Definition route_get_users (rq : request) : handler :=
  fun w => admin_required (current_user w rq) get_users w.
Definition route_make_admin (rq : request) (user_id : Z) : handler :=
  fun w => admin_required (current_user w rq) (make_admin user_id) w.
Definition route_remove_admin (rq : request) (user_id : Z) : handler :=
  fun w => admin_required (current_user w rq) (remove_admin user_id) w.

(** ** Theorems *)

(** Case analysis on the guards of a handler, one [if] at a time. *)
Ltac split_guards H :=
  repeat lazymatch type of H with
  | context [if ?c then _ else _] => destruct c eqn:?; cbv beta iota in H
  end.

(** C10: [register] never changes the server state: every path returns
    the state it was given.  The only path that writes, [commit], fails,
    since [User.__init__] leaves the [nullable=False] column [biography]
    unset. *)
Theorem register_never_changes_state (m : http_method) (form : register_form)
  (form_valid : bool) (urandom60 : bytes) (w w' : world) (r : response) :
  register m form form_valid urandom60 w = Ok (r, w') -> w' = w.
Proof.
  unfold register. intros H. destruct m; [inv H; reflexivity| |inv H; reflexivity].
  split_guards H; try (inv H; reflexivity).
  destruct (user_init _ _ _ _ _ _ _ _ _) as [u|] eqn:Eu; [|discriminate].
  rewrite commit_null_user_fails in H; [discriminate|].
  apply user_not_null_no_biography. eapply user_init_no_biography. exact Eu.
Qed.

(** A registration that passes every check of the handler raises
    [IntegrityError] at [db.session.commit()] (an HTTP 500). *)
Theorem register_valid_raises (form : register_form) (urandom60 : bytes) (w : world) :
  pystr_eqb (f_password form) (f_confirm_password form) = true ->
  pystr_eqb (f_email form) (f_confirm_email form) = true ->
  is_valid_password (f_password form) = true ->
  f_term_agreement form = true ->
  existsb (fun '(_, u) => username_is (f_username form) u) (users (w_db w)) = false ->
  existsb (fun '(_, u) => opt_pystr_eqb (u_email u) (Some (f_email form))) (users (w_db w)) = false ->
  existsb is_surrogate (f_password form) = false ->
  register POST form true urandom60 w = Err IntegrityError.
Proof.
  intros H1 H2 H3 H4 H5 H6 H7. unfold register.
  rewrite H1, H2, H3, H4, H5, H6. cbv [negb].
  destruct (user_init _ _ _ _ _ _ _ _ _) as [u|e] eqn:Eu.
  - rewrite commit_null_user_fails; [reflexivity|].
    apply user_not_null_no_biography. eapply user_init_no_biography. exact Eu.
  - unfold user_init in Eu. destruct (hash_pass urandom60 (f_password form)) eqn:Eh; [discriminate|].
    apply hash_pass_err_iff in Eh as [Eh _]. congruence.
Qed.

(** The password step of [register] refuses no password of 8 or more
    characters: whatever its characters, [register] never answers with the
    message demanding a digit, a capital and a symbol. *)
Theorem register_policy_length_only (form : register_form) (form_valid : bool)
  (urandom60 : bytes) (w w' : world) :
  pystr_eqb (f_password form) (f_confirm_password form) = true ->
  pystr_eqb (f_email form) (f_confirm_email form) = true ->
  (8 <= length (f_password form))%nat ->
  register POST form form_valid urandom60 w <> Ok (register_page (Some msg_weak), w').
Proof.
  intros H1 H2 H3 H. unfold register in H. rewrite H1, H2, is_valid_password_eq in H.
  rewrite (proj2 (Z.leb_le 8 _)) in H by lia. cbv [negb] in H.
  split_guards H; try discriminate.
  destruct (user_init _ _ _ _ _ _ _ _ _) as [u|]; [|discriminate].
  destruct (commit _); discriminate.
Qed.

(** C15: [login] changes the session only to the first user whose
    username matches case-insensitively, when that user is active and the
    password verifies against that user's credential. *)
Theorem login_session_change (form_valid : bool) (n p : pystr) (remember_me : bool)
  (w w' : world) (r : response) :
  login form_valid n p remember_me w = Ok (r, w') -> w_session w' <> w_session w ->
  exists id u, find (fun '(_, u) => username_ci_is n u) (users (w_db w)) = Some (id, u)
    /\ flag (u_is_active u) = true /\ check_password p u = Ok true /\ w_session w' = Some id.
Proof.
  unfold login. destruct form_valid; cbn [negb]; [|intros H; inv H; congruence].
  destruct (find _ _) as [[id u]|] eqn:F; [|intros H; inv H; congruence].
  destruct (check_password p u) as [[|]|] eqn:C; intros H; try discriminate; inv H;
    [|congruence].
  unfold login_user. destruct (flag (u_is_active u)) eqn:A; [|congruence].
  intros _. exists id, u. auto.
Qed.

(** C36: with the right password, [login] answers with the redirect to the
    index page whether or not it logged the user in: an inactive user is
    redirected with no session (and then refused by [login_required]). *)
Theorem login_correct_password (n p : pystr) (remember_me : bool) (w : world) (id : Z)
  (u : user_row) :
  find (fun '(_, u) => username_ci_is n u) (users (w_db w)) = Some (id, u) ->
  check_password p u = Ok true ->
  login true n p remember_me w =
  Ok (Redirect "home_blueprint.index",
      if flag (u_is_active u) then set_session w (Some id) else w).
Proof. intros F C. unfold login. cbn [negb]. rewrite F, C. reflexivity. Qed.

(** A request with no session user that names an active admin in its
    form field [username] passes [admin_required]: [make_admin] then
    promotes any user, with no password given. *)
Theorem anonymous_make_admin (rq : request) (w : world) (n : pystr) (aid target : Z)
  (a u : user_row) :
  w_session w = None -> req_form_username rq = Some n ->
  find (fun '(_, v) => username_is n v) (users (w_db w)) = Some (aid, a) ->
  flag (u_is_active a) = true -> flag (u_is_admin a) = true ->
  get_row (users (w_db w)) target = Some u -> db_ok (w_db w) = true ->
  exists w', route_make_admin rq target w = Ok (JsonMsg "User is now admin" 200, w')
    /\ get_row (users (w_db w')) target = Some (with_admin true u).
Proof.
  intros Hs Hf Ha Hact Hadm Hu Hok. unfold route_make_admin.
  rewrite (current_user_from_form w rq n Hs Hf), Ha.
  rewrite admin_required_runs by (simpl; assumption).
  unfold make_admin, set_admin. rewrite Hu. unfold commit. rewrite db_ok_set_admin, Hok.
  eexists. split; [reflexivity|]. simpl. rewrite get_row_update_eq, Hu. reflexivity.
Qed.

(** The rows of [t'] are those of [t] whose foreign key [owner] does not
    name [id]. *)
Definition cascaded {A} (owner : A -> option Z) (id : Z) (t t' : table A) : Prop :=
  forall k r, In (k, r) t' <-> In (k, r) t /\ owner r <> Some id.

(** C37: an admin's [DELETE /user/<id>] of an existing user answers 201,
    removes exactly that user's row and, by the relationships' cascade,
    exactly the social-media, pricing-task and card rows that point to it,
    keeps every order (those of the deleted user included, now naming no
    user) and keeps the database's constraints. *)
Theorem delete_user_removes (rq : request) (w : world) (id : Z) (u : user_row) :
  is_authenticated (current_user w rq) = true -> cu_is_admin (current_user w rq) = true ->
  db_ok (w_db w) = true -> get_row (users (w_db w)) id = Some u ->
  exists w', route_delete_user rq id w = Ok (JsonMsg "User deleted successfully" 201, w')
    /\ get_row (users (w_db w')) id = None
    /\ (forall k, k <> id -> get_row (users (w_db w')) k = get_row (users (w_db w)) k)
    /\ cascaded sm_user_id id (social_media (aux (w_db w))) (social_media (aux (w_db w')))
    /\ cascaded pt_user_id id (pricing_tasks (aux (w_db w))) (pricing_tasks (aux (w_db w')))
    /\ cascaded pi_belongs_to id (payment_information (aux (w_db w))) (payment_information (aux (w_db w')))
    /\ orders (w_db w') = orders (w_db w)
    /\ subscriptions (aux (w_db w')) = subscriptions (aux (w_db w))
    /\ db_ok (w_db w') = true.
Proof.
  intros Ha Hadm Hok Hu. unfold route_delete_user. rewrite admin_required_runs by assumption.
  unfold delete_user. rewrite Hu. unfold commit. rewrite db_ok_delete_user by exact Hok.
  eexists. split; [reflexivity|]. cbn [w_db set_db delete_user_rows cascade_user_delete users orders aux
    social_media pricing_tasks payment_information subscriptions].
  split; [apply get_row_delete_eq|]. split; [intros k Hk; apply get_row_delete_ne; exact Hk|].
  split; [intros k r; apply in_drop_owned|]. split; [intros k r; apply in_drop_owned|].
  split; [intros k r; apply in_drop_owned|]. split; [reflexivity|]. split; [reflexivity|].
  apply db_ok_delete_user. exact Hok.
Qed.
End Handlers.

(** ** Runs on a concrete database, with [toy_hashlib] and [ascii_categories] *)

Definition ada : pystr := [97; 100; 97].
Definition bob : pystr := [98; 111; 98].
Definition carl : pystr := [99; 97; 114; 108].
Definition carol : pystr := [99; 97; 114; 111; 108].
Definition at_x (n : pystr) : pystr := n ++ [64; 120].

Definition seeded_user (n : pystr) (active admin : bool) : user_row :=
  {| u_first_name := Some n; u_last_name := Some n; u_email := Some (at_x n);
     u_username := Some n; u_biography := Some []; u_house_address := None;
     u_is_active := Some active; u_is_admin := Some admin;
     u_password := Some demo_credential |}.

(** Bob follows two channels and saved a card; Ada has a subscription. *)
Definition demo_aux : aux_tables :=
  mk_aux [] []
    [(1, mk_subscription (Some 1) (Some true) (Some 1700000000) None (Some 1700000000) (Some ada))]
    [(1, mk_social_media (Some 2) (Some bob) (Some bob)); (2, mk_social_media (Some 1) (Some ada) (Some ada));
     (3, mk_social_media (Some 2) (Some ada) (Some bob))]
    []
    [(1, mk_payment_information (Some 2) (Some bob) (Some (at_x bob)) (Some bob) (Some 12) (Some 2030))].

(** Ada is an active admin, Bob an active user, Carl an inactive user; all
    three have the password ["secret"]. *)
Definition demo_db : db :=
  mk_db [(1, seeded_user ada true true); (2, seeded_user bob true false);
         (3, seeded_user carl false false)] [] demo_aux.

Definition demo_world : world := mk_world demo_db None.

(** Carol's registration: every field consistent, password ["Secret!12"]. *)
Definition carol_form : register_form :=
  mk_register_form carol carol carol (at_x carol) (at_x carol)
    [83; 101; 99; 114; 101; 116; 33; 49; 50] [83; 101; 99; 114; 101; 116; 33; 49; 50] true.

Definition mismatch_form : register_form :=
  mk_register_form carol carol carol (at_x carol) (at_x carol) secret wrong true.

(** Ada, logged in, promotes Bob: the state changes, and she is an
    authenticated admin. *)
Lemma admin_required_guard_witness :
  is_authenticated (current_user (mk_world demo_db (Some 1)) (mk_request POST None)) = true
  /\ cu_is_admin (current_user (mk_world demo_db (Some 1)) (mk_request POST None)) = true.
Proof.
  apply (admin_required_guard _ (make_admin 2) (mk_world demo_db (Some 1))
           (mk_world (set_users demo_db (update_row (users demo_db) 2 (with_admin true))) (Some 1))
           (JsonMsg "User is now admin" 200)).
  - vm_compute. reflexivity.
  - vm_compute. discriminate.
Defined.

Lemma register_never_changes_state_witness :
  register POST mismatch_form true demo_entropy demo_world
  = Ok (register_page (Some msg_pw_mismatch), demo_world) /\ demo_world = demo_world.
Proof.
  split; [vm_compute; reflexivity|].
  apply (register_never_changes_state POST mismatch_form true demo_entropy demo_world demo_world
           (register_page (Some msg_pw_mismatch))).
  vm_compute. reflexivity.
Defined.

(** ["aaaaaaaa"]: no digit, capital or symbol. *)
Definition weak_form : register_form :=
  mk_register_form carol carol carol (at_x carol) (at_x carol) eight_a eight_a true.

Lemma register_policy_length_only_witness :
  register POST weak_form true demo_entropy demo_world
  <> Ok (register_page (Some msg_weak), demo_world).
Proof. apply register_policy_length_only; vm_compute; reflexivity || lia. Defined.

Lemma register_valid_raises_witness :
  register POST carol_form true demo_entropy demo_world = Err IntegrityError.
Proof. apply register_valid_raises; vm_compute; reflexivity. Defined.

Lemma login_session_change_witness :
  exists id u, find (fun '(_, u) => username_ci_is [65; 68; 65] u) (users (w_db demo_world))
                 = Some (id, u)
    /\ flag (u_is_active u) = true /\ check_password secret u = Ok true
    /\ w_session (set_session demo_world (Some 1)) = Some id.
Proof.
  apply (login_session_change true [65; 68; 65] secret false demo_world
           (set_session demo_world (Some 1)) (Redirect "home_blueprint.index")).
  - vm_compute. reflexivity.
  - vm_compute. discriminate.
Defined.

Lemma login_correct_password_witness :
  login true carl secret false demo_world = Ok (Redirect "home_blueprint.index", demo_world).
Proof.
  rewrite (login_correct_password carl secret false demo_world 3 (seeded_user carl false false))
    by (vm_compute; reflexivity).
  reflexivity.
Defined.

Lemma anonymous_make_admin_witness :
  exists w', route_make_admin (mk_request POST (Some ada)) 2 demo_world
             = Ok (JsonMsg "User is now admin" 200, w')
    /\ get_row (users (w_db w')) 2 = Some (with_admin true (seeded_user bob true false)).
Proof.
  apply (anonymous_make_admin _ demo_world ada 1 2 (seeded_user ada true true));
    vm_compute; reflexivity.
Defined.

Lemma delete_user_removes_witness :
  let w := mk_world demo_db (Some 1) in
  exists w', route_delete_user (mk_request DELETE None) 2 w
             = Ok (JsonMsg "User deleted successfully" 201, w')
    /\ get_row (users (w_db w')) 2 = None
    /\ (forall k, k <> 2 -> get_row (users (w_db w')) k = get_row (users (w_db w)) k)
    /\ cascaded sm_user_id 2 (social_media (aux (w_db w))) (social_media (aux (w_db w')))
    /\ cascaded pt_user_id 2 (pricing_tasks (aux (w_db w))) (pricing_tasks (aux (w_db w')))
    /\ cascaded pi_belongs_to 2 (payment_information (aux (w_db w))) (payment_information (aux (w_db w')))
    /\ orders (w_db w') = orders (w_db w)
    /\ subscriptions (aux (w_db w')) = subscriptions (aux (w_db w))
    /\ db_ok (w_db w') = true.
Proof.
  apply (delete_user_removes _ (mk_world demo_db (Some 1)) 2 (seeded_user bob true false));
    vm_compute; reflexivity.
Defined.
