(* ===== verification/Base64.v ===== *)
(** Base64 as the Fernet token uses it: [base64.urlsafe_b64encode] and
    [base64.urlsafe_b64decode], that is CPython's [binascii.b2a_base64]
    and [binascii.a2b_base64] (non-strict mode, CPython 3.11 and later)
    behind the translation of ['+'], ['/'] to ['-'], ['_'].

    The decoder is CPython's loop as a state machine: a state holds the
    position in the current quantum of four characters, the bits left over
    from the previous character, the count of pad characters seen, and the
    bytes written.  A character outside the alphabet is skipped; a pad
    sequence that completes a quantum ends the decoding ([goto done]); at
    the end of the input a partial quantum raises [binascii.Error]. *)

From Stdlib Require Import Bool ZArith List Lia.
From S2P Require Import Prelude Bytes.
Import ListNotations.
Open Scope Z_scope.

(** ** Encoding *)

(** The standard alphabet: [A-Z], [a-z], [0-9], ['+'], ['/']. *)
Definition b64_digit (v : Z) : Z :=
  if v <? 26 then 65 + v
  else if v <? 52 then 71 + v
  else if v <? 62 then v - 4
  else if v =? 62 then 43
  else 47.

(** [translate(_urlsafe_encode_translation)]: ['+'] to ['-'], ['/'] to ['_']. *)
Definition urlsafe_enc_char (c : Z) : Z :=
  if c =? 43 then 45 else if c =? 47 then 95 else c.

Definition pad_char : Z := 61.   (** ['='] *)

Definition b64_char (v : Z) : byte := chr (b64_digit v).

(** [binascii.b2a_base64(s, newline=False)]: three bytes to four
    characters; a last group of one or two bytes is padded with ['=']. *)
Fixpoint b2a_base64 (b : bytes) : bytes :=
  match b with
  | x :: y :: z :: rest =>
      let x := ord x in let y := ord y in let z := ord z in
      b64_char (Z.shiftr x 2)
      :: b64_char (Z.lor (Z.shiftl (Z.land x 3) 4) (Z.shiftr y 4))
      :: b64_char (Z.lor (Z.shiftl (Z.land y 15) 2) (Z.shiftr z 6))
      :: b64_char (Z.land z 63) :: b2a_base64 rest
  | [x; y] =>
      let x := ord x in let y := ord y in
      [b64_char (Z.shiftr x 2);
       b64_char (Z.lor (Z.shiftl (Z.land x 3) 4) (Z.shiftr y 4));
       b64_char (Z.shiftl (Z.land y 15) 2); chr pad_char]
  | [x] =>
      let x := ord x in
      [b64_char (Z.shiftr x 2); b64_char (Z.shiftl (Z.land x 3) 4); chr pad_char; chr pad_char]
  | [] => []
  end.

Definition urlsafe_enc_byte (c : byte) : byte := chr (urlsafe_enc_char (ord c)).

(** [base64.urlsafe_b64encode(s)] *)
Definition urlsafe_b64encode (b : bytes) : bytes := map urlsafe_enc_byte (b2a_base64 b).

(** ** Decoding *)

(** [s.translate(_urlsafe_decode_translation)]: ['-'] to ['+'], ['_'] to ['/']. *)
Definition urlsafe_dec_char (c : Z) : Z :=
  if c =? 45 then 43 else if c =? 95 then 47 else c.

(** [table_a2b_base64]: the value of an alphabet character, 64 for any
    other byte. *)
Definition a2b_value (c : Z) : Z :=
  if (65 <=? c) && (c <=? 90) then c - 65
  else if (97 <=? c) && (c <=? 122) then c - 71
  else if (48 <=? c) && (c <=? 57) then c + 4
  else if c =? 43 then 62
  else if c =? 47 then 63
  else 64.

Record a2b_state := mk_a2b {
  quad_pos : Z;
  leftchar : Z;
  pads : Z;
  written : bytes
}.

Definition a2b_init : a2b_state := mk_a2b 0 0 0 [].

(** One iteration of the loop: [Next] continues, [Stop] is [goto done]. *)
Inductive a2b_step_result :=
| Next (st : a2b_state)
| Stop (st : a2b_state).

(** The [switch (quad_pos)] on a character of value [v < 64]. *)
Definition a2b_data (st : a2b_state) (v : Z) : a2b_state :=
  let o := written st in
  let l := leftchar st in
  if quad_pos st =? 0 then mk_a2b 1 v 0 o
  else if quad_pos st =? 1 then
    mk_a2b 2 (Z.land v 0x0f) 0 (o ++ [chr (Z.lor (Z.shiftl l 2) (Z.shiftr v 4))])
  else if quad_pos st =? 2 then
    mk_a2b 3 (Z.land v 0x03) 0 (o ++ [chr (Z.lor (Z.shiftl l 4) (Z.shiftr v 2))])
  else mk_a2b 0 0 0 (o ++ [chr (Z.lor (Z.shiftl l 6) v)]).

Definition a2b_step (st : a2b_state) (c : Z) : a2b_step_result :=
  if c =? pad_char then
    (* if (quad_pos >= 2 && quad_pos + ++pads >= 4) goto done; continue; *)
    if 2 <=? quad_pos st then
      let st' := mk_a2b (quad_pos st) (leftchar st) (pads st + 1) (written st) in
      if 4 <=? quad_pos st + pads st' then Stop st' else Next st'
    else Next st
  else
    let v := a2b_value c in
    if 64 <=? v then Next st else Next (a2b_data st v).

(** The loop, then the check of a partial quantum at the end of input. *)
Fixpoint a2b_loop (s : bytes) (st : a2b_state) : result bytes :=
  match s with
  | [] => if quad_pos st =? 0 then Ok (written st) else Err BinasciiError
  | c :: rest =>
      match a2b_step st (ord c) with
      | Next st' => a2b_loop rest st'
      | Stop st' => Ok (written st')
      end
  end.

(** [binascii.a2b_base64(s)] *)
Definition a2b_base64 (s : bytes) : result bytes := a2b_loop s a2b_init.

Definition urlsafe_dec_byte (c : byte) : byte := chr (urlsafe_dec_char (ord c)).

(** [base64.urlsafe_b64decode(s)] *)
Definition urlsafe_b64decode (s : bytes) : result bytes := a2b_base64 (map urlsafe_dec_byte s).

(** ** Bit-level lemmas *)

Lemma lor_shiftl (a b n : Z) :
  0 <= n -> 0 <= b < 2 ^ n -> Z.lor (Z.shiftl a n) b = a * 2 ^ n + b.
Proof.
  intros Hn Hb. rewrite Z.shiftl_mul_pow2 by lia. apply Z_lor_low_bits with (n := n); auto.
  rewrite Z_land_mask by lia. apply Z.mod_mul. apply Z.pow_nonzero; lia.
Qed.

(** A character of the url-safe token alphabet, as the encoder writes it. *)
Definition token_char (v : Z) : byte := urlsafe_enc_byte (b64_char v).

(** What the decoder reads for a byte [c] after the translation. *)
Definition token_value (c : byte) : Z := a2b_value (urlsafe_dec_char (ord c)).

(** The characters a url-safe token may hold: [A-Z], [a-z], [0-9], ['-'],
    ['_'] and the pad ['=']. *)
Definition url_safe_char (c : Z) : bool :=
  ((65 <=? c) && (c <=? 90)) || ((97 <=? c) && (c <=? 122)) || ((48 <=? c) && (c <=? 57))
  || (c =? 45) || (c =? 95) || (c =? 61).

Definition token_char_ok (v : Z) : bool :=
  (token_value (token_char v) =? v) && negb (ord (token_char v) =? pad_char)
  && url_safe_char (ord (token_char v)).

Lemma token_char_ok_all : forallb token_char_ok (map Z.of_nat (seq 0 64)) = true.
Proof. vm_compute. reflexivity. Qed.

Lemma token_char_ok_range (v : Z) : 0 <= v < 64 -> token_char_ok v = true.
Proof.
  intros Hv. pose proof token_char_ok_all as H. rewrite forallb_forall in H. apply H.
  apply in_map_iff. exists (Z.to_nat v). split; [lia|]. apply in_seq. lia.
Qed.

(** Every 6-bit value survives the alphabet and both translations, and is
    never read as a pad. *)
Lemma decode_token_char (v : Z) :
  0 <= v < 64 -> token_value (token_char v) = v /\ ord (token_char v) <> pad_char.
Proof.
  intros Hv. pose proof (token_char_ok_range v Hv) as Hok.
  unfold token_char_ok in Hok. apply andb_prop in Hok as [Hok _]. apply andb_prop in Hok as [H1 H2].
  apply Z.eqb_eq in H1. split; [exact H1|]. intros He. rewrite He in H2. discriminate.
Qed.

Lemma token_char_url_safe (v : Z) : 0 <= v < 64 -> url_safe_char (ord (token_char v)) = true.
Proof.
  intros Hv. pose proof (token_char_ok_range v Hv) as Hok.
  unfold token_char_ok in Hok. apply andb_prop in Hok as [_ H]. exact H.
Qed.

Lemma land_3 (a : Z) : Z.land a 3 = a mod 4.
Proof. change 3 with (Z.ones 2). apply Z_land_mask. lia. Qed.

Lemma land_15 (a : Z) : Z.land a 15 = a mod 16.
Proof. change 15 with (Z.ones 4). apply Z_land_mask. lia. Qed.

Lemma land_63 (a : Z) : Z.land a 63 = a mod 64.
Proof. change 63 with (Z.ones 6). apply Z_land_mask. lia. Qed.

(** The four 6-bit values of a full group, and what the decoder rebuilds. *)
Lemma b64_value_bounds (x y z : Z) :
  0 <= x < 256 -> 0 <= y < 256 -> 0 <= z < 256 ->
  0 <= Z.shiftr x 2 < 64
  /\ Z.lor (Z.shiftl (Z.land x 3) 4) (Z.shiftr y 4) = (x mod 4) * 16 + y / 16
  /\ Z.lor (Z.shiftl (Z.land y 15) 2) (Z.shiftr z 6) = (y mod 16) * 4 + z / 64
  /\ Z.shiftl (Z.land y 15) 2 = (y mod 16) * 4
  /\ Z.shiftl (Z.land x 3) 4 = (x mod 4) * 16
  /\ Z.land z 63 = z mod 64.
Proof.
  intros Hx Hy Hz. rewrite land_3, land_15, land_63. rewrite !Z.shiftr_div_pow2 by lia.
  rewrite !lor_shiftl by zarith. rewrite !Z.shiftl_mul_pow2 by lia.
  repeat split; zarith.
Qed.

(** [leftchar << k | v >> j] rebuilds the byte the encoder split. *)
Lemma b64_join (hi lo k : Z) (j : Z) :
  0 <= k -> 0 <= j -> 0 <= lo < 2 ^ k * 2 ^ j ->
  Z.lor (Z.shiftl hi k) (Z.shiftr lo j) = hi * 2 ^ k + lo / 2 ^ j.
Proof.
  intros Hk Hj Hlo. rewrite Z.shiftr_div_pow2 by lia. apply lor_shiftl; [lia|].
  split; [apply Z.div_pos; lia|].
  apply Z.div_lt_upper_bound; [apply Z.pow_pos_nonneg; lia|]. lia.
Qed.

Lemma ord_dec_byte (c : byte) : ord (urlsafe_dec_byte c) = urlsafe_dec_char (ord c).
Proof.
  unfold urlsafe_dec_byte, urlsafe_dec_char. pose proof (ord_range c).
  destruct (Z.eqb_spec (ord c) 45); [|destruct (Z.eqb_spec (ord c) 95)];
    apply ord_chr; lia.
Qed.

(** A byte that is not ['='] is a data character or skipped. *)
Lemma a2b_step_char (st : a2b_state) (c : byte) :
  ord c <> pad_char ->
  a2b_step st (ord (urlsafe_dec_byte c))
  = if 64 <=? token_value c then Next st else Next (a2b_data st (token_value c)).
Proof.
  intros Hc. unfold a2b_step, token_value. rewrite ord_dec_byte.
  unfold urlsafe_dec_char, pad_char in *.
  destruct (Z.eqb_spec (ord c) 45); [|destruct (Z.eqb_spec (ord c) 95)];
    repeat match goal with |- context [?a =? 61] => destruct (Z.eqb_spec a 61) end;
    try lia; reflexivity.
Qed.

Lemma a2b_loop_token_char (s : bytes) (st : a2b_state) (v : Z) :
  0 <= v < 64 ->
  a2b_loop (map urlsafe_dec_byte (token_char v :: s)) st
  = a2b_loop (map urlsafe_dec_byte s) (a2b_data st v).
Proof.
  intros Hv. destruct (decode_token_char v Hv) as [Hval Hpad].
  cbn [map a2b_loop]. rewrite a2b_step_char by exact Hpad. rewrite Hval.
  destruct (Z.leb_spec 64 v); [lia|reflexivity].
Qed.

Lemma a2b_loop_pad (s : bytes) (st : a2b_state) :
  a2b_loop (map urlsafe_dec_byte (urlsafe_enc_byte (chr pad_char) :: s)) st
  = if 2 <=? quad_pos st then
      if 4 <=? quad_pos st + (pads st + 1) then Ok (written st)
      else a2b_loop (map urlsafe_dec_byte s) (mk_a2b (quad_pos st) (leftchar st) (pads st + 1) (written st))
    else a2b_loop (map urlsafe_dec_byte s) st.
Proof.
  cbn [map a2b_loop]. change (ord (urlsafe_dec_byte (urlsafe_enc_byte (chr pad_char)))) with pad_char.
  unfold a2b_step. rewrite Z.eqb_refl. cbn [quad_pos pads written leftchar].
  destruct (2 <=? quad_pos st); [|reflexivity].
  destruct (4 <=? quad_pos st + (pads st + 1)); reflexivity.
Qed.

(** Evaluate the comparisons of literals the pad branch leaves. *)
Ltac eval_leb :=
  repeat match goal with
  | |- context [Z.leb ?a ?b] =>
      let v := eval vm_compute in (Z.leb a b) in
      lazymatch v with true => change (Z.leb a b) with true | false => change (Z.leb a b) with false end
  end.

(** A byte the decoder rebuilds, [chr (leftchar << k | v >> j)], is the
    byte the encoder split. *)
Ltac b64_byte_eq :=
  apply ord_inj; rewrite ?land_15, ?land_3, ?Z.shiftr_div_pow2 by lia;
  rewrite ?b64_join by zarith; rewrite ?lor_shiftl by zarith;
  rewrite ord_chr by zarith; zarith.

(** One full group: four characters give back the three bytes, and the
    decoder is at the start of a quantum again. *)
Lemma a2b_data_group (st : a2b_state) (x y z : byte) :
  quad_pos st = 0 ->
  a2b_data (a2b_data (a2b_data (a2b_data st (Z.shiftr (ord x) 2))
      (Z.lor (Z.shiftl (Z.land (ord x) 3) 4) (Z.shiftr (ord y) 4)))
      (Z.lor (Z.shiftl (Z.land (ord y) 15) 2) (Z.shiftr (ord z) 6))) (Z.land (ord z) 63)
  = mk_a2b 0 0 0 (written st ++ [x; y; z]).
Proof.
  destruct st as [q l p o]. cbn [quad_pos]. intros Hq. subst q.
  pose proof (ord_range x). pose proof (ord_range y). pose proof (ord_range z).
  destruct (b64_value_bounds (ord x) (ord y) (ord z)) as (E0 & E1 & E2 & _ & _ & E3); try lia.
  rewrite E1, E2, E3. unfold a2b_data. cbn [quad_pos leftchar pads written Z.eqb Pos.eqb].
  rewrite <- !app_assoc. cbn [app]. repeat f_equal; b64_byte_eq.
Qed.

(** A last group of two bytes: three characters, then the decoder is at
    position 3 of its quantum. *)
Lemma a2b_data_tail2 (st : a2b_state) (x y : byte) :
  quad_pos st = 0 ->
  let s := a2b_data (a2b_data (a2b_data st (Z.shiftr (ord x) 2))
      (Z.lor (Z.shiftl (Z.land (ord x) 3) 4) (Z.shiftr (ord y) 4)))
      (Z.shiftl (Z.land (ord y) 15) 2) in
  quad_pos s = 3 /\ pads s = 0 /\ written s = written st ++ [x; y].
Proof.
  destruct st as [q l p o]. cbn [quad_pos]. intros Hq. subst q.
  pose proof (ord_range x). pose proof (ord_range y).
  destruct (b64_value_bounds (ord x) (ord y) 0) as (E0 & E1 & _ & E2 & _ & _); try lia.
  rewrite E1, E2. unfold a2b_data. cbn [quad_pos leftchar pads written Z.eqb Pos.eqb].
  split; [reflexivity|]. split; [reflexivity|]. rewrite <- !app_assoc. cbn [app].
  repeat f_equal; b64_byte_eq.
Qed.

(** A last group of one byte: two characters, then position 2. *)
Lemma a2b_data_tail1 (st : a2b_state) (x : byte) :
  quad_pos st = 0 ->
  let s := a2b_data (a2b_data st (Z.shiftr (ord x) 2)) (Z.shiftl (Z.land (ord x) 3) 4) in
  quad_pos s = 2 /\ pads s = 0 /\ written s = written st ++ [x].
Proof.
  destruct st as [q l p o]. cbn [quad_pos]. intros Hq. subst q.
  pose proof (ord_range x).
  destruct (b64_value_bounds (ord x) 0 0) as (E0 & _ & _ & _ & E1 & _); try lia.
  rewrite E1. unfold a2b_data. cbn [quad_pos leftchar pads written Z.eqb Pos.eqb].
  split; [reflexivity|]. split; [reflexivity|]. repeat f_equal; b64_byte_eq.
Qed.

Lemma b64_values_range (x y z : byte) :
  0 <= Z.shiftr (ord x) 2 < 64
  /\ 0 <= Z.lor (Z.shiftl (Z.land (ord x) 3) 4) (Z.shiftr (ord y) 4) < 64
  /\ 0 <= Z.lor (Z.shiftl (Z.land (ord y) 15) 2) (Z.shiftr (ord z) 6) < 64
  /\ 0 <= Z.shiftl (Z.land (ord y) 15) 2 < 64
  /\ 0 <= Z.shiftl (Z.land (ord x) 3) 4 < 64
  /\ 0 <= Z.land (ord z) 63 < 64.
Proof.
  pose proof (ord_range x). pose proof (ord_range y). pose proof (ord_range z).
  destruct (b64_value_bounds (ord x) (ord y) (ord z)) as (E0 & E1 & E2 & E3 & E4 & E5); try lia.
  rewrite E1, E2, E3, E4, E5. repeat split; zarith.
Qed.

(** The decoder, from the start of a quantum, reads back what the encoder
    wrote. *)
Lemma a2b_loop_encode (b : bytes) (st : a2b_state) :
  quad_pos st = 0 ->
  a2b_loop (map urlsafe_dec_byte (urlsafe_b64encode b)) st = Ok (written st ++ b).
Proof.
  remember (length b) as n eqn:Hn. revert b st Hn.
  induction n as [n IH] using lt_wf_ind. intros b st Hn Hq.
  destruct b as [|x [|y [|z rest]]].
  - cbn. rewrite Hq, app_nil_r. reflexivity.
  - destruct (b64_values_range x x x) as (R0 & _ & _ & _ & R1 & _).
    change (urlsafe_b64encode [x]) with
      [token_char (Z.shiftr (ord x) 2); token_char (Z.shiftl (Z.land (ord x) 3) 4);
       urlsafe_enc_byte (chr pad_char); urlsafe_enc_byte (chr pad_char)].
    rewrite !a2b_loop_token_char by assumption.
    destruct (a2b_data_tail1 st x Hq) as (Q & P & W). revert Q P W.
    generalize (a2b_data (a2b_data st (Z.shiftr (ord x) 2)) (Z.shiftl (Z.land (ord x) 3) 4)).
    intros s Q P W. rewrite a2b_loop_pad, Q, P. simpl (Z.leb _ _).
    rewrite a2b_loop_pad. cbn [quad_pos pads written]. simpl (Z.leb _ _).
    rewrite W. reflexivity.
  - destruct (b64_values_range x y y) as (R0 & R1 & _ & R2 & _ & _).
    change (urlsafe_b64encode [x; y]) with
      [token_char (Z.shiftr (ord x) 2);
       token_char (Z.lor (Z.shiftl (Z.land (ord x) 3) 4) (Z.shiftr (ord y) 4));
       token_char (Z.shiftl (Z.land (ord y) 15) 2); urlsafe_enc_byte (chr pad_char)].
    rewrite !a2b_loop_token_char by assumption.
    destruct (a2b_data_tail2 st x y Hq) as (Q & P & W). revert Q P W.
    generalize (a2b_data (a2b_data (a2b_data st (Z.shiftr (ord x) 2))
      (Z.lor (Z.shiftl (Z.land (ord x) 3) 4) (Z.shiftr (ord y) 4)))
      (Z.shiftl (Z.land (ord y) 15) 2)).
    intros s Q P W. rewrite a2b_loop_pad, Q, P. simpl (Z.leb _ _). rewrite W. reflexivity.
  - destruct (b64_values_range x y z) as (R0 & R1 & R2 & _ & _ & R3).
    change (urlsafe_b64encode (x :: y :: z :: rest)) with
      (token_char (Z.shiftr (ord x) 2)
       :: token_char (Z.lor (Z.shiftl (Z.land (ord x) 3) 4) (Z.shiftr (ord y) 4))
       :: token_char (Z.lor (Z.shiftl (Z.land (ord y) 15) 2) (Z.shiftr (ord z) 6))
       :: token_char (Z.land (ord z) 63) :: urlsafe_b64encode rest).
    rewrite !a2b_loop_token_char by assumption.
    rewrite a2b_data_group by exact Hq.
    rewrite (IH (length rest) ltac:(subst n; cbn; lia) rest (mk_a2b 0 0 0 _) eq_refl eq_refl).
    cbn [written]. rewrite <- app_assoc. reflexivity.
Qed.

(** [urlsafe_b64decode(urlsafe_b64encode(b)) == b] *)
Lemma urlsafe_b64decode_encode (b : bytes) : urlsafe_b64decode (urlsafe_b64encode b) = Ok b.
Proof. unfold urlsafe_b64decode, a2b_base64. apply (a2b_loop_encode b a2b_init eq_refl). Qed.

(** A whole number of groups encodes group by group. *)
Lemma urlsafe_b64encode_app (pre post : bytes) :
  (length pre mod 3 = 0)%nat ->
  urlsafe_b64encode (pre ++ post) = urlsafe_b64encode pre ++ urlsafe_b64encode post.
Proof.
  remember (length pre) as n eqn:Hn. revert pre Hn.
  induction n as [n IH] using lt_wf_ind. intros pre Hn Hm.
  destruct pre as [|x [|y [|z rest]]]; subst n; cbn [length] in *;
    try (cbn in Hm; discriminate); [reflexivity|].
  unfold urlsafe_b64encode in *. cbn [app b2a_base64 map].
  rewrite (IH (length rest)); [reflexivity|lia|reflexivity|].
  replace (S (S (S (length rest)))) with (length rest + 1 * 3)%nat in Hm by lia.
  rewrite Nat.Div0.mod_add in Hm. exact Hm.
Qed.

(** After an encoded whole number of groups the decoder is at the start of
    a quantum, with the prefix's bytes written. *)
Lemma a2b_loop_encode_prefix (pre rest : bytes) (o : bytes) :
  (length pre mod 3 = 0)%nat ->
  a2b_loop (map urlsafe_dec_byte (urlsafe_b64encode pre ++ rest)) (mk_a2b 0 0 0 o)
  = a2b_loop (map urlsafe_dec_byte rest) (mk_a2b 0 0 0 (o ++ pre)).
Proof.
  remember (length pre) as n eqn:Hn. revert pre o Hn.
  induction n as [n IH] using lt_wf_ind. intros pre o Hn Hm.
  destruct pre as [|x [|y [|z tl]]]; subst n; cbn [length] in *;
    try (cbn in Hm; discriminate); [rewrite app_nil_r; reflexivity|].
  destruct (b64_values_range x y z) as (R0 & R1 & R2 & _ & _ & R3).
  change (urlsafe_b64encode (x :: y :: z :: tl)) with
    (token_char (Z.shiftr (ord x) 2)
     :: token_char (Z.lor (Z.shiftl (Z.land (ord x) 3) 4) (Z.shiftr (ord y) 4))
     :: token_char (Z.lor (Z.shiftl (Z.land (ord y) 15) 2) (Z.shiftr (ord z) 6))
     :: token_char (Z.land (ord z) 63) :: urlsafe_b64encode tl).
  cbn [app]. rewrite !a2b_loop_token_char by assumption.
  rewrite a2b_data_group by reflexivity. cbn [written].
  rewrite (IH (length tl)); [|lia|reflexivity|].
  - rewrite <- app_assoc. reflexivity.
  - replace (S (S (S (length tl)))) with (length tl + 1 * 3)%nat in Hm by lia.
    rewrite Nat.Div0.mod_add in Hm. exact Hm.
Qed.

(** A byte outside the alphabet (and not ['=']) is skipped wherever it
    stands. *)
Lemma a2b_loop_skip (s1 s2 : bytes) (c : byte) (st : a2b_state) :
  ord c <> pad_char -> (64 <=? token_value c) = true ->
  a2b_loop (map urlsafe_dec_byte (s1 ++ c :: s2)) st = a2b_loop (map urlsafe_dec_byte (s1 ++ s2)) st.
Proof.
  intros Hpad Hv. revert st. induction s1 as [|a s1 IH]; intros st.
  - cbn [app map a2b_loop]. rewrite a2b_step_char, Hv by exact Hpad. reflexivity.
  - cbn [app map a2b_loop]. destruct (a2b_step st (ord (urlsafe_dec_byte a))); [apply IH|reflexivity].
Qed.

Lemma urlsafe_b64decode_skip (s1 s2 : bytes) (c : byte) :
  ord c <> pad_char -> (64 <=? token_value c) = true ->
  urlsafe_b64decode (s1 ++ c :: s2) = urlsafe_b64decode (s1 ++ s2).
Proof. intros. apply a2b_loop_skip; assumption. Qed.

Lemma a2b_data_pair (o : bytes) (v0 v : Z) :
  let s := a2b_data (a2b_data (mk_a2b 0 0 0 o) v0) v in
  quad_pos s = 2 /\ pads s = 0 /\ written s = o ++ [chr (Z.lor (Z.shiftl v0 2) (Z.shiftr v 4))].
Proof. repeat split. Qed.

(** The last group of one byte [x]: the second character carries the two
    low bits of [x] in its top bits; its four low bits are never read. *)
Lemma urlsafe_b64decode_last1 (pre : bytes) (x : byte) (v : Z) :
  (length pre mod 3 = 0)%nat -> 0 <= v < 64 -> v / 16 = ord x mod 4 ->
  urlsafe_b64decode (urlsafe_b64encode pre ++
    [token_char (Z.shiftr (ord x) 2); token_char v; chr pad_char; chr pad_char])
  = Ok (pre ++ [x]).
Proof.
  intros Hm Hv Hx. pose proof (ord_range x).
  destruct (b64_values_range x x x) as (R0 & _).
  unfold urlsafe_b64decode, a2b_base64, a2b_init.
  rewrite a2b_loop_encode_prefix by exact Hm. rewrite app_nil_l.
  rewrite !a2b_loop_token_char by assumption.
  change (chr pad_char) with (urlsafe_enc_byte (chr pad_char)).
  destruct (a2b_data_pair pre (Z.shiftr (ord x) 2) v) as (Q & P & W). revert Q P W.
  generalize (a2b_data (a2b_data (mk_a2b 0 0 0 pre) (Z.shiftr (ord x) 2)) v).
  intros s Q P W. rewrite a2b_loop_pad, Q, P. eval_leb.
  rewrite a2b_loop_pad. cbn [quad_pos pads written]. eval_leb.
  rewrite W. cbn [app]. do 3 f_equal.
  apply ord_inj. rewrite b64_join by zarith. rewrite Z.shiftr_div_pow2 by lia.
  rewrite ord_chr; zarith.
Qed.

Lemma a2b_data_quad (st : a2b_state) (v : Z) :
  0 <= quad_pos st < 4 -> quad_pos (a2b_data st v) = (quad_pos st + 1) mod 4.
Proof.
  intros Hq. unfold a2b_data.
  destruct (Z.eqb_spec (quad_pos st) 0); [|destruct (Z.eqb_spec (quad_pos st) 1);
    [|destruct (Z.eqb_spec (quad_pos st) 2)]]; cbn [quad_pos]; zarith.
Qed.

(** Without a pad character, input whose data characters leave a partial
    quantum raises [binascii.Error]. *)
Lemma a2b_loop_unpadded_error (s : bytes) (st : a2b_state) :
  Forall (fun c => ord c <> pad_char) s -> 0 <= quad_pos st < 4 ->
  (quad_pos st + Z.of_nat (length (filter (fun c => token_value c <? 64) s))) mod 4 <> 0 ->
  a2b_loop (map urlsafe_dec_byte s) st = Err BinasciiError.
Proof.
  intros Hs. revert st. induction Hs as [|c s Hc Hs IH]; intros st Hq Hm.
  - cbn in *. rewrite Z.add_0_r, Z.mod_small in Hm by lia.
    destruct (Z.eqb_spec (quad_pos st) 0); [lia|reflexivity].
  - cbn [map a2b_loop]. rewrite a2b_step_char by exact Hc. cbn [filter] in Hm.
    destruct (Z.leb_spec 64 (token_value c)).
    + replace (token_value c <? 64) with false in Hm by (symmetry; apply Z.ltb_ge; lia).
      apply IH; assumption.
    + replace (token_value c <? 64) with true in Hm by (symmetry; apply Z.ltb_lt; lia).
      apply IH; rewrite a2b_data_quad by exact Hq; [zarith|].
      cbn [length] in Hm. zarith.
Qed.

(** Induction along the groups of three bytes the encoder takes. *)
Lemma bytes_ind3 (P : bytes -> Prop) :
  P [] -> (forall x, P [x]) -> (forall x y, P [x; y]) ->
  (forall x y z r, P r -> P (x :: y :: z :: r)) -> forall b, P b.
Proof.
  intros H0 H1 H2 H3 b. remember (length b) as n eqn:Hn. revert b Hn.
  induction n as [n IH] using lt_wf_ind. intros b Hn.
  destruct b as [|x [|y [|z r]]]; auto. apply H3. apply (IH (length r)); [cbn in Hn; lia|reflexivity].
Qed.

(** Every character of [urlsafe_b64encode(b)] is url-safe. *)
Lemma urlsafe_b64encode_url_safe (b : bytes) :
  Forall (fun c => url_safe_char (ord c) = true) (urlsafe_b64encode b).
Proof.
  induction b as [|x|x y|x y z r IH] using bytes_ind3.
  - constructor.
  - destruct (b64_values_range x x x) as (R0 & _ & _ & _ & R1 & _).
    repeat constructor; apply token_char_url_safe; assumption.
  - destruct (b64_values_range x y y) as (R0 & R1 & _ & R2 & _ & _).
    repeat constructor; apply token_char_url_safe; assumption.
  - destruct (b64_values_range x y z) as (R0 & R1 & R2 & _ & _ & R3).
    change (urlsafe_b64encode (x :: y :: z :: r)) with
      (token_char (Z.shiftr (ord x) 2)
       :: token_char (Z.lor (Z.shiftl (Z.land (ord x) 3) 4) (Z.shiftr (ord y) 4))
       :: token_char (Z.lor (Z.shiftl (Z.land (ord y) 15) 2) (Z.shiftr (ord z) 6))
       :: token_char (Z.land (ord z) 63) :: urlsafe_b64encode r).
    repeat constructor; try (apply token_char_url_safe; assumption). exact IH.
Qed.

Lemma url_safe_char_ascii (c : Z) : url_safe_char c = true -> 0 <= c < 128.
Proof.
  unfold url_safe_char. intros H.
  repeat match type of H with
         | (_ || _) = true => apply orb_prop in H as [H|H]
         | (_ && _) = true => let H' := fresh in apply andb_prop in H as [H H']
         end; repeat match goal with Hb : (_ <=? _) = true |- _ => apply Z.leb_le in Hb end;
    try (apply Z.eqb_eq in H); lia.
Qed.

(** The length of a token: four characters per started group of three. *)
Lemma urlsafe_b64encode_length (b : bytes) :
  length (urlsafe_b64encode b) = (4 * ((length b + 2) / 3))%nat.
Proof.
  induction b as [|x|x y|x y z r IH] using bytes_ind3; try reflexivity.
  unfold urlsafe_b64encode in *. cbn [b2a_base64 map length] in *. rewrite IH.
  replace (S (S (S (length r))) + 2)%nat with ((length r + 2) + 1 * 3)%nat by lia.
  rewrite Nat.div_add by lia. lia.
Qed.
