(* ===== verification/Fernet.v ===== *)
(** Fernet, as [cryptography.fernet.Fernet] implements it: the key
    ([Fernet.__init__]), the token ([_encrypt_from_parts]: version byte
    [0x80], big-endian timestamp, IV, AES-128-CBC ciphertext of the PKCS7
    padded data, HMAC-SHA256 tag, url-safe Base64) and its verification
    ([decrypt]: [_get_unverified_token_data], [_verify_signature],
    [_decrypt_data]).

    The primitives are the fields of the class [FernetCrypto] with the
    laws the proofs use: the tag is 32 bytes, CBC keeps the length of a
    whole number of blocks, and decryption undoes encryption under the
    same key and IV.  PKCS7 padding, the slicing of the token and every
    check of [decrypt] are written out; the unpadder's check is the
    constant-time [check_pkcs7_padding] of the library's Rust code, on
    [u8] values with their wrap-around, proved equal to the plain
    condition [pkcs7_check]. *)

From Stdlib Require Import Bool ZArith List Lia.
From S2P Require Import Prelude Bytes Base64.
Import ListNotations.
Open Scope Z_scope.

Class FernetCrypto := {
  hmac_sha256 : bytes -> bytes -> bytes;             (** key, message *)
  aes_cbc_encrypt : bytes -> bytes -> bytes -> bytes;   (** key, iv, blocks *)
  aes_cbc_decrypt : bytes -> bytes -> bytes -> bytes;
  hmac_sha256_length : forall k m, length (hmac_sha256 k m) = 32%nat;
  aes_cbc_encrypt_length : forall k iv p, length (aes_cbc_encrypt k iv p) = length p;
  aes_cbc_decrypt_encrypt : forall k iv p,
    length k = 16%nat -> length iv = 16%nat -> (length p mod 16 = 0)%nat ->
    aes_cbc_decrypt k iv (aes_cbc_encrypt k iv p) = p
}.

(** The state of a [Fernet] object. *)
Record fernet := mk_fernet {
  signing_key : bytes;
  encryption_key : bytes
}.

(** [Fernet.__init__(key)] *)
Definition fernet_init (key : bytes) : result fernet :=
  match urlsafe_b64decode key with
  | Err _ => Err ValueError
  | Ok k =>
      if Nat.eqb (length k) 32
      then Ok (mk_fernet (py_slice k None (Some 16)) (py_slice k (Some 16) None))
      else Err ValueError
  end.

(** [int.to_bytes(length, byteorder="big")] of a non-negative [int]. *)
Fixpoint be_bytes (len : nat) (n : Z) : bytes :=
  match len with
  | O => []
  | S k => be_bytes k (n / 256) ++ [chr (n mod 256)]
  end.

Definition int_to_bytes_be (n : Z) (len : nat) : result bytes :=
  if (0 <=? n) && (n <? 256 ^ Z.of_nat len) then Ok (be_bytes len n) else Err OverflowError.

(** [int.from_bytes(b, byteorder="big")] *)
Definition int_from_bytes_be (b : bytes) : Z :=
  fold_left (fun acc c => acc * 256 + ord c) b 0.

(** [padding.PKCS7(128).padder()]: [update(data) + finalize()]. *)
Definition pkcs7_pad (data : bytes) : bytes :=
  let pad_size := (16 - length data mod 16)%nat in
  data ++ repeat (chr (Z.of_nat pad_size)) pad_size.

(** What the PKCS7 check of the last block decides: its last byte [p] is
    in [1, len] and the last [p] bytes all equal [p].  This is the
    reference the constant-time implementation below is proved equal to. *)
Definition pkcs7_check (block : bytes) : bool :=
  let pad_size := ord (last block Byte.x00) in
  (0 <? pad_size) && (pad_size <=? Z.of_nat (length block))
  && forallb (fun b => ord b =? pad_size) (skipn (length block - Z.to_nat pad_size) block).

(** The constant-time check the unpadder runs, [check_pkcs7_padding] of
    cryptography's [src/rust/src/padding.rs], on Rust [u8] values kept in
    [[0, 256)]: [wrapping_sub] wraps modulo 256 and [!] is [255 - a]. *)
Definition u8_wrapping_sub (a b : Z) : Z := (a - b) mod 256.

Definition u8_not (a : Z) : Z := 255 - a.

Definition duplicate_msb_to_all (a : Z) : Z := u8_wrapping_sub 0 (Z.shiftr a 7).

Definition constant_time_lt (a b : Z) : Z :=
  duplicate_msb_to_all (Z.lxor a (Z.lor (Z.lxor a b) (Z.lxor (u8_wrapping_sub a b) b))).

(** [for (i, b) in (0..len).zip(data.iter().rev())]: [len] is
    [data.len()], so the zip runs over every byte. *)
Fixpoint ct_mismatch_loop (i pad_size : Z) (bs : bytes) (mismatch : Z) : Z :=
  match bs with
  | [] => mismatch
  | b :: rest =>
      ct_mismatch_loop (i + 1) pad_size rest
        (Z.lor mismatch (Z.land (constant_time_lt i pad_size) (Z.lxor pad_size (ord b))))
  end.

(** [data.len().try_into()] panics above 255 and [data.last().unwrap()]
    on empty data; the unpadder only calls it on a 16-byte block. *)
Definition check_pkcs7_padding (data : bytes) : bool :=
  let pad_size := ord (last data Byte.x00) in
  let len := Z.of_nat (length data) in
  let mismatch := ct_mismatch_loop 0 pad_size (rev data) 0 in
  let mismatch := Z.lor mismatch (u8_not (constant_time_lt 0 pad_size)) in
  let mismatch := Z.lor mismatch (constant_time_lt len pad_size) in
  let mismatch := Z.lor mismatch (Z.shiftr mismatch 4) in
  let mismatch := Z.lor mismatch (Z.shiftr mismatch 2) in
  let mismatch := Z.lor mismatch (Z.shiftr mismatch 1) in
  Z.land mismatch 1 =? 0.

(** [padding.PKCS7(128).unpadder()]: [update] keeps the last block in its
    buffer, [finalize] checks it and strips the padding. *)
Definition pkcs7_unpad (data : bytes) : result bytes :=
  let finished := ((length data / 16 - 1) * 16)%nat in
  let out := firstn finished data in
  let buffer := skipn finished data in
  if negb (Nat.eqb (length buffer) 16) then Err ValueError
  else if negb (check_pkcs7_padding buffer) then Err ValueError
  else Ok (out ++ py_slice buffer None (Some (- ord (last buffer Byte.x00)))).

Section Token.
Context `{FC : FernetCrypto}.

(** [Fernet._encrypt_from_parts(data, current_time, iv)] *)
Definition encrypt_from_parts (f : fernet) (data : bytes) (current_time : Z) (iv : bytes)
  : result bytes :=
  let padded_data := pkcs7_pad data in
  (* modes.CBC(iv) refuses an IV that is not one block *)
  if negb (Nat.eqb (length iv) 16) then Err ValueError else
  let ciphertext := aes_cbc_encrypt (encryption_key f) iv padded_data in
  ts <- int_to_bytes_be current_time 8 ;;
  let basic_parts := [chr 0x80] ++ ts ++ iv ++ ciphertext in
  let hmac := hmac_sha256 (signing_key f) basic_parts in
  Ok (urlsafe_b64encode (basic_parts ++ hmac)).

(** [Fernet.encrypt(data)]: [time.time()] and [os.urandom(16)] are the
    arguments [now] and [iv]. *)
Definition fernet_encrypt (f : fernet) (data : bytes) (now : Z) (iv : bytes) : result bytes :=
  encrypt_from_parts f data now iv.

(** [Fernet._get_unverified_token_data(token)] *)
Definition unverified_token_data (token : bytes) : result (Z * bytes) :=
  match urlsafe_b64decode token with
  | Err _ => Err InvalidToken
  | Ok data =>
      match data with
      | [] => Err InvalidToken
      | c :: _ =>
          if negb (ord c =? 0x80) then Err InvalidToken
          else if (length data <? 9)%nat then Err InvalidToken
          else Ok (int_from_bytes_be (py_slice data (Some 1) (Some 9)), data)
      end
  end.

(** [Fernet._verify_signature(data)] *)
Definition verify_signature (f : fernet) (data : bytes) : result unit :=
  if bytes_eqb (hmac_sha256 (signing_key f) (py_slice data None (Some (-32))))
       (py_slice data (Some (-32)) None)
  then Ok tt else Err InvalidToken.

(** [Fernet._decrypt_data(data, timestamp, None)] *)
Definition decrypt_data (f : fernet) (data : bytes) : result bytes :=
  _ <- verify_signature f data ;;
  let iv := py_slice data (Some 9) (Some 25) in
  let ciphertext := py_slice data (Some 25) (Some (-32)) in
  if negb (Nat.eqb (length iv) 16) then Err ValueError
  (* decryptor.finalize() raises ValueError on a partial block *)
  else if negb (Nat.eqb (length ciphertext mod 16) 0) then Err InvalidToken
  else match pkcs7_unpad (aes_cbc_decrypt (encryption_key f) iv ciphertext) with
       | Ok p => Ok p
       | Err _ => Err InvalidToken
       end.

(** [Fernet.decrypt(token)]: no [ttl], so the timestamp is read and not
    checked. *)
Definition fernet_decrypt (f : fernet) (token : bytes) : result bytes :=
  td <- unverified_token_data token ;;
  decrypt_data f (snd td).

End Token.

(** ** Padding and integer encoding *)

Lemma be_bytes_length (len : nat) (n : Z) : length (be_bytes len n) = len.
Proof.
  revert n. induction len as [|k IH]; intros n; [reflexivity|].
  cbn [be_bytes]. rewrite length_app, IH. cbn. lia.
Qed.

(** Two timestamps in range have different eight-byte encodings. *)
Lemma be_bytes_inj (len : nat) (a b : Z) :
  0 <= a < 256 ^ Z.of_nat len -> 0 <= b < 256 ^ Z.of_nat len -> be_bytes len a = be_bytes len b -> a = b.
Proof.
  revert a b. induction len as [|k IH]; intros a b Ha Hb E.
  - cbn in Ha, Hb. lia.
  - cbn [be_bytes] in E. apply app_inj_tail in E as [E1 E2].
    assert (Hm : a mod 256 = b mod 256).
    { rewrite <- (ord_chr (a mod 256)), <- (ord_chr (b mod 256)) by (apply Z.mod_pos_bound; lia).
      rewrite E2. reflexivity. }
    rewrite Nat2Z.inj_succ, Z.pow_succ_r in Ha, Hb by lia.
    assert (Hq : a / 256 = b / 256).
    { apply IH; [split; [apply Z.div_pos; lia | apply Z.div_lt_upper_bound; lia]
                | split; [apply Z.div_pos; lia | apply Z.div_lt_upper_bound; lia] | exact E1]. }
    rewrite (Z.div_mod a 256), (Z.div_mod b 256) by lia. rewrite Hq, Hm. reflexivity.
Qed.

Lemma int_to_bytes_be_ok (n : Z) (len : nat) :
  0 <= n < 256 ^ Z.of_nat len -> int_to_bytes_be n len = Ok (be_bytes len n).
Proof.
  intros H. unfold int_to_bytes_be.
  destruct (Z.leb_spec 0 n), (Z.ltb_spec n (256 ^ Z.of_nat len)); cbn; try lia; reflexivity.
Qed.

Lemma last_repeat_app {A} (l : list A) (x d : A) (n : nat) :
  last (l ++ repeat x (S n)) d = x.
Proof.
  replace (repeat x (S n)) with (repeat x n ++ [x]).
  - rewrite app_assoc. apply last_last.
  - rewrite <- repeat_cons. reflexivity.
Qed.

Lemma pkcs7_pad_length (data : bytes) :
  length (pkcs7_pad data) = (16 * (length data / 16) + 16)%nat.
Proof.
  unfold pkcs7_pad. rewrite length_app, repeat_length.
  pose proof (Nat.div_mod_eq (length data) 16). pose proof (Nat.mod_upper_bound (length data) 16).
  lia.
Qed.

Lemma pkcs7_pad_blocks (data : bytes) : (length (pkcs7_pad data) mod 16 = 0)%nat.
Proof.
  rewrite pkcs7_pad_length. replace (16 * (length data / 16) + 16)%nat
    with ((length data / 16 + 1) * 16)%nat by lia. apply Nat.Div0.mod_mul.
Qed.

(** ** The constant-time padding check *)

(** [constant_time_lt a b] is the all-ones mask when [a < b] and zero
    otherwise, on all [256 * 256] pairs of bytes. *)
Lemma constant_time_lt_spec (a b : Z) :
  0 <= a < 256 -> 0 <= b < 256 -> constant_time_lt a b = if a <? b then 255 else 0.
Proof.
  intros Ha Hb.
  assert (H : forallb (fun a => forallb (fun b =>
                constant_time_lt a b =? (if a <? b then 255 else 0)) (zrange 256)) (zrange 256) = true)
    by (vm_compute; reflexivity).
  rewrite forallb_forall in H. specialize (H a (zrange_in 256 a ltac:(lia))).
  rewrite forallb_forall in H. specialize (H b (zrange_in 256 b ltac:(lia))).
  now apply Z.eqb_eq in H.
Qed.

(** The three shifts copy any set bit of a byte down to bit 0. *)
Lemma smear_low_bit (m : Z) : 0 <= m < 256 ->
  (Z.land (let m1 := Z.lor m (Z.shiftr m 4) in let m2 := Z.lor m1 (Z.shiftr m1 2) in
           Z.lor m2 (Z.shiftr m2 1)) 1 =? 0) = (m =? 0).
Proof.
  intros Hm.
  assert (H : forallb (fun m => Bool.eqb (Z.land (let m1 := Z.lor m (Z.shiftr m 4) in
             let m2 := Z.lor m1 (Z.shiftr m1 2) in Z.lor m2 (Z.shiftr m2 1)) 1 =? 0)
             (m =? 0)) (zrange 256) = true) by (vm_compute; reflexivity).
  rewrite forallb_forall in H. specialize (H m (zrange_in 256 m ltac:(lia))).
  now apply Bool.eqb_prop in H.
Qed.

Lemma ct_term (i p b : Z) : 0 <= i < 256 -> 0 <= p < 256 -> 0 <= b < 256 ->
  Z.land (constant_time_lt i p) (Z.lxor p b) = if i <? p then Z.lxor p b else 0.
Proof.
  intros Hi Hp Hb. rewrite constant_time_lt_spec by lia.
  destruct (i <? p); [|apply Z.land_0_l].
  change 255 with (Z.ones 8). rewrite Z.land_comm, Z.land_ones by lia.
  apply Z.mod_small. change (2 ^ 8) with 256. apply Z_lxor_byte; lia.
Qed.

(** The loop's mismatch stays a byte, and is zero exactly when the bytes
    it reaches below [pad_size] all equal [pad_size]. *)
Lemma ct_mismatch_loop_spec (p : Z) (bs : bytes) : forall (i m : Z),
  0 <= i -> i + Z.of_nat (length bs) <= 256 -> 0 <= p < 256 -> 0 <= m < 256 ->
  (0 <= ct_mismatch_loop i p bs m < 256) /\
  ((ct_mismatch_loop i p bs m =? 0)
   = (m =? 0) && forallb (fun b => ord b =? p) (firstn (Z.to_nat (p - i)) bs)).
Proof.
  induction bs as [|b rest IH]; intros i m Hi Hlen Hp Hm; cbn [ct_mismatch_loop].
  - rewrite firstn_nil, andb_true_r. split; [exact Hm | reflexivity].
  - cbn [length] in Hlen. pose proof (ord_range b).
    rewrite ct_term by lia.
    set (t := if i <? p then Z.lxor p (ord b) else 0).
    assert (Ht : 0 <= t < 256) by (unfold t; destruct (i <? p); [apply Z_lxor_byte|]; lia).
    destruct (IH (i + 1) (Z.lor m t)) as [Hr ->]; [lia | lia | lia | auto with pyrt |].
    split; [exact Hr|]. rewrite Z_lor_eqb_0, <- andb_assoc. f_equal.
    unfold t. destruct (Z.ltb_spec i p).
    + replace (Z.to_nat (p - i)) with (S (Z.to_nat (p - (i + 1)))) by lia.
      cbn [firstn forallb]. rewrite Z_lxor_eqb_0. reflexivity.
    + replace (Z.to_nat (p - i)) with O by lia. replace (Z.to_nat (p - (i + 1))) with O by lia.
      reflexivity.
Qed.

(** What the constant-time check computes, before reversing the block. *)
Lemma check_pkcs7_padding_unfold (data : bytes) : (length data <= 255)%nat ->
  check_pkcs7_padding data
  = forallb (fun b => ord b =? ord (last data Byte.x00))
      (firstn (Z.to_nat (ord (last data Byte.x00))) (rev data))
    && (0 <? ord (last data Byte.x00)) && (ord (last data Byte.x00) <=? Z.of_nat (length data)).
Proof.
  intros Hl. unfold check_pkcs7_padding.
  set (p := ord (last data Byte.x00)). pose proof (ord_range (last data Byte.x00)) as Hp. fold p in Hp.
  destruct (ct_mismatch_loop_spec p (rev data) 0 0) as [Hr Heq]; rewrite ?length_rev; try lia.
  set (m := ct_mismatch_loop 0 p (rev data) 0) in *.
  rewrite !constant_time_lt_spec by lia.
  set (len := Z.of_nat (length data)).
  set (a := if 0 <? p then 255 else 0). set (c := if len <? p then 255 else 0).
  assert (Ha : 0 <= u8_not a < 256) by (unfold u8_not, a; destruct (0 <? p); lia).
  assert (Hc : 0 <= c < 256) by (unfold c; destruct (len <? p); lia).
  rewrite smear_low_bit by auto with pyrt. rewrite !Z_lor_eqb_0, Heq. cbn [Z.eqb andb].
  rewrite Z.sub_0_r. unfold u8_not, a, c.
  destruct (0 <? p), (Z.leb_spec p len), (Z.ltb_spec len p); try lia; cbn;
    rewrite ?andb_true_r, ?andb_false_r; reflexivity.
Qed.

(** The unpadder strips exactly what the padder added. *)
Lemma pkcs7_unpad_pad (data : bytes) : pkcs7_unpad (pkcs7_pad data) = Ok data.
Proof.
  set (q := (length data / 16)%nat). set (r := (length data mod 16)%nat).
  assert (Hd : length data = (16 * q + r)%nat) by (apply Nat.div_mod_eq).
  assert (Hr : (r < 16)%nat) by (apply Nat.mod_upper_bound; lia).
  unfold pkcs7_unpad. rewrite pkcs7_pad_length. fold q.
  replace ((16 * q + 16) / 16 - 1)%nat with q
    by (replace (16 * q + 16)%nat with ((q + 1) * 16)%nat by lia; rewrite Nat.div_mul; lia).
  unfold pkcs7_pad. fold r. set (p := (16 - r)%nat).
  assert (Hp : p = S (15 - r)) by lia.
  rewrite firstn_app, skipn_app. replace (q * 16 - length data)%nat with O by lia.
  rewrite firstn_O, app_nil_r, skipn_O.
  assert (Hs : length (skipn (q * 16) data) = r) by (rewrite length_skipn; lia).
  set (buffer := skipn (q * 16) data ++ repeat (chr (Z.of_nat p)) p).
  assert (Hb : length buffer = 16%nat) by (unfold buffer; rewrite length_app, repeat_length; lia).
  assert (Hl : ord (last buffer Byte.x00) = Z.of_nat p).
  { unfold buffer. rewrite Hp, last_repeat_app, <- Hp. apply ord_chr. lia. }
  rewrite Hb. cbn [Nat.eqb negb].
  assert (Hc : check_pkcs7_padding buffer = true).
  { rewrite check_pkcs7_padding_unfold by lia. rewrite Hl, Hb, Nat2Z.id.
    unfold buffer. rewrite rev_app_distr, rev_repeat, firstn_app, repeat_length, Nat.sub_diag,
      firstn_O, app_nil_r, firstn_all2 by (rewrite repeat_length; lia).
    apply andb_true_intro; split; [apply andb_true_intro; split|apply Z.leb_le; lia];
      [|apply Z.ltb_lt; lia].
    apply forallb_forall. intros b Hin. apply repeat_spec in Hin. subst b.
    rewrite ord_chr by lia. apply Z.eqb_refl. }
  rewrite Hc. cbn [negb]. rewrite Hl. rewrite py_slice_drop_last by lia.
  rewrite Hb. unfold buffer. rewrite firstn_app, Hs. replace (16 - p - r)%nat with O by lia.
  rewrite firstn_O, app_nil_r. replace (16 - p)%nat with r by lia.
  rewrite (firstn_all2 (skipn (q * 16) data)) by lia.
  rewrite Nat.mul_comm, firstn_skipn. reflexivity.
Qed.

(** The constant-time [check_pkcs7_padding] of the unpadder, with its
    [u8] wrap-around, masks and bit smearing, decides exactly the
    reference PKCS7 condition on every block of at most 255 bytes: the
    last byte [p] is in [1, len] and the last [p] bytes equal [p]. *)
Theorem check_pkcs7_padding_ref (block : bytes) :
  (length block <= 255)%nat -> check_pkcs7_padding block = pkcs7_check block.
Proof.
  intros Hl. rewrite check_pkcs7_padding_unfold by exact Hl. unfold pkcs7_check.
  rewrite firstn_rev, forallb_rev.
  destruct (0 <? _), (_ <=? _), (forallb _ _); reflexivity.
Qed.

Lemma check_pkcs7_padding_ref_witness :
  (length (repeat (Byte.x41) 13 ++ repeat Byte.x03 3) <= 255)%nat
  /\ check_pkcs7_padding (repeat (Byte.x41) 13 ++ repeat Byte.x03 3)
     = pkcs7_check (repeat (Byte.x41) 13 ++ repeat Byte.x03 3).
Proof.
  split; [cbn; lia | apply check_pkcs7_padding_ref; cbn; lia].
Defined.

(** ** The token layout *)

(** The slices [decrypt] takes of [0x80 ‖ ts ‖ iv ‖ ct ‖ tag]. *)
Lemma token_slices (c : byte) (ts iv ct tag : bytes) :
  length ts = 8%nat -> length iv = 16%nat -> length tag = 32%nat ->
  let d := c :: ts ++ iv ++ ct ++ tag in
  py_slice d None (Some (-32)) = c :: ts ++ iv ++ ct
  /\ py_slice d (Some (-32)) None = tag
  /\ py_slice d (Some 9) (Some 25) = iv
  /\ py_slice d (Some 25) (Some (-32)) = ct.
Proof.
  intros Hts Hiv Htag d.
  assert (Hd : d = (c :: ts ++ iv ++ ct) ++ tag) by (unfold d; rewrite !app_assoc; reflexivity).
  assert (Hlen : length d = (25 + length ct + 32)%nat)
    by (unfold d; cbn [length]; rewrite !length_app; lia).
  assert (H9 : skipn 9 d = iv ++ ct ++ tag)
    by (unfold d; change (skipn 9 (c :: ts ++ iv ++ ct ++ tag)) with (skipn 8 (ts ++ iv ++ ct ++ tag));
        apply skipn_app_eq; exact Hts).
  change (-32) with (- Z.of_nat 32). change 9 with (Z.of_nat 9). change 25 with (Z.of_nat 25).
  rewrite py_slice_drop_last, py_slice_last, py_slice_mid, py_slice_mid_neg by lia.
  rewrite Hlen. repeat split.
  - rewrite Hd. apply firstn_app_eq. cbn [length]. rewrite !length_app. lia.
  - rewrite Hd. apply skipn_app_eq. cbn [length]. rewrite !length_app. lia.
  - rewrite H9. apply firstn_app_eq. lia.
  - change 25%nat with (16 + 9)%nat. rewrite <- skipn_skipn, H9, skipn_app_eq by exact Hiv.
    apply firstn_app_eq. lia.
Qed.

(** [_encrypt_from_parts] returns when the IV is one block and the time
    fits in eight bytes. *)
Lemma encrypt_from_parts_ok `{FernetCrypto} (f : fernet) (data : bytes) (now : Z) (iv : bytes) :
  length iv = 16%nat -> 0 <= now < 2 ^ 64 ->
  let basic := [chr 0x80] ++ be_bytes 8 now ++ iv ++ aes_cbc_encrypt (encryption_key f) iv (pkcs7_pad data) in
  encrypt_from_parts f data now iv = Ok (urlsafe_b64encode (basic ++ hmac_sha256 (signing_key f) basic)).
Proof.
  intros Hiv Hnow basic. unfold encrypt_from_parts. rewrite Hiv. cbn [Nat.eqb negb].
  rewrite int_to_bytes_be_ok by (cbn; lia). reflexivity.
Qed.

Section Roundtrip.
Context `{FC : FernetCrypto}.
Variable f : fernet.
Hypothesis encryption_key_16 : length (encryption_key f) = 16%nat.

(** [_decrypt_data] accepts the data [_encrypt_from_parts] signed. *)
Lemma decrypt_data_signed (data : bytes) (ts iv : bytes) :
  length ts = 8%nat -> length iv = 16%nat ->
  let basic := [chr 0x80] ++ ts ++ iv ++ aes_cbc_encrypt (encryption_key f) iv (pkcs7_pad data) in
  decrypt_data f (basic ++ hmac_sha256 (signing_key f) basic) = Ok data.
Proof.
  intros Hts Hiv basic.
  set (ct := aes_cbc_encrypt (encryption_key f) iv (pkcs7_pad data)).
  set (tag := hmac_sha256 (signing_key f) basic).
  assert (Hd : basic ++ tag = chr 0x80 :: ts ++ iv ++ ct ++ tag)
    by (unfold basic; cbn [app]; rewrite !app_assoc; reflexivity).
  destruct (token_slices (chr 0x80) ts iv ct tag Hts Hiv (hmac_sha256_length _ _))
    as (S1 & S2 & S3 & S4).
  unfold decrypt_data, verify_signature. rewrite Hd, S1, S2, S3, S4.
  replace (chr 0x80 :: ts ++ iv ++ ct) with basic by reflexivity. fold tag.
  replace (bytes_eqb tag tag) with true by (symmetry; apply bytes_eqb_spec; reflexivity).
  rewrite Hiv. cbn [Nat.eqb negb].
  assert (Hct : (length ct mod 16 = 0)%nat)
    by (unfold ct; rewrite aes_cbc_encrypt_length; apply pkcs7_pad_blocks).
  rewrite Hct. cbn [Nat.eqb negb].
  unfold ct. rewrite aes_cbc_decrypt_encrypt by auto using pkcs7_pad_blocks.
  rewrite pkcs7_unpad_pad. reflexivity.
Qed.

(** [Fernet.decrypt] undoes [Fernet.encrypt]. *)
Lemma fernet_decrypt_encrypt (data : bytes) (now : Z) (iv : bytes) (token : bytes) :
  length iv = 16%nat -> encrypt_from_parts f data now iv = Ok token ->
  fernet_decrypt f token = Ok data.
Proof.
  intros Hiv He. unfold encrypt_from_parts in He. rewrite Hiv in He. cbn [Nat.eqb negb] in He.
  unfold int_to_bytes_be in He.
  destruct ((0 <=? now) && (now <? 256 ^ Z.of_nat 8)); [|discriminate].
  apply Ok_inj in He. subst token.
  unfold fernet_decrypt, unverified_token_data. rewrite urlsafe_b64decode_encode.
  cbn [app]. rewrite ord_chr by lia. cbn [Z.eqb Pos.eqb negb].
  replace (length _ <? 9)%nat with false
    by (symmetry; apply Nat.ltb_ge; cbn [length]; rewrite !length_app, be_bytes_length; lia).
  cbn [snd]. apply (decrypt_data_signed data (be_bytes 8 now) iv); [apply be_bytes_length|exact Hiv].
Qed.
End Roundtrip.

(** [Fernet.__init__] splits a 32-byte key into two 16-byte halves. *)
Lemma fernet_init_keys (key : bytes) (f : fernet) :
  fernet_init key = Ok f ->
  length (signing_key f) = 16%nat /\ length (encryption_key f) = 16%nat.
Proof.
  unfold fernet_init. destruct (urlsafe_b64decode key) as [k|]; [|discriminate].
  destruct (Nat.eqb_spec (length k) 32) as [Hk|]; [|discriminate].
  intros H. apply Ok_inj in H. subst f. cbn [signing_key encryption_key].
  change 16 with (Z.of_nat 16). rewrite py_slice_prefix, py_slice_suffix.
  rewrite length_firstn, length_skipn. lia.
Qed.

(** [decrypt] reads the token only through [urlsafe_b64decode]. *)
Lemma fernet_decrypt_b64 `{FernetCrypto} (f : fernet) (t1 t2 : bytes) :
  urlsafe_b64decode t1 = urlsafe_b64decode t2 -> fernet_decrypt f t1 = fernet_decrypt f t2.
Proof. intros E. unfold fernet_decrypt, unverified_token_data. rewrite E. reflexivity. Qed.

(** A token that does not decode is refused with [InvalidToken]. *)
Lemma fernet_decrypt_b64_error `{FernetCrypto} (f : fernet) (t : bytes) (e : exn) :
  urlsafe_b64decode t = Err e -> fernet_decrypt f t = Err InvalidToken.
Proof. intros E. unfold fernet_decrypt, unverified_token_data. rewrite E. reflexivity. Qed.

(** ** An executable instance

    Not a cipher: a tag that is the first 32 bytes of key and message, and
    a "block cipher" that reverses the bytes.  It satisfies the laws, so
    the witnesses below run the whole token format. *)
Lemma toy_tag_length (k m : bytes) : length (firstn 32 (k ++ m ++ repeat Byte.x00 32)) = 32%nat.
Proof. rewrite length_firstn, !length_app, repeat_length. lia. Qed.

#[export] Instance toy_fernet_crypto : FernetCrypto := {
  hmac_sha256 k m := firstn 32 (k ++ m ++ repeat Byte.x00 32);
  aes_cbc_encrypt k iv p := rev p;
  aes_cbc_decrypt k iv c := rev c;
  hmac_sha256_length := toy_tag_length;
  aes_cbc_encrypt_length k iv p := length_rev p;
  aes_cbc_decrypt_encrypt k iv p _ _ _ := rev_involutive p
}.
