(* ===== verification/OrderCodec.v ===== *)
(** The order-id codec of [src/apps/home/util.py] (lines 17-27): the
    module-level [cipher_suite = Fernet(os.getenv("FERNET_KEY").encode())],
    [encrypt_order_id] and [decrypt_order_id].

    Both go through Python's [str(int)] and [int(str)], written out here
    as CPython 3.11 and later implement them: decimal digits with a sign,
    at most [sys.int_info.default_max_str_digits] = 4300 digits either way;
    [int(str)] maps non-ASCII spaces and decimal digits to ASCII first
    ([_PyUnicode_TransformDecimalAndSpaceToASCII], whose Unicode tables are
    the class [UnicodeNumeric]), then reads optional spaces, a sign, digits
    with single underscores between them, and optional spaces. *)

From Stdlib Require Import Bool ZArith List Lia.
From S2P Require Import Prelude Bytes Utf8 Base64 Fernet.
Import ListNotations.
Open Scope Z_scope.

(** ** [str(int)] *)

Definition max_str_digits : nat := 4300.

(** The decimal digits of [n >= 0], most significant first; [fuel] bounds
    the number of digits. *)
Fixpoint digits_of (fuel : nat) (n : Z) : pystr :=
  match fuel with
  | O => []
  | S f => if n <? 10 then [48 + n] else digits_of f (n / 10) ++ [48 + n mod 10]
  end.

(** One digit per bit is more than enough. *)
Definition digit_fuel (n : Z) : nat := S (Z.to_nat (Z.log2 n)).

(** [str(n)] ([long_to_decimal_string]). *)
Definition py_str_int (n : Z) : result pystr :=
  let ds := digits_of (digit_fuel (Z.abs n)) (Z.abs n) in
  if (max_str_digits <? length ds)%nat then Err ValueError
  else Ok (if n <? 0 then 45 :: ds else ds).

(** ** [int(str)] *)

(** The two Unicode tables [int()], [str.strip()] and [re]'s [\d] read,
    with their rows for ASCII: the spaces are tab to carriage return,
    the four separators [0x1C]-[0x1F] and the space; the decimal digits are
    ['0']-['9']. *)
Class UnicodeNumeric := {
  unicode_isspace : Z -> bool;        (** [Py_UNICODE_ISSPACE] *)
  unicode_todecimal : Z -> Z;         (** [Py_UNICODE_TODECIMAL]: -1 for none *)
  unicode_isspace_ascii : forall c, 0 <= c < 128 ->
    unicode_isspace c = ((9 <=? c) && (c <=? 13)) || ((28 <=? c) && (c <=? 32));
  unicode_todecimal_ascii : forall c, 0 <= c < 128 ->
    unicode_todecimal c = if (48 <=? c) && (c <=? 57) then c - 48 else -1
}.

Definition py_isspace (c : Z) : bool := (c =? 32) || ((9 <=? c) && (c <=? 13)).
Definition is_dec_digit (c : Z) : bool := (48 <=? c) && (c <=? 57).

Fixpoint skip_space (s : pystr) : pystr :=
  match s with
  | c :: r => if py_isspace c then skip_space r else s
  | [] => []
  end.

(** The digit loop of [long_from_string_base]: [prev] is the previous
    character; a second underscore in a row fails. *)
Fixpoint scan_digits (s : pystr) (prev acc : Z) (digits : nat) : option (pystr * Z * Z * nat) :=
  match s with
  | c :: r =>
      if is_dec_digit c then scan_digits r c (acc * 10 + (c - 48)) (S digits)
      else if c =? 95 then if prev =? 95 then None else scan_digits r c acc digits
      else Some (s, prev, acc, digits)
  | [] => Some ([], prev, acc, digits)
  end.

(** [PyLong_FromString(str, &end, 10)], with the check that it read the
    whole string. *)
Definition long_from_string (s : pystr) : result Z :=
  let s := skip_space s in
  let '(sign, s) :=
    match s with
    | c :: r => if c =? 43 then (1, r) else if c =? 45 then (-1, r) else (1, s)
    | [] => (1, s)
    end in
  if match s with c :: _ => c =? 95 | [] => false end then Err ValueError else
  match scan_digits s 0 0 0 with
  | None => Err ValueError
  | Some (rest, prev, acc, digits) =>
      if prev =? 95 then Err ValueError
      else if (max_str_digits <? digits)%nat then Err ValueError
      else if Nat.eqb digits 0 then Err ValueError
      else match skip_space rest with
           | [] => Ok (sign * acc)
           | _ => Err ValueError
           end
  end.

Section Codec.
Context `{FC : FernetCrypto} `{UN : UnicodeNumeric}.

(** [_PyUnicode_TransformDecimalAndSpaceToASCII]: a character that is
    neither stops the string at a ['?']. *)
Fixpoint transform_decimal_and_space (s : pystr) : pystr :=
  match s with
  | [] => []
  | ch :: r =>
      if ch <? 127 then ch :: transform_decimal_and_space r
      else if unicode_isspace ch then 32 :: transform_decimal_and_space r
      else let d := unicode_todecimal ch in
           if d <? 0 then [63] else (48 + d) :: transform_decimal_and_space r
  end.

(** [int(s)] for a [str] ([PyLong_FromUnicodeObject(s, 10)]). *)
Definition py_int_of_str (s : pystr) : result Z :=
  long_from_string (transform_decimal_and_space s).

(** [cipher_suite = Fernet(os.getenv("FERNET_KEY").encode())] *)
Definition cipher_suite_init (fernet_key : option pystr) : result fernet :=
  match fernet_key with
  | None => Err AttributeError
  | Some k => kb <- str_encode_utf8 k ;; fernet_init kb
  end.

(** [encrypt_order_id(order_id)]; [now] and [iv] are the time and the
    random bytes [Fernet.encrypt] takes. *)
Definition encrypt_order_id (cipher_suite : fernet) (now : Z) (iv : bytes) (order_id : Z)
  : result pystr :=
  s <- py_str_int order_id ;;
  b <- str_encode_utf8 s ;;
  t <- fernet_encrypt cipher_suite b now iv ;;
  bytes_decode_utf8 t.

(** [decrypt_order_id(encrypted_order_id)] *)
Definition decrypt_order_id (cipher_suite : fernet) (encrypted_order_id : pystr) : result Z :=
  b <- str_encode_utf8 encrypted_order_id ;;
  p <- fernet_decrypt cipher_suite b ;;
  s <- bytes_decode_utf8 p ;;
  py_int_of_str s.

End Codec.

(** ** [int(str(n)) == n] *)

Definition horner (acc c : Z) : Z := acc * 10 + (c - 48).

Lemma pow10_succ (f : nat) : 10 ^ Z.of_nat (S f) = 10 * 10 ^ Z.of_nat f.
Proof. rewrite Nat2Z.inj_succ, Z.pow_succ_r by lia. reflexivity. Qed.

(** Enough fuel gives the decimal digits of [n], a non-empty string of
    digits whose value is [n]. *)
Lemma digits_of_spec (f : nat) (n : Z) :
  (0 < f)%nat -> 0 <= n < 10 ^ Z.of_nat f ->
  digits_of f n <> [] /\ Forall (fun c => is_dec_digit c = true) (digits_of f n)
  /\ fold_left horner (digits_of f n) 0 = n.
Proof.
  revert n. induction f as [|f IH]; intros n Hf Hn; [lia|]. rewrite pow10_succ in Hn.
  cbn [digits_of]. destruct (Z.ltb_spec n 10).
  - unfold is_dec_digit. repeat constructor; [discriminate| |].
    + destruct (Z.leb_spec 48 (48 + n)), (Z.leb_spec (48 + n) 57); cbn; lia.
    + cbn [fold_left]. unfold horner. lia.
  - destruct f as [|f]; [cbn in Hn; lia|].
    destruct (IH (n / 10)) as (_ & D & V); [lia|zarith|].
    split; [destruct (digits_of _ _); discriminate|]. split.
    + apply Forall_app. split; [exact D|]. repeat constructor. unfold is_dec_digit.
      destruct (Z.leb_spec 48 (48 + n mod 10)), (Z.leb_spec (48 + n mod 10) 57); cbn; zarith.
    + rewrite fold_left_app, V. cbn [fold_left]. unfold horner. zarith.
Qed.

Lemma digit_fuel_enough (n : Z) : 0 <= n -> n < 10 ^ Z.of_nat (digit_fuel n).
Proof.
  intros Hn. unfold digit_fuel. rewrite pow10_succ, Z2Nat.id by (apply Z.log2_nonneg).
  destruct (Z.eq_dec n 0) as [->|Hn0]; [cbn; lia|].
  destruct (Z.log2_spec n) as [_ H]; [lia|].
  assert (2 ^ Z.log2 n <= 10 ^ Z.log2 n)
    by (apply Z.pow_le_mono_l; pose proof (Z.log2_nonneg n); lia).
  rewrite Z.pow_succ_r in H by (apply Z.log2_nonneg). lia.
Qed.

(** [n < 10 ^ k] has at most [k] digits. *)
Lemma digits_of_length (f k : nat) (n : Z) :
  (0 < k)%nat -> 0 <= n < 10 ^ Z.of_nat k -> (length (digits_of f n) <= k)%nat.
Proof.
  revert n k. induction f as [|f IH]; intros n k Hk Hn; cbn [digits_of]; [cbn; lia|].
  destruct (Z.ltb_spec n 10); [cbn; lia|].
  destruct k as [|k]; [lia|]. rewrite pow10_succ in Hn.
  destruct k as [|k]; [cbn in Hn; lia|].
  rewrite length_app. cbn [length].
  enough (length (digits_of f (n / 10)) <= S k)%nat by lia.
  apply IH; [lia|zarith].
Qed.

(** Past what [n] needs, more fuel changes nothing. *)
Lemma digits_of_fuel_stable (f g : nat) (n : Z) :
  (0 < f)%nat -> 0 <= n < 10 ^ Z.of_nat f -> (f <= g)%nat -> digits_of g n = digits_of f n.
Proof.
  revert g n. induction f as [|f IH]; intros g n Hf Hn Hg; [lia|].
  destruct g as [|g]; [lia|]. rewrite pow10_succ in Hn. cbn [digits_of].
  destruct (Z.ltb_spec n 10); [reflexivity|].
  destruct f as [|f]; [cbn in Hn; lia|].
  rewrite (IH g (n / 10)); [reflexivity | lia | zarith | lia].
Qed.

Lemma last_cons_default {A} (c : A) (l : list A) (d : A) : last (c :: l) d = last l c.
Proof.
  revert c d. induction l as [|x l IH]; intros c d; [reflexivity|].
  change (last (c :: x :: l) d) with (last (x :: l) d). rewrite !IH. reflexivity.
Qed.

Lemma scan_digits_app (ds rest : pystr) (prev acc : Z) (k : nat) :
  Forall (fun c => is_dec_digit c = true) ds ->
  scan_digits (ds ++ rest) prev acc k
  = scan_digits rest (last ds prev) (fold_left horner ds acc) (k + length ds).
Proof.
  intros D. revert prev acc k. induction D as [|c ds Hc D IH]; intros prev acc k.
  - rewrite Nat.add_0_r. reflexivity.
  - cbn [app scan_digits]. rewrite Hc, IH, last_cons_default. cbn [length fold_left].
    rewrite Nat.add_succ_r. reflexivity.
Qed.

Lemma transform_ascii `{UnicodeNumeric} (s : pystr) :
  Forall (fun c => c < 127) s -> transform_decimal_and_space s = s.
Proof.
  induction 1 as [|c s Hc _ IH]; [reflexivity|]. cbn.
  destruct (Z.ltb_spec c 127); [|lia]. rewrite IH. reflexivity.
Qed.

Lemma digits_ascii (ds : pystr) :
  Forall (fun c => is_dec_digit c = true) ds -> Forall (fun c => 0 <= c < 127) ds.
Proof.
  apply Forall_impl. intros c. unfold is_dec_digit.
  destruct (Z.leb_spec 48 c), (Z.leb_spec c 57); cbn; lia.
Qed.

(** A string of [k] digits has a value below [10 ^ k]. *)
Lemma horner_bound (ds : pystr) (acc : Z) :
  Forall (fun c => is_dec_digit c = true) ds -> 0 <= acc ->
  0 <= fold_left horner ds acc < (acc + 1) * 10 ^ Z.of_nat (length ds).
Proof.
  intros D. revert acc. induction D as [|c ds Hc D IH]; intros acc Ha.
  - cbn. lia.
  - cbn [fold_left length]. rewrite pow10_succ.
    unfold is_dec_digit in Hc. apply andb_prop in Hc as [H1 H2].
    apply Z.leb_le in H1, H2. change (horner acc c) with (acc * 10 + (c - 48)).
    specialize (IH (acc * 10 + (c - 48)) ltac:(lia)).
    pose proof (Z.pow_pos_nonneg 10 (Z.of_nat (length ds)) ltac:(lia) ltac:(lia)). nia.
Qed.

(** The digits [str] writes for [n]. *)
Lemma py_str_int_digits (n : Z) :
  let ds := digits_of (digit_fuel (Z.abs n)) (Z.abs n) in
  ds <> [] /\ Forall (fun c => is_dec_digit c = true) ds /\ fold_left horner ds 0 = Z.abs n.
Proof.
  apply digits_of_spec; [unfold digit_fuel; lia|].
  split; [lia|]. apply digit_fuel_enough. lia.
Qed.

(** [n] has more than [k] digits exactly when [10 ^ k <= |n|]. *)
Lemma digits_length_gt_iff (n : Z) (k : nat) :
  (0 < k)%nat ->
  ((k < length (digits_of (digit_fuel (Z.abs n)) (Z.abs n)))%nat <-> 10 ^ Z.of_nat k <= Z.abs n).
Proof.
  intros Hk. destruct (py_str_int_digits n) as (_ & D & V).
  split.
  - intros L. destruct (Z_lt_le_dec (Z.abs n) (10 ^ Z.of_nat k)) as [Lt|]; [|assumption].
    pose proof (digits_of_length (digit_fuel (Z.abs n)) k (Z.abs n) Hk ltac:(lia)). lia.
  - intros Hge. pose proof (horner_bound _ 0 D ltac:(lia)) as [_ HB]. rewrite V in HB.
    apply Nat2Z.inj_lt. apply (Z.pow_lt_mono_r_iff 10); lia.
Qed.

(** [str(n)] raises exactly when [n] has more than 4300 digits. *)
Lemma py_str_int_error_iff (n : Z) :
  (exists e, py_str_int n = Err e) <-> 10 ^ 4300 <= Z.abs n.
Proof.
  change (10 ^ 4300) with (10 ^ Z.of_nat max_str_digits).
  rewrite <- digits_length_gt_iff by (unfold max_str_digits; lia). unfold py_str_int.
  destruct (Nat.ltb_spec max_str_digits (length (digits_of (digit_fuel (Z.abs n)) (Z.abs n)))).
  - split; [intros _; assumption|eauto].
  - split; [intros [e He]; discriminate|lia].
Qed.

Lemma skip_space_nonspace (c : Z) (s : pystr) : py_isspace c = false -> skip_space (c :: s) = c :: s.
Proof. intros H. cbn. rewrite H. reflexivity. Qed.

(** [long_from_string] reads a non-empty run of at most 4300 digits. *)
Lemma long_from_string_digits (ds : pystr) :
  ds <> [] -> Forall (fun c => is_dec_digit c = true) ds -> (length ds <= max_str_digits)%nat ->
  long_from_string ds = Ok (fold_left horner ds 0)
  /\ long_from_string (45 :: ds) = Ok (- fold_left horner ds 0).
Proof.
  intros Hne D L. destruct ds as [|c ds']; [congruence|].
  pose proof (Forall_inv D) as Hc. cbv beta in Hc.
  assert (Hc' : 48 <= c <= 57)
    by (unfold is_dec_digit in Hc; apply andb_prop in Hc as [H1 H2]; apply Z.leb_le in H1, H2; lia).
  assert (Hlast : is_dec_digit (last (c :: ds') 0) = true).
  { apply Forall_forall with (1 := D).
    rewrite (app_removelast_last 0 (l := c :: ds')) at 2 by discriminate.
    apply in_or_app. right. left. reflexivity. }
  assert (Hl95 : (last (c :: ds') 0 =? 95) = false).
  { apply Z.eqb_neq. intros E. rewrite E in Hlast. discriminate. }
  assert (Scan : scan_digits (c :: ds') 0 0 0
                 = Some ([], last (c :: ds') 0, fold_left horner (c :: ds') 0, length (c :: ds'))).
  { rewrite <- (app_nil_r (c :: ds')) at 1. rewrite scan_digits_app by exact D. reflexivity. }
  unfold long_from_string.
  rewrite skip_space_nonspace
    by (unfold py_isspace; destruct (Z.eqb_spec c 32), (Z.leb_spec 9 c), (Z.leb_spec c 13); cbn; lia).
  rewrite skip_space_nonspace by reflexivity.
  replace (c =? 43) with false by (symmetry; apply Z.eqb_neq; lia).
  replace (c =? 45) with false by (symmetry; apply Z.eqb_neq; lia).
  replace (c =? 95) with false by (symmetry; apply Z.eqb_neq; lia).
  cbn [Z.eqb Pos.eqb]. rewrite Scan, Hl95.
  replace (max_str_digits <? length (c :: ds'))%nat with false by (symmetry; apply Nat.ltb_ge; exact L).
  cbn [length Nat.eqb skip_space]. split; [f_equal; lia|].
  replace (c =? 95) with false by (symmetry; apply Z.eqb_neq; lia). reflexivity.
Qed.

(** [int(str(n)) == n] *)
Lemma py_int_of_str_str `{UnicodeNumeric} (n : Z) (s : pystr) :
  py_str_int n = Ok s -> py_int_of_str s = Ok n.
Proof.
  destruct (py_str_int_digits n) as (Hne & D & V). unfold py_str_int.
  set (ds := digits_of (digit_fuel (Z.abs n)) (Z.abs n)) in *.
  destruct (Nat.ltb_spec max_str_digits (length ds)) as [L|L]; [discriminate|].
  intros E. apply Ok_inj in E. subst s.
  destruct (long_from_string_digits ds Hne D L) as [P1 P2].
  pose proof (digits_ascii ds D) as A. unfold py_int_of_str.
  destruct (Z.ltb_spec n 0).
  - rewrite transform_ascii by (constructor; [lia|eapply Forall_impl; [|exact A]; cbv beta; lia]).
    rewrite P2, V. f_equal. lia.
  - rewrite transform_ascii by (eapply Forall_impl; [|exact A]; cbv beta; lia).
    rewrite P1, V. f_equal. lia.
Qed.

Lemma py_str_int_ascii (n : Z) (s : pystr) : py_str_int n = Ok s -> forallb is_ascii s = true.
Proof.
  destruct (py_str_int_digits n) as (_ & D & _). unfold py_str_int.
  set (ds := digits_of (digit_fuel (Z.abs n)) (Z.abs n)) in *.
  destruct (max_str_digits <? length ds)%nat; [discriminate|]. intros E. apply Ok_inj in E. subst s.
  assert (A : forallb is_ascii ds = true).
  { apply forallb_forall. intros c Hc. rewrite Forall_forall in D. specialize (D c Hc).
    unfold is_dec_digit, is_ascii in *. apply andb_prop in D as [D1 D2]. apply Z.leb_le in D1, D2.
    apply andb_true_intro. split; [apply Z.leb_le|apply Z.ltb_lt]; lia. }
  destruct (n <? 0); cbn [forallb]; rewrite A; reflexivity.
Qed.

Lemma map_ord_chr_ascii_bytes (s : pystr) : forallb is_ascii s = true -> map ord (map chr s) = s.
Proof.
  intros H. rewrite map_map. rewrite <- (map_id s) at 2. apply map_ext_in. intros c Hc.
  rewrite forallb_forall in H. specialize (H c Hc). unfold is_ascii in H.
  apply andb_prop in H as [H1 H2]. apply Z.leb_le in H1. apply Z.ltb_lt in H2. apply ord_chr. lia.
Qed.

Lemma url_safe_bytes_ascii (b : bytes) :
  Forall (fun c => url_safe_char (ord c) = true) b -> Forall (fun c => ord c < 128) b.
Proof. apply Forall_impl. intros c Hc. apply url_safe_char_ascii in Hc. lia. Qed.

Section CodecProofs.
Context `{FC : FernetCrypto} `{UN : UnicodeNumeric}.

(** The Fernet data of the token for [n]. *)
Definition order_token_data (f : fernet) (now : Z) (iv : bytes) (s : pystr) : bytes :=
  let basic := [chr 0x80] ++ be_bytes 8 now ++ iv
               ++ aes_cbc_encrypt (encryption_key f) iv (pkcs7_pad (map chr s)) in
  basic ++ hmac_sha256 (signing_key f) basic.

Lemma cipher_suite_init_keys (k : option pystr) (f : fernet) :
  cipher_suite_init k = Ok f -> length (encryption_key f) = 16%nat.
Proof.
  destruct k as [k|]; [|discriminate]. cbn. destruct (str_encode_utf8 k); [|discriminate].
  intros H. apply (fernet_init_keys _ _ H).
Qed.

(** [encrypt_order_id] returns the url-safe Base64 of the Fernet data of
    [str(n)]. *)
Lemma encrypt_order_id_eq (f : fernet) (now : Z) (iv : bytes) (n : Z) (s : pystr) :
  length iv = 16%nat -> 0 <= now < 2 ^ 64 -> py_str_int n = Ok s ->
  encrypt_order_id f now iv n = Ok (map ord (urlsafe_b64encode (order_token_data f now iv s))).
Proof.
  intros Hiv Hnow Hs. unfold encrypt_order_id. rewrite Hs.
  rewrite str_encode_utf8_ascii by (eapply py_str_int_ascii; eauto).
  unfold fernet_encrypt. rewrite encrypt_from_parts_ok by assumption.
  apply bytes_decode_utf8_ascii, url_safe_bytes_ascii, urlsafe_b64encode_url_safe.
Qed.

(** [decrypt_order_id] reads an ASCII token only through
    [urlsafe_b64decode]. *)
Lemma decrypt_order_id_b64 (f : fernet) (t1 t2 : pystr) :
  forallb is_ascii t1 = true -> forallb is_ascii t2 = true ->
  urlsafe_b64decode (map chr t1) = urlsafe_b64decode (map chr t2) ->
  decrypt_order_id f t1 = decrypt_order_id f t2.
Proof.
  intros A1 A2 E. unfold decrypt_order_id.
  rewrite (str_encode_utf8_ascii t1 A1), (str_encode_utf8_ascii t2 A2).
  rewrite (fernet_decrypt_b64 f _ _ E). reflexivity.
Qed.

(** [decrypt_order_id] of the token of [n] gives [n] back. *)
Lemma decrypt_order_id_token (f : fernet) (now : Z) (iv : bytes) (n : Z) (s : pystr) :
  length (encryption_key f) = 16%nat -> length iv = 16%nat -> 0 <= now < 2 ^ 64 ->
  py_str_int n = Ok s ->
  decrypt_order_id f (map ord (urlsafe_b64encode (order_token_data f now iv s))) = Ok n.
Proof.
  intros Hk Hiv Hnow Hs. pose proof (py_str_int_ascii n s Hs) as A.
  unfold decrypt_order_id.
  rewrite str_encode_utf8_ascii.
  2:{ apply forallb_forall. intros c Hc. apply in_map_iff in Hc as (x & <- & Hx).
      pose proof (proj1 (Forall_forall _ _) (urlsafe_b64encode_url_safe (order_token_data f now iv s))) as U.
      specialize (U x Hx). apply url_safe_char_ascii in U. unfold is_ascii.
      apply andb_true_intro. split; [apply Z.leb_le|apply Z.ltb_lt]; lia. }
  rewrite map_map. rewrite (map_ext _ (fun x => x)) by apply chr_ord. rewrite map_id.
  rewrite (fernet_decrypt_encrypt f Hk (map chr s) now iv).
  - rewrite bytes_decode_utf8_ascii.
    + rewrite map_ord_chr_ascii_bytes by exact A. apply (py_int_of_str_str n s Hs).
    + apply Forall_forall. intros x Hx. apply in_map_iff in Hx as (c & <- & Hc).
      rewrite forallb_forall in A. specialize (A c Hc). unfold is_ascii in A.
      apply andb_prop in A as [A1 A2]. apply Z.leb_le in A1. apply Z.ltb_lt in A2.
      rewrite ord_chr; lia.
  - exact Hiv.
  - apply encrypt_from_parts_ok; assumption.
Qed.
End CodecProofs.

(** ** The shape of a short token *)

(** [str(n)] of [0 <= n < 10 ^ 15] has at most 15 characters. *)
Lemma py_str_int_short (n : Z) (s : pystr) :
  0 <= n < 10 ^ 15 -> py_str_int n = Ok s -> (length s <= 15)%nat.
Proof.
  intros Hn. unfold py_str_int.
  destruct (max_str_digits <? _)%nat; [discriminate|]. intros E. apply Ok_inj in E. subst s.
  destruct (Z.ltb_spec n 0); [lia|]. apply digits_of_length; [lia|]. cbn. lia.
Qed.

(** A byte of the upper half is never a data character nor a pad. *)
Lemma token_value_high (x : byte) : 128 <= ord x -> token_value x = 64 /\ ord x <> pad_char.
Proof.
  intros H. pose proof (ord_range x). unfold token_value, urlsafe_dec_char, a2b_value, pad_char.
  destruct (Z.eqb_spec (ord x) 45); [lia|]. destruct (Z.eqb_spec (ord x) 95); [lia|].
  repeat match goal with
         | |- context [?a <=? ?b] => destruct (Z.leb_spec a b)
         | |- context [?a =? ?b] => destruct (Z.eqb_spec a b)
         end; cbn; lia.
Qed.

Section Shape.
Context `{FC : FernetCrypto}.

Lemma order_token_data_length (f : fernet) (now : Z) (iv : bytes) (s : pystr) :
  length iv = 16%nat ->
  length (order_token_data f now iv s) = (57 + 16 * (length s / 16) + 16)%nat.
Proof.
  intros Hiv. unfold order_token_data. rewrite !length_app, hmac_sha256_length.
  cbn [length]. rewrite be_bytes_length, Hiv, aes_cbc_encrypt_length, pkcs7_pad_length, length_map.
  lia.
Qed.

(** The Fernet data of a string of at most 15 characters is 73 bytes: 24
    whole groups and one byte. *)
Lemma order_token_data_split (f : fernet) (now : Z) (iv : bytes) (s : pystr) :
  length iv = 16%nat -> (length s <= 15)%nat ->
  exists d x, order_token_data f now iv s = d ++ [x] /\ length d = 72%nat.
Proof.
  intros Hiv Hs. pose proof (order_token_data_length f now iv s Hiv) as L.
  rewrite Nat.div_small in L by lia.
  set (d := order_token_data f now iv s) in *.
  exists (removelast d), (last d Byte.x00). split.
  - apply app_removelast_last. intros E. rewrite E in L. discriminate.
  - assert (E : d = removelast d ++ [last d Byte.x00])
      by (apply app_removelast_last; intros E; rewrite E in L; discriminate).
    rewrite E, length_app in L. cbn [length] in L. lia.
Qed.
End Shape.

Lemma urlsafe_b64encode_last1 (d : bytes) (x : byte) :
  (length d mod 3 = 0)%nat ->
  map ord (urlsafe_b64encode (d ++ [x]))
  = map ord (urlsafe_b64encode d)
    ++ [ord (token_char (Z.shiftr (ord x) 2)); ord (token_char (Z.shiftl (Z.land (ord x) 3) 4)); 61; 61].
Proof.
  intros Hd. rewrite urlsafe_b64encode_app, map_app by exact Hd. reflexivity.
Qed.

Lemma map_chr_ord (b : bytes) : map chr (map ord b) = b.
Proof. rewrite map_map, (map_ext _ (fun x => x)) by apply chr_ord. apply map_id. Qed.

Lemma ord_token_char_ascii (v : Z) : 0 <= v < 64 -> is_ascii (ord (token_char v)) = true.
Proof.
  intros Hv. apply token_char_url_safe, url_safe_char_ascii in Hv. unfold is_ascii.
  apply andb_true_intro. split; [apply Z.leb_le|apply Z.ltb_lt]; lia.
Qed.

Lemma token_ascii (b : bytes) : forallb is_ascii (map ord (urlsafe_b64encode b)) = true.
Proof.
  apply forallb_forall. intros c Hc. apply in_map_iff in Hc as (x & <- & Hx).
  pose proof (proj1 (Forall_forall _ _) (urlsafe_b64encode_url_safe b) x Hx) as U.
  apply url_safe_char_ascii in U. unfold is_ascii.
  apply andb_true_intro. split; [apply Z.leb_le|apply Z.ltb_lt]; lia.
Qed.

(** The second character of a last one-byte group holds the byte's two
    low bits in its top bits. *)
Lemma shiftl_land_3_4 (x : byte) : Z.shiftl (Z.land (ord x) 3) 4 / 16 = ord x mod 4.
Proof. rewrite land_3, Z.shiftl_mul_pow2 by lia. pose proof (ord_range x). zarith. Qed.

(** The UTF-8 bytes of a code point other than ['='] hold no pad and at
    most one data character. *)
Lemma encode_cp_b64_tail (c : Z) (bc : bytes) :
  c <> 61 -> 0 <= c <= 0x10FFFF -> encode_cp c = Ok bc ->
  Forall (fun b => ord b <> pad_char) bc
  /\ (length (filter (fun b => (token_value b <? 64)%Z) bc) <= 1)%nat.
Proof.
  intros H61 Hc E. destruct (Z.ltb_spec c 0x80).
  - unfold encode_cp in E. destruct (Z.ltb_spec c 0x80); [|lia]. apply Ok_inj in E. subst bc.
    split; [constructor; [rewrite ord_chr by lia; exact H61|constructor]|].
    cbn. destruct (token_value (chr c) <? 64); cbn; lia.
  - pose proof (encode_cp_high c bc ltac:(lia) E) as Hh.
    assert (F : filter (fun b => token_value b <? 64) bc = []).
    { clear E. induction Hh as [|b bc Hb _ IH]; [reflexivity|]. cbn [filter].
      rewrite (proj1 (token_value_high b Hb)). exact IH. }
    rewrite F. split; [|cbn; lia].
    eapply Forall_impl; [|exact Hh]. intros b Hb. apply (token_value_high b Hb).
Qed.

Section LastChar.
Context `{FC : FernetCrypto} `{UN : UnicodeNumeric}.

(** The last character of a short token is ['=']; any other character in
    its place makes the token fail to decode. *)
Lemma last_char_invalid (fernet_key : option pystr) (f : fernet) (now : Z) (iv : bytes)
    (n : Z) (t : pystr) :
  cipher_suite_init fernet_key = Ok f -> length iv = 16%nat -> 0 <= now < 2 ^ 64 ->
  0 <= n < 10 ^ 15 -> encrypt_order_id f now iv n = Ok t ->
  exists pre, t = pre ++ [61]
  /\ forall c, c <> 61 -> 0 <= c <= 0x10FFFF -> is_surrogate c = false ->
     decrypt_order_id f (pre ++ [c]) = Err InvalidToken.
Proof.
  intros Hf Hiv Hnow Hn Ht.
  destruct (py_str_int n) as [s|e] eqn:Hs.
  2:{ exfalso. apply (proj1 (Z.lt_nge (Z.abs n) (10 ^ 4300))); [|apply py_str_int_error_iff; eauto].
      apply (Z.lt_trans _ (10 ^ 15)); [lia|]. apply Z.pow_lt_mono_r; lia. }
  rewrite (encrypt_order_id_eq f now iv n s Hiv Hnow Hs) in Ht. apply Ok_inj in Ht.
  destruct (order_token_data_split f now iv s Hiv (py_str_int_short n s Hn Hs)) as (d & x & Hd & Hl).
  assert (Hm : (length d mod 3 = 0)%nat) by (rewrite Hl; reflexivity).
  rewrite Hd, urlsafe_b64encode_last1 in Ht by exact Hm. subst t.
  destruct (b64_values_range x x x) as (R0 & _ & _ & _ & R1 & _).
  set (pre := map ord (urlsafe_b64encode d)
          ++ [ord (token_char (Z.shiftr (ord x) 2)); ord (token_char (Z.shiftl (Z.land (ord x) 3) 4)); 61]).
  exists pre. split; [unfold pre; rewrite <- app_assoc; reflexivity|]. intros c H61 Hc Hsur.
  destruct (encode_cp_ok c Hsur) as [bc Ebc].
  destruct (encode_cp_b64_tail c bc H61 Hc Ebc) as [Hpad Hcount].
  unfold decrypt_order_id.
  rewrite (str_encode_utf8_app pre [c] (map chr pre) bc).
  2:{ apply str_encode_utf8_ascii. unfold pre. rewrite forallb_app, token_ascii. cbn [forallb].
      rewrite !ord_token_char_ascii by assumption. reflexivity. }
  2:{ cbn. rewrite Ebc. rewrite app_nil_r. reflexivity. }
  rewrite (fernet_decrypt_b64_error f _ BinasciiError); [reflexivity|].
  unfold pre. rewrite !map_app, map_chr_ord. cbn [map]. rewrite !chr_ord.
  change (chr 61) with (urlsafe_enc_byte (chr pad_char)).
  unfold urlsafe_b64decode, a2b_base64, a2b_init. rewrite <- app_assoc.
  rewrite a2b_loop_encode_prefix by exact Hm. rewrite app_nil_l. cbn [app].
  rewrite !a2b_loop_token_char by assumption.
  destruct (a2b_data_pair d (Z.shiftr (ord x) 2) (Z.shiftl (Z.land (ord x) 3) 4)) as (Q & P & _).
  revert Q P. generalize (a2b_data (a2b_data (mk_a2b 0 0 0 d) (Z.shiftr (ord x) 2))
                                   (Z.shiftl (Z.land (ord x) 3) 4)).
  intros st Q P. rewrite a2b_loop_pad, Q, P. eval_leb.
  apply a2b_loop_unpadded_error; [exact Hpad|cbn; lia|].
  cbn [quad_pos]. destruct (length (filter _ bc)) as [|[|k]]; cbn; lia.
Qed.
End LastChar.

(** ** Theorems *)

Section Claims.
Context `{FC : FernetCrypto} `{UN : UnicodeNumeric}.

(** C31: encryption is not deterministic: two calls of [encrypt_order_id]
    on the same id, at different times or with different random IVs
    ([os.urandom(16)] of [Fernet.encrypt]), give different tokens, and
    both decrypt to the id. *)
Theorem encrypt_order_id_nondeterministic (fernet_key : option pystr) (f : fernet)
  (now1 now2 : Z) (iv1 iv2 : bytes) (n : Z) (t1 t2 : pystr) :
  cipher_suite_init fernet_key = Ok f -> length iv1 = 16%nat -> length iv2 = 16%nat ->
  0 <= now1 < 2 ^ 64 -> 0 <= now2 < 2 ^ 64 -> (now1, iv1) <> (now2, iv2) ->
  encrypt_order_id f now1 iv1 n = Ok t1 -> encrypt_order_id f now2 iv2 n = Ok t2 ->
  t1 <> t2 /\ decrypt_order_id f t1 = Ok n /\ decrypt_order_id f t2 = Ok n.
Proof.
  intros Hf Hiv1 Hiv2 Hn1 Hn2 Hne E1 E2. pose proof (cipher_suite_init_keys _ _ Hf) as Hk.
  destruct (py_str_int n) as [s|e] eqn:Hs; [|unfold encrypt_order_id in E1; rewrite Hs in E1; discriminate].
  rewrite (encrypt_order_id_eq f now1 iv1 n s Hiv1 Hn1 Hs) in E1.
  rewrite (encrypt_order_id_eq f now2 iv2 n s Hiv2 Hn2 Hs) in E2. apply Ok_inj in E1, E2. subst t1 t2.
  split; [|split; apply decrypt_order_id_token; assumption].
  intros E. apply map_ord_inj, (f_equal urlsafe_b64decode) in E. rewrite !urlsafe_b64decode_encode in E.
  apply Ok_inj in E. unfold order_token_data in E. cbv zeta in E. rewrite <- !app_assoc in E. cbn [app] in E.
  apply (f_equal (@tl _)) in E. cbn [tl] in E. apply app_inv_length in E as [Eb E]; [|rewrite !be_bytes_length; reflexivity].
  apply app_inv_length in E as [Ei _]; [|congruence].
  apply Hne. f_equal; [|exact Ei]. apply (be_bytes_inj 8); [cbn; lia | cbn; lia | exact Eb].
Qed.

(** C2: for every key the application starts with, every time that fits
    the eight-byte timestamp, every IV of one block and every id of at
    most 4300 digits, [encrypt_order_id] returns a token and
    [decrypt_order_id] of that token returns the id. *)
Theorem order_id_roundtrip (fernet_key : option pystr) (f : fernet) (now : Z) (iv : bytes) (n : Z) :
  cipher_suite_init fernet_key = Ok f -> length iv = 16%nat -> 0 <= now < 2 ^ 64 ->
  Z.abs n < 10 ^ 4300 ->
  exists t, encrypt_order_id f now iv n = Ok t /\ decrypt_order_id f t = Ok n.
Proof.
  intros Hf Hiv Hnow Hn. pose proof (cipher_suite_init_keys _ _ Hf) as Hk.
  destruct (py_str_int n) as [s|e] eqn:Hs.
  - eexists. split; [apply encrypt_order_id_eq; eassumption|].
    apply decrypt_order_id_token; assumption.
  - exfalso. apply (proj1 (Z.lt_nge _ _) Hn). apply py_str_int_error_iff. eauto.
Qed.

(** C32: a token is made of [A-Z], [a-z], [0-9], ['-'], ['_'] and ['=']
    only, so it can stand in the path of the success URL as it is. *)
Theorem order_token_url_safe (f : fernet) (now : Z) (iv : bytes) (n : Z) (t : pystr) :
  encrypt_order_id f now iv n = Ok t -> Forall (fun c => url_safe_char c = true) t.
Proof.
  unfold encrypt_order_id, fernet_encrypt, encrypt_from_parts.
  destruct (py_str_int n) as [s|]; [|discriminate]. destruct (str_encode_utf8 s) as [b|]; [|discriminate].
  destruct (negb _); [discriminate|]. destruct (int_to_bytes_be now 8) as [ts|]; [|discriminate].
  rewrite bytes_decode_utf8_ascii by apply url_safe_bytes_ascii, urlsafe_b64encode_url_safe.
  intros E. apply Ok_inj in E. subst t. apply Forall_map, urlsafe_b64encode_url_safe.
Qed.

(** C33: an id of more than 4300 digits cannot be encrypted:
    [str(order_id)] raises [ValueError]. *)
Theorem encrypt_order_id_too_large (f : fernet) (now : Z) (iv : bytes) (n : Z) :
  10 ^ 4300 <= Z.abs n -> encrypt_order_id f now iv n = Err ValueError.
Proof.
  intros Hn. apply py_str_int_error_iff in Hn as [e He]. unfold encrypt_order_id.
  unfold py_str_int in *. destruct (max_str_digits <? _)%nat; [reflexivity|discriminate].
Qed.

(** C3: a token for an id below [10 ^ 15] ends with two data characters
    and ["=="]; the second data character carries two bits, and any of the
    16 characters with the same two high bits decrypts to the same id.  So
    15 one-character changes of a valid token are accepted. *)
Theorem order_token_malleable (fernet_key : option pystr) (f : fernet) (now : Z) (iv : bytes)
    (n : Z) (t : pystr) :
  cipher_suite_init fernet_key = Ok f -> length iv = 16%nat -> 0 <= now < 2 ^ 64 ->
  0 <= n < 10 ^ 15 -> encrypt_order_id f now iv n = Ok t ->
  exists pre a b, t = pre ++ [a; b; 61; 61]
  /\ forall v, 0 <= v < 64 -> v / 16 = token_value (chr b) / 16 ->
     decrypt_order_id f (pre ++ [a; ord (token_char v); 61; 61]) = Ok n.
Proof.
  intros Hf Hiv Hnow Hn Ht. pose proof (cipher_suite_init_keys _ _ Hf) as Hk.
  destruct (py_str_int n) as [s|e] eqn:Hs.
  2:{ exfalso. apply (proj1 (Z.lt_nge (Z.abs n) (10 ^ 4300))); [|apply py_str_int_error_iff; eauto].
      apply (Z.lt_trans _ (10 ^ 15)); [lia|]. apply Z.pow_lt_mono_r; lia. }
  rewrite (encrypt_order_id_eq f now iv n s Hiv Hnow Hs) in Ht. apply Ok_inj in Ht.
  pose proof (decrypt_order_id_token f now iv n s Hk Hiv Hnow Hs) as Hdec.
  destruct (order_token_data_split f now iv s Hiv (py_str_int_short n s Hn Hs)) as (d & x & Hd & Hl).
  assert (Hm : (length d mod 3 = 0)%nat) by (rewrite Hl; reflexivity).
  rewrite Hd, urlsafe_b64encode_last1 in Ht, Hdec by exact Hm. subst t.
  destruct (b64_values_range x x x) as (R0 & _ & _ & _ & R1 & _).
  do 3 eexists. split; [reflexivity|]. intros v Hv Hb.
  rewrite <- Hdec. apply decrypt_order_id_b64.
  - rewrite forallb_app, token_ascii. cbn [forallb]. rewrite !ord_token_char_ascii by assumption. reflexivity.
  - rewrite forallb_app, token_ascii. cbn [forallb]. rewrite !ord_token_char_ascii by assumption. reflexivity.
  - rewrite !map_app, map_chr_ord. cbn [map]. rewrite !chr_ord. change (chr 61) with (chr pad_char).
    rewrite chr_ord, (proj1 (decode_token_char _ R1)), shiftl_land_3_4 in Hb.
    rewrite !urlsafe_b64decode_last1 by first [assumption | apply shiftl_land_3_4 | exact R1].
    reflexivity.
Qed.



(** C26: changing the last character of a token for an id below
    [10 ^ 15] (an ['=']) into any other character makes [decrypt_order_id]
    raise [InvalidToken]: the example of the specification holds. *)
Theorem order_token_last_char (fernet_key : option pystr) (f : fernet) (now : Z) (iv : bytes)
    (n : Z) (t : pystr) :
  cipher_suite_init fernet_key = Ok f -> length iv = 16%nat -> 0 <= now < 2 ^ 64 ->
  0 <= n < 10 ^ 15 -> encrypt_order_id f now iv n = Ok t ->
  exists pre, t = pre ++ [61]
  /\ forall c, c <> 61 -> 0 <= c <= 0x10FFFF -> is_surrogate c = false ->
     decrypt_order_id f (pre ++ [c]) = Err InvalidToken.
Proof. apply last_char_invalid. Qed.

(** C30: a character outside both Base64 alphabets and other than ['=']
    may be inserted anywhere in a token: [decrypt_order_id] skips it. *)
Theorem decrypt_order_id_skips (f : fernet) (t1 t2 : pystr) (c : Z) :
  forallb is_ascii t1 = true -> forallb is_ascii t2 = true -> 0 <= c < 128 ->
  url_safe_char c = false -> c <> 43 -> c <> 47 ->
  decrypt_order_id f (t1 ++ c :: t2) = decrypt_order_id f (t1 ++ t2).
Proof.
  intros A1 A2 Hc Hu H43 H47. apply decrypt_order_id_b64.
  - rewrite forallb_app, A1. cbn [forallb]. rewrite A2. unfold is_ascii.
    destruct (Z.leb_spec 0 c), (Z.ltb_spec c 128); cbn; lia.
  - rewrite forallb_app, A1, A2. reflexivity.
  - unfold url_safe_char in Hu.
    apply orb_false_iff in Hu as [Hu H61]. apply orb_false_iff in Hu as [Hu H95].
    apply orb_false_iff in Hu as [Hu H45]. apply orb_false_iff in Hu as [Hu Hd].
    apply orb_false_iff in Hu as [Hu Hl].
    rewrite !map_app. cbn [map]. apply urlsafe_b64decode_skip.
    + rewrite ord_chr by lia. apply Z.eqb_neq. exact H61.
    + unfold token_value, urlsafe_dec_char, a2b_value. rewrite ord_chr by lia.
      rewrite H45, H95, Hu, Hl, Hd, (proj2 (Z.eqb_neq c 43) H43), (proj2 (Z.eqb_neq c 47) H47).
      reflexivity.
Qed.

(** [urlsafe_b64decode] also reads the standard alphabet, so a
    ['-'] of a token may be replaced by ['+'] and a ['_'] by ['/']:
    [decrypt_order_id] returns the same. *)
Theorem decrypt_order_id_alt_alphabet (f : fernet) (t1 t2 : pystr) :
  forallb is_ascii t1 = true -> forallb is_ascii t2 = true ->
  decrypt_order_id f (t1 ++ 43 :: t2) = decrypt_order_id f (t1 ++ 45 :: t2)
  /\ decrypt_order_id f (t1 ++ 47 :: t2) = decrypt_order_id f (t1 ++ 95 :: t2).
Proof.
  intros A1 A2.
  assert (A : forall c, 0 <= c < 128 -> forallb is_ascii (t1 ++ c :: t2) = true).
  { intros c Hc. rewrite forallb_app, A1. cbn [forallb]. rewrite A2. unfold is_ascii.
    destruct (Z.leb_spec 0 c), (Z.ltb_spec c 128); cbn; lia. }
  split; apply decrypt_order_id_b64; try (apply A; lia);
    unfold urlsafe_b64decode; rewrite !map_app; reflexivity.
Qed.
(** The digit loop of [str(int)] terminates within the fuel
    [digit_fuel n] (one step per bit of [n]): any larger fuel computes the
    same string, and that string is the decimal expansion of [n], a
    non-empty run of digits whose value is [n]. *)
Theorem digits_of_terminates (n : Z) (f : nat) :
  0 <= n -> (digit_fuel n <= f)%nat ->
  digits_of f n = digits_of (digit_fuel n) n
  /\ digits_of f n <> [] /\ Forall (fun c => is_dec_digit c = true) (digits_of f n)
  /\ fold_left horner (digits_of f n) 0 = n.
Proof.
  intros Hn Hf. pose proof (digit_fuel_enough n Hn) as He.
  assert (Hpos : (0 < digit_fuel n)%nat) by (unfold digit_fuel; lia).
  rewrite (digits_of_fuel_stable (digit_fuel n) f n Hpos ltac:(lia) Hf).
  split; [reflexivity|]. apply digits_of_spec; [exact Hpos | lia].
Qed.

End Claims.

(** ** Executable instances and witnesses *)

(** No non-ASCII space or decimal digit: [int] then reads ASCII only. *)
(** The ASCII rows of the tables, and nothing above them. *)
#[export, refine] Instance ascii_numeric : UnicodeNumeric := {
  unicode_isspace c := (0 <=? c) && (c <? 128) && (((9 <=? c) && (c <=? 13)) || ((28 <=? c) && (c <=? 32)));
  unicode_todecimal c := if (0 <=? c) && (c <? 128) && (48 <=? c) && (c <=? 57) then c - 48 else -1
}.
Proof.
  all: intros c Hc; rewrite (proj2 (Z.leb_le 0 c)), (proj2 (Z.ltb_lt c 128)) by lia; reflexivity.
Defined.

(** A key: the url-safe Base64 of the bytes 0, 1, ..., 31. *)
Definition demo_key_bytes : bytes := map (fun i => chr (Z.of_nat i)) (seq 0 32).
Definition demo_key : pystr := map ord (urlsafe_b64encode demo_key_bytes).
Definition demo_fernet : fernet := mk_fernet (firstn 16 demo_key_bytes) (skipn 16 demo_key_bytes).
Definition demo_now : Z := 1700000000.
Definition demo_iv : bytes := repeat (chr 7) 16.

(** The token [encrypt_order_id] gives for the order 42. *)
Definition demo_token : pystr :=
  match encrypt_order_id demo_fernet demo_now demo_iv 42 with Ok t => t | Err _ => [] end.

Lemma demo_cipher_suite : cipher_suite_init (Some demo_key) = Ok demo_fernet.
Proof. vm_compute. reflexivity. Qed.

Lemma order_id_roundtrip_witness :
  exists t, encrypt_order_id demo_fernet demo_now demo_iv 42 = Ok t
            /\ decrypt_order_id demo_fernet t = Ok 42.
Proof.
  apply (order_id_roundtrip (Some demo_key)).
  - vm_compute. reflexivity.
  - reflexivity.
  - split; [unfold demo_now; lia|vm_compute; reflexivity].
  - vm_compute. reflexivity.
Defined.

Lemma encrypt_order_id_nondeterministic_witness :
  cipher_suite_init (Some demo_key) = Ok demo_fernet
  /\ exists t1 t2, encrypt_order_id demo_fernet demo_now demo_iv 42 = Ok t1
     /\ encrypt_order_id demo_fernet demo_now (repeat Byte.x01 16) 42 = Ok t2
     /\ (t1 <> t2 /\ decrypt_order_id demo_fernet t1 = Ok 42 /\ decrypt_order_id demo_fernet t2 = Ok 42).
Proof.
  assert (Hf : cipher_suite_init (Some demo_key) = Ok demo_fernet) by (vm_compute; reflexivity).
  split; [exact Hf|].
  destruct (encrypt_order_id demo_fernet demo_now demo_iv 42) as [t1|] eqn:E1; [|vm_compute in E1; discriminate E1].
  destruct (encrypt_order_id demo_fernet demo_now (repeat Byte.x01 16) 42) as [t2|] eqn:E2;
    [|vm_compute in E2; discriminate E2].
  exists t1, t2. split; [reflexivity|]. split; [reflexivity|].
  apply (encrypt_order_id_nondeterministic (Some demo_key) demo_fernet demo_now demo_now demo_iv
           (repeat Byte.x01 16) 42 t1 t2 Hf); try reflexivity;
    try (split; [unfold demo_now; lia | vm_compute; reflexivity]); try assumption.
  intros E. injection E as E. vm_compute in E. discriminate E.
Defined.

Lemma demo_token_eq : encrypt_order_id demo_fernet demo_now demo_iv 42 = Ok demo_token.
Proof. vm_compute. reflexivity. Qed.

Lemma order_token_url_safe_witness : Forall (fun c => url_safe_char c = true) demo_token.
Proof. apply (order_token_url_safe demo_fernet demo_now demo_iv 42). vm_compute. reflexivity. Defined.

Lemma encrypt_order_id_too_large_witness :
  encrypt_order_id demo_fernet demo_now demo_iv (10 ^ 4300) = Err ValueError.
Proof. apply encrypt_order_id_too_large. vm_compute. intros H. discriminate H. Defined.

Lemma order_token_malleable_witness :
  exists pre a b, demo_token = pre ++ [a; b; 61; 61]
  /\ forall v, 0 <= v < 64 -> v / 16 = token_value (chr b) / 16 ->
     decrypt_order_id demo_fernet (pre ++ [a; ord (token_char v); 61; 61]) = Ok 42.
Proof.
  apply (order_token_malleable (Some demo_key) demo_fernet demo_now demo_iv 42).
  - vm_compute. reflexivity.
  - reflexivity.
  - split; [unfold demo_now; lia|vm_compute; reflexivity].
  - split; [lia|vm_compute; reflexivity].
  - vm_compute. reflexivity.
Defined.

(** The token for 42 with its 98th character ['w'] changed to ['x']: a
    different string that decrypts to 42. *)
Example demo_tampered_token_accepted :
  let tampered := firstn 97 demo_token ++ [120] ++ skipn 98 demo_token in
  tampered <> demo_token /\ decrypt_order_id demo_fernet tampered = Ok 42.
Proof. vm_compute. split; [discriminate|reflexivity]. Qed.

Lemma order_token_last_char_witness :
  exists pre, demo_token = pre ++ [61]
  /\ forall c, c <> 61 -> 0 <= c <= 0x10FFFF -> is_surrogate c = false ->
     decrypt_order_id demo_fernet (pre ++ [c]) = Err InvalidToken.
Proof.
  apply (order_token_last_char (Some demo_key) demo_fernet demo_now demo_iv 42).
  - vm_compute. reflexivity.
  - reflexivity.
  - split; [unfold demo_now; lia|vm_compute; reflexivity].
  - split; [lia|vm_compute; reflexivity].
  - vm_compute. reflexivity.
Defined.

Lemma decrypt_order_id_skips_witness :
  decrypt_order_id demo_fernet (firstn 10 demo_token ++ 46 :: skipn 10 demo_token)
  = decrypt_order_id demo_fernet (firstn 10 demo_token ++ skipn 10 demo_token).
Proof.
  apply decrypt_order_id_skips; try (vm_compute; reflexivity); try lia; vm_compute; discriminate.
Defined.

Lemma decrypt_order_id_alt_alphabet_witness :
  decrypt_order_id demo_fernet (firstn 10 demo_token ++ 43 :: skipn 11 demo_token)
  = decrypt_order_id demo_fernet (firstn 10 demo_token ++ 45 :: skipn 11 demo_token)
  /\ decrypt_order_id demo_fernet (firstn 10 demo_token ++ 47 :: skipn 11 demo_token)
  = decrypt_order_id demo_fernet (firstn 10 demo_token ++ 95 :: skipn 11 demo_token).
Proof. apply decrypt_order_id_alt_alphabet; vm_compute; reflexivity. Defined.

Lemma digits_of_terminates_witness :
  0 <= 1234567 /\ (digit_fuel 1234567 <= 64)%nat
  /\ digits_of 64 1234567 = digits_of (digit_fuel 1234567) 1234567
  /\ digits_of 64 1234567 <> [] /\ Forall (fun c => is_dec_digit c = true) (digits_of 64 1234567)
  /\ fold_left horner (digits_of 64 1234567) 0 = 1234567.
Proof.
  split; [lia|]. split; [vm_compute; lia|].
  apply digits_of_terminates; [lia | vm_compute; lia].
Defined.
