(* ===== verification/Checkout.v ===== *)
(** The checkout routes of [src/apps/home/routes.py]:
    [create_checkout_session] (lines 365-446), [success] (lines 450-467)
    and [get_orders] (lines 477-486).

    [create_checkout_session] runs its body in [try]; the model returns
    the outcome of the body (a response or the exception it raises)
    together with the database as it was when the body stopped, since the
    order is committed before the loop over the cart.  [except Exception]
    then answers 500 with [str(e)]; its [db.session.rollback()] discards
    only what was added and not committed.

    [Product] is not imported by [routes.py] (lines 8-21 import [User],
    [Order], [OrderItem] and the helpers of [util.py]): the first
    [Product.query.get(...)] raises [NameError], and so does
    [render_template(..., Product=Product)] in [get_orders].

    Stripe's [checkout.Session.create] is the section variable
    [stripe_create]; [request.url_root] is an argument. *)

From Stdlib Require Import Bool ZArith List Lia.
From Stdlib Require String.
From S2P Require Import Prelude Bytes Utf8 Models Web Base64 Fernet OrderCodec.
Import ListNotations.
Import String.StringSyntax.
Local Open Scope Z_scope.
Local Open Scope string_scope.
Local Open Scope list_scope.

(** [str(e)] of the exceptions the checkout body raises. *)
Definition exn_str (e : exn) : String.string :=
  match e with
  | NameError n => String.append "name '" (String.append n "' is not defined")
  | TypeError => "'NoneType' object is not iterable"
  | IntegrityError => "(sqlite3.IntegrityError) NOT NULL constraint failed"
  | BadRequest => "415 Unsupported Media Type"
  | _ => "error"
  end.

(** A cart entry of the request body: [{"product_id": ..., "quantity": ...}]. *)
Record cart_item := mk_cart_item {
  ci_product_id : option Z;
  ci_quantity : option Z
}.

(** [request.get_json()]: [data.get("user_id")], [data.get("total_price")],
    [data.get("cart_items")]. *)
Record checkout_json := mk_checkout_json {
  cj_user_id : option Z;
  cj_total_price : option Z;
  cj_cart_items : option (list cart_item)
}.

(** A line item for Stripe: product name, unit amount in cents, quantity. *)
Record line_item := mk_line_item {
  li_name : pystr;
  li_unit_amount : Z;
  li_quantity : Z
}.

Definition secret_code_expected : pystr := pys "thanksfortheorder".

(** [f"{request.url_root[:-1]}/success/{encrypted_order_id}?appreciate=thanksfortheorder"] *)
Definition success_url (url_root encrypted_order_id : pystr) : pystr :=
  py_slice url_root None (Some (-1)) ++ pys "/success/" ++ encrypted_order_id
  ++ pys "?appreciate=" ++ secret_code_expected.

(** [YOUR_DOMAIN + "/cancel"] *)
Definition cancel_url (url_root : pystr) : pystr := py_slice url_root None (Some (-1)) ++ pys "/cancel".

Section Routes.
Context `{FC : FernetCrypto} `{UN : UnicodeNumeric}.
(** [util.cipher_suite] *)
Variable cipher_suite : fernet.
(** [stripe.checkout.Session.create(line_items=..., mode="payment",
    success_url=..., cancel_url=...)]: the session's [id] and [url]. *)
Variable stripe_create : list line_item -> pystr -> pystr -> result (String.string * String.string).

(** The [try] body of [create_checkout_session]; [order_date] is
    [datetime.utcnow()], [now] and [iv] what [encrypt_order_id] uses. *)
Definition checkout_body (data : option checkout_json) (order_date now : Z) (iv : bytes)
    (url_root : pystr) (d : db) : result response * db :=
  match data with
  | None => (Err BadRequest, d)
  | Some j =>
      let new_order := order_init (cj_user_id j) order_date (cj_total_price j) in
      let new_id := fresh_id (orders d) in
      match commit (set_orders d (orders d ++ [(new_id, new_order)])) with
      | Err e => (Err e, d)
      | Ok d1 =>
          match cj_cart_items j with
          | None => (Err TypeError, d1)
          | Some (_ :: _) => (Err (NameError "Product"), d1)
          | Some [] =>
              (* db.session.commit(): nothing is pending *)
              match encrypt_order_id cipher_suite now iv new_id with
              | Err e => (Err e, d1)
              | Ok encrypted_order_id =>
                  match stripe_create [] (success_url url_root encrypted_order_id) (cancel_url url_root) with
                  | Err e => (Err e, d1)
                  | Ok (sid, surl) => (Ok (JsonCheckout sid surl 200), d1)
                  end
              end
          end
      end
  end.

(** [create_checkout_session()] *)
Definition create_checkout_session (data : option checkout_json) (order_date now : Z) (iv : bytes)
    (url_root : pystr) : handler :=
  fun w =>
    let '(r, d) := checkout_body data order_date now iv url_root (w_db w) in
    match r with
    | Ok resp => Ok (resp, set_db w d)
    | Err e => Ok (JsonMsg (exn_str e) 500, set_db w d)
    end.

(** [success(encrypted_order_id)]: [secret_code] is
    [request.args.get("appreciate")].  The exceptions of
    [decrypt_order_id] are not caught. *)
Definition success (secret_code : option pystr) (encrypted_order_id : pystr) : handler :=
  fun w =>
    if negb (opt_pystr_eqb secret_code (Some secret_code_expected))
    then Ok (JsonMsg "Invalid Request" 403, w)
    else
      order_id <- decrypt_order_id cipher_suite encrypted_order_id ;;
      let d := w_db w in
      match get_row (orders d) order_id with
      | None => Ok (JsonMsg "Order not found" 404, w)
      | Some _ =>
          d' <- commit (set_orders d (update_row (orders d) order_id with_paid)) ;;
          Ok (Page "home/payment-success.html" None 200, set_db w d')
      end.

(** [get_orders()], behind [user_logged_in]. *)
Definition get_orders (cu : option (Z * user_row)) : handler :=
  user_logged_in cu (fun w =>
    let user_id := match cu with Some (id, _) => id | None => 0 end in
    let orders := filter (fun '(_, o) => match o_user_id o with
                                          | Some u => u =? user_id | None => false end)
                         (orders (w_db w)) in
    (* render_template("home/order.html", orders=orders, Product=Product) *)
    Ok (JsonMsg (exn_str (NameError "Product")) 500, w)).

End Routes.

(** [@blueprint.errorhandler(403)], [(404)] and [(500)]: [access_forbidden],
    [not_found_error] and [internal_error]. *)
Definition blueprint_error_handler (code : Z) : option response :=
  if code =? 403 then Some (Page "home/page-403.html" None 403)
  else if code =? 404 then Some (Page "home/page-404.html" None 404)
  else if code =? 500 then Some (Page "home/page-500.html" None 500)
  else None.

(** [@app.errorhandler(404)] of [create_app]: [page_not_found]. *)
Definition app_error_handler (code : Z) : option response :=
  if code =? 404 then Some (Page "home/page-404.html" None 404) else None.

(** Flask's [_find_error_handler] and [handle_http_exception]: the
    blueprint's handler for the code when the request reached one of its
    rules, then the application's, else Werkzeug's own error page. *)
Definition handle_http_exception (in_blueprint : bool) (code : Z) : response :=
  match (if in_blueprint then blueprint_error_handler code else None) with
  | Some r => r
  | None => match app_error_handler code with Some r => r | None => HttpError code end
  end.

(** An exception a view does not catch: an HTTP exception
    ([BadRequestKeyError], a 400) goes to the handlers for its code, any
    other becomes an [InternalServerError] (500) and goes to the handlers
    for 500, the blueprint's [internal_error]; the request's session is
    discarded, so only what the view committed before raising remains,
    and no view commits before an uncaught exception. *)
Definition flask_dispatch (h : handler) (w : world) : response * world :=
  match h w with
  | Ok rw => rw
  | Err BadRequestKeyError => (handle_http_exception true 400, w)
  | Err _ => (handle_http_exception true 500, w)
  end.

(** ** Lemmas *)

Lemma with_paid_idem (o : order_row) : with_paid (with_paid o) = with_paid o.
Proof. reflexivity. Qed.

Lemma secret_code_ok : opt_pystr_eqb (Some secret_code_expected) (Some secret_code_expected) = true.
Proof. reflexivity. Qed.

Section RouteProofs.
Context `{FC : FernetCrypto} `{UN : UnicodeNumeric}.
Variable cipher_suite : fernet.
Variable stripe_create : list line_item -> pystr -> pystr -> result (String.string * String.string).

(** [success] with the right code, a token that decrypts to an existing
    order and a database in a consistent state marks that order paid. *)
Lemma success_paid_eq (t : pystr) (id : Z) (o : order_row) (w : world) :
  db_ok (w_db w) = true -> decrypt_order_id cipher_suite t = Ok id ->
  get_row (orders (w_db w)) id = Some o ->
  success cipher_suite (Some secret_code_expected) t w
  = Ok (Page "home/payment-success.html" None 200,
        set_db w (set_orders (w_db w) (update_row (orders (w_db w)) id with_paid))).
Proof.
  intros Hok Hd Hg. unfold success. rewrite secret_code_ok. cbn [negb].
  rewrite Hd, Hg. unfold commit. rewrite db_ok_pay_order by exact Hok. reflexivity.
Qed.

Lemma set_db_twice (w : world) (d1 d2 : db) : set_db (set_db w d1) d2 = set_db w d2.
Proof. reflexivity. Qed.

Lemma get_row_update_some {A} (t : table A) (id : Z) (f : A -> A) (r : A) :
  get_row t id = Some r -> get_row (update_row t id f) id = Some (f r).
Proof. intros H. rewrite get_row_update_eq, H. reflexivity. Qed.

Lemma get_row_update_ne {A} (t : table A) (id k : Z) (f : A -> A) :
  k <> id -> get_row (update_row t id f) k = get_row t k.
Proof.
  intros Hk. induction t as [|[k' r] t IH]; [reflexivity|]. unfold update_row in *. cbn [map].
  destruct (Z.eqb_spec k' id) as [->|]; rewrite !get_row_cons, IH; [|reflexivity].
  rewrite (proj2 (Z.eqb_neq id k)) by congruence. reflexivity.
Qed.

(** ** Theorems *)

(** C16: [create_checkout_session] with a non-empty cart answers 500
    with ["name 'Product' is not defined"], and the order it committed
    before the loop stays in the database, unpaid. *)
Theorem checkout_cart_name_error (j : checkout_json) (item : cart_item) (rest : list cart_item)
    (uid price order_date now : Z) (iv : bytes) (url_root : pystr) (w : world) :
  db_ok (w_db w) = true -> cj_user_id j = Some uid -> cj_total_price j = Some price ->
  cj_cart_items j = Some (item :: rest) ->
  create_checkout_session cipher_suite stripe_create (Some j) order_date now iv url_root w
  = Ok (JsonMsg "name 'Product' is not defined" 500,
        set_db w (set_orders (w_db w)
                   (orders (w_db w) ++ [(fresh_id (orders (w_db w)),
                                         order_init (Some uid) order_date (Some price))]))).
Proof.
  intros Hok Hu Hp Hc. unfold create_checkout_session, checkout_body.
  rewrite Hu, Hp. unfold commit. rewrite db_ok_add_order by (exact Hok || reflexivity).
  rewrite Hc. reflexivity.
Qed.

(** C22: [success] with the right code and a token that decrypts to an
    existing order marks exactly that order paid and changes nothing else:
    the other orders, the users, the other tables and the session stay. *)
Theorem success_marks_paid (t : pystr) (id : Z) (o : order_row) (w : world) :
  db_ok (w_db w) = true -> decrypt_order_id cipher_suite t = Ok id ->
  get_row (orders (w_db w)) id = Some o ->
  exists w', success cipher_suite (Some secret_code_expected) t w
             = Ok (Page "home/payment-success.html" None 200, w')
  /\ get_row (orders (w_db w')) id = Some (with_paid o)
  /\ (forall k, k <> id -> get_row (orders (w_db w')) k = get_row (orders (w_db w)) k)
  /\ users (w_db w') = users (w_db w) /\ aux (w_db w') = aux (w_db w) /\ w_session w' = w_session w.
Proof.
  intros Hok Hd Hg. eexists. split; [apply (success_paid_eq t id o w Hok Hd Hg)|]. cbn.
  split; [apply get_row_update_some; exact Hg|].
  split; [intros k Hk; apply get_row_update_ne; exact Hk|]. repeat split.
Qed.

(** C27: replaying a request to [success] (the same code and token on
    the state it produced) answers the same and changes nothing. *)
Theorem success_replay (sc : option pystr) (t : pystr) (w w1 : world) (r : response) :
  success cipher_suite sc t w = Ok (r, w1) -> success cipher_suite sc t w1 = Ok (r, w1).
Proof.
  unfold success. destruct (negb (opt_pystr_eqb sc (Some secret_code_expected))).
  { intros H. inv H. reflexivity. }
  destruct (decrypt_order_id cipher_suite t) as [id|e]; [|discriminate]. cbv beta iota.
  destruct (get_row (orders (w_db w)) id) as [o|] eqn:Hg; [|intros H; inv H; rewrite Hg; reflexivity].
  unfold commit. destruct (db_ok _) eqn:Hok; [|discriminate]. cbv beta iota. intros H. inv H.
  cbn [w_db set_db set_orders orders users]. rewrite get_row_update_eq, Hg. cbv beta iota. cbn [option_map].
  rewrite update_row_idem by exact with_paid_idem. unfold set_orders in *; cbn [w_db set_db users orders aux] in *. rewrite Hok. reflexivity.
Qed.

(** [success] changes the server state only with the right code
    and a token that decrypts to an existing order. *)
Theorem success_guard (sc : option pystr) (t : pystr) (w w' : world) (r : response) :
  success cipher_suite sc t w = Ok (r, w') -> w' <> w ->
  sc = Some secret_code_expected
  /\ exists id o, decrypt_order_id cipher_suite t = Ok id /\ get_row (orders (w_db w)) id = Some o.
Proof.
  unfold success. destruct (opt_pystr_eqb sc (Some secret_code_expected)) eqn:Hsc; cbn [negb].
  2:{ intros H Hne. inv H. congruence. }
  destruct (decrypt_order_id cipher_suite t) as [id|e]; [|discriminate]. cbn.
  destruct (get_row (orders (w_db w)) id) as [o|] eqn:Hg; [|intros H Hne; inv H; congruence].
  intros _ _. split; [|eauto].
  destruct sc as [s|]; [|discriminate]. cbn in Hsc. apply pystr_eqb_spec in Hsc. congruence.
Qed.
End RouteProofs.

Section EndToEnd.
Context `{FC : FernetCrypto} `{UN : UnicodeNumeric}.
Variable cipher_suite : fernet.
Variable stripe_create : list line_item -> pystr -> pystr -> result (String.string * String.string).

(** C17: a checkout of an empty cart commits an unpaid order under a
    fresh id and hands Stripe a success URL whose token, brought back to
    [success] with the code, marks exactly that order paid. *)
Theorem checkout_success_link (fernet_key : option pystr) (uid price order_date now : Z)
    (iv : bytes) (url_root : pystr) (w : world) :
  cipher_suite_init fernet_key = Ok cipher_suite -> length iv = 16%nat -> 0 <= now < 2 ^ 64 ->
  db_ok (w_db w) = true -> fresh_id (orders (w_db w)) < 10 ^ 4300 ->
  let id := fresh_id (orders (w_db w)) in
  let o := order_init (Some uid) order_date (Some price) in
  exists t, encrypt_order_id cipher_suite now iv id = Ok t
  /\ forall sid surl, stripe_create [] (success_url url_root t) (cancel_url url_root) = Ok (sid, surl) ->
     exists w1,
       create_checkout_session cipher_suite stripe_create
         (Some (mk_checkout_json (Some uid) (Some price) (Some []))) order_date now iv url_root w
       = Ok (JsonCheckout sid surl 200, w1)
     /\ success cipher_suite (Some secret_code_expected) t w1
       = Ok (Page "home/payment-success.html" None 200,
             set_db w (set_orders (w_db w) (orders (w_db w) ++ [(id, with_paid o)]))).
Proof.
  intros Hf Hiv Hnow Hok Hid id o. pose proof (cipher_suite_init_keys _ _ Hf) as Hk.
  pose proof (fresh_id_pos (orders (w_db w))) as Hpos. fold id in Hpos, Hid.
  destruct (py_str_int id) as [s|e] eqn:Hs.
  2:{ exfalso. apply (proj1 (Z.lt_nge (Z.abs id) (10 ^ 4300))); [rewrite Z.abs_eq by lia; exact Hid|].
      apply py_str_int_error_iff. eauto. }
  assert (Hd1 : db_ok (set_orders (w_db w) (orders (w_db w) ++ [(id, o)])) = true)
    by (apply db_ok_add_order; [exact Hok|reflexivity]).
  exists (map ord (urlsafe_b64encode (order_token_data cipher_suite now iv s))).
  split; [apply encrypt_order_id_eq; assumption|]. intros sid surl Hstripe. eexists. split.
  - unfold create_checkout_session, checkout_body. cbn [cj_user_id cj_total_price cj_cart_items].
    fold id o. unfold commit. rewrite Hd1.
    rewrite (encrypt_order_id_eq cipher_suite now iv id s Hiv Hnow Hs), Hstripe. reflexivity.
  - rewrite (success_paid_eq cipher_suite _ id o).
    + cbn [w_db set_db set_orders users orders]. rewrite update_row_app_new by apply fresh_id_new. reflexivity.
    + exact Hd1.
    + apply decrypt_order_id_token; assumption.
    + apply get_row_app_new, fresh_id_new.
Qed.

(** C23: a token whose last character is changed makes [success] raise
    [InvalidToken], which no handler of the view catches: the answer is
    the 500 page, where the specification asks for 403 or 400. *)
Theorem success_tampered_token_500 (fernet_key : option pystr) (now : Z) (iv : bytes) (n : Z)
    (t : pystr) (w : world) :
  cipher_suite_init fernet_key = Ok cipher_suite -> length iv = 16%nat -> 0 <= now < 2 ^ 64 ->
  0 <= n < 10 ^ 15 -> encrypt_order_id cipher_suite now iv n = Ok t ->
  exists pre, t = pre ++ [61]
  /\ forall c, c <> 61 -> 0 <= c <= 0x10FFFF -> is_surrogate c = false ->
     flask_dispatch (success cipher_suite (Some secret_code_expected) (pre ++ [c])) w
     = (Page "home/page-500.html" None 500, w).
Proof.
  intros Hf Hiv Hnow Hn Ht.
  destruct (last_char_invalid fernet_key cipher_suite now iv n t Hf Hiv Hnow Hn Ht) as (pre & Hpre & H).
  exists pre. split; [exact Hpre|]. intros c H61 Hc Hs.
  unfold flask_dispatch, success. rewrite secret_code_ok. cbn [negb].
  rewrite (H c H61 Hc Hs). reflexivity.
Qed.
End EndToEnd.

(** ** Witnesses *)

(** A shop with one unpaid order (id 1, user 5, 19.99). *)
Definition shop_order : order_row := order_init (Some 5) 1700000000 (Some 1999).
Definition shop_world : world := mk_world (mk_db [] [(1, shop_order)] empty_aux) None.

(** A Stripe that opens every session. *)
Definition demo_stripe (items : list line_item) (success cancel : pystr)
  : result (String.string * String.string) := Ok ("cs_test_1", "https://checkout.stripe.com/c/pay/cs_test_1").

Definition demo_root : pystr := pys "http://localhost:5000/".

Definition shop_token : pystr :=
  match encrypt_order_id demo_fernet demo_now demo_iv 1 with Ok t => t | Err _ => [] end.

Definition cart_json : checkout_json :=
  mk_checkout_json (Some 5) (Some 2500) (Some [mk_cart_item (Some 3) (Some 1)]).

Lemma checkout_cart_name_error_witness :
  create_checkout_session demo_fernet demo_stripe (Some cart_json) 1700000100 demo_now demo_iv demo_root shop_world
  = Ok (JsonMsg "name 'Product' is not defined" 500,
        set_db shop_world (mk_db [] [(1, shop_order); (2, order_init (Some 5) 1700000100 (Some 2500))] empty_aux)).
Proof.
  apply (checkout_cart_name_error demo_fernet demo_stripe cart_json (mk_cart_item (Some 3) (Some 1)) []
           5 2500); reflexivity.
Defined.

Lemma success_marks_paid_witness :
  exists w', success demo_fernet (Some secret_code_expected) shop_token shop_world
             = Ok (Page "home/payment-success.html" None 200, w')
  /\ get_row (orders (w_db w')) 1 = Some (with_paid shop_order)
  /\ (forall k, k <> 1 -> get_row (orders (w_db w')) k = get_row (orders (w_db shop_world)) k)
  /\ users (w_db w') = users (w_db shop_world) /\ aux (w_db w') = aux (w_db shop_world)
  /\ w_session w' = w_session shop_world.
Proof. apply (success_marks_paid demo_fernet); vm_compute; reflexivity. Defined.

Definition shop_paid_world : world := mk_world (mk_db [] [(1, with_paid shop_order)] empty_aux) None.

Lemma success_replay_witness :
  success demo_fernet (Some secret_code_expected) shop_token shop_paid_world
  = Ok (Page "home/payment-success.html" None 200, shop_paid_world).
Proof.
  apply (success_replay demo_fernet _ _ shop_world). vm_compute. reflexivity.
Defined.

Lemma success_guard_witness :
  Some secret_code_expected = Some secret_code_expected
  /\ exists id o, decrypt_order_id demo_fernet shop_token = Ok id /\ get_row (orders (w_db shop_world)) id = Some o.
Proof.
  apply (success_guard demo_fernet _ _ shop_world shop_paid_world
           (Page "home/payment-success.html" None 200)).
  - vm_compute. reflexivity.
  - vm_compute. discriminate.
Defined.

Lemma checkout_success_link_witness :
  exists t, encrypt_order_id demo_fernet demo_now demo_iv 2 = Ok t
  /\ forall sid surl, demo_stripe [] (success_url demo_root t) (cancel_url demo_root) = Ok (sid, surl) ->
     exists w1,
       create_checkout_session demo_fernet demo_stripe
         (Some (mk_checkout_json (Some 5) (Some 2500) (Some []))) 1700000100 demo_now demo_iv demo_root
         shop_world
       = Ok (JsonCheckout sid surl 200, w1)
     /\ success demo_fernet (Some secret_code_expected) t w1
       = Ok (Page "home/payment-success.html" None 200,
             set_db shop_world (mk_db [] [(1, shop_order); (2, with_paid (order_init (Some 5) 1700000100 (Some 2500)))] empty_aux)).
Proof.
  apply (checkout_success_link demo_fernet demo_stripe (Some demo_key) 5 2500 1700000100 demo_now
           demo_iv demo_root shop_world).
  - vm_compute. reflexivity.
  - reflexivity.
  - split; [unfold demo_now; lia|vm_compute; reflexivity].
  - vm_compute. reflexivity.
  - vm_compute. reflexivity.
Defined.

Lemma success_tampered_token_500_witness :
  exists pre, shop_token = pre ++ [61]
  /\ forall c, c <> 61 -> 0 <= c <= 0x10FFFF -> is_surrogate c = false ->
     flask_dispatch (success demo_fernet (Some secret_code_expected) (pre ++ [c])) shop_world
     = (Page "home/page-500.html" None 500, shop_world).
Proof.
  apply (success_tampered_token_500 demo_fernet (Some demo_key) demo_now demo_iv 1).
  - vm_compute. reflexivity.
  - reflexivity.
  - split; [unfold demo_now; lia|vm_compute; reflexivity].
  - split; [lia|vm_compute; reflexivity].
  - vm_compute. reflexivity.
Defined.
