(* ===== verification/Enquiry.v ===== *)
(** [send_enquiry_email_to_admin] of [src/apps/home/util.py] (lines
    98-120): the Flask-Mail message it builds from an enquiry and what
    becomes of it.

    The message is a record of the fields the code sets; the e-mail
    template ([render_template("emails/contact_admin.html", data=...)])
    and [mail.send] are parameters that may raise.  Every exception of
    the [try] is printed and swallowed, so the function returns [None]
    in every case; what differs is whether the message was sent, which
    the model returns as the list of messages handed to the mail server.
    [Mail(current_app)] is built before the [try] and does not fail. *)

From Stdlib Require Import Bool ZArith List.
From Stdlib Require String.
Import String.StringSyntax.
From S2P Require Import Prelude Bytes.
Import ListNotations.
Local Open Scope string_scope.
Local Open Scope list_scope.

(** The [data] the e-mail template receives. *)
Record admin_data := mk_admin_data {
  ad_app_name : pystr;
  ad_title : String.string;
  ad_body : pystr;
  ad_name : pystr;
  ad_message : pystr
}.

(** [flask_mail.Message] with the fields the code sets. *)
Record message := mk_message {
  m_subject : String.string;
  m_sender : String.string;
  m_recipients : list pystr;
  m_body : pystr;
  m_reply_to : pystr;
  m_html : pystr
}.

Definition admin_msg_title : String.string := "New Message Received".

(** [f"New message received from {name} ({email})."] *)
Definition admin_msg_body (name email : pystr) : pystr :=
  pys "New message received from " ++ name ++ pys " (" ++ email ++ pys ").".

Section Send.
(** [render_template("emails/contact_admin.html", data=admin_data)] *)
Variable render_contact_admin : admin_data -> result pystr.
(** [mail.send(msg)] *)
Variable mail_send : message -> result unit.

(** The message, once the template has rendered to [html]. *)
Definition enquiry_message (company_email name email : pystr) (html : pystr) : message :=
  {| m_subject := admin_msg_title; m_sender := "noreply@app.com"; m_recipients := [company_email];
     m_body := admin_msg_body name email; m_reply_to := company_email; m_html := html |}.

(** [send_enquiry_email_to_admin(...)]: the messages sent, and [None]. *)
Definition send_enquiry_email_to_admin (company_email company_name name email message : pystr)
  : list Enquiry.message :=
  let data := mk_admin_data company_name admin_msg_title (admin_msg_body name email) name message in
  match render_contact_admin data with
  | Err _ => []                                   (* except Exception: print(e) *)
  | Ok html =>
      let msg := enquiry_message company_email name email html in
      match mail_send msg with
      | Ok _ => [msg]
      | Err _ => []
      end
  end.
End Send.

(** ** Theorems *)

Section SendProofs.
Variable render_contact_admin : admin_data -> result pystr.
Variable mail_send : message -> result unit.

(** C34: What reaches the mail server goes to the company's own address and
    replies go there too: the enquirer's address appears only inside the
    body, so an answer to the notification never reaches the enquirer. *)
Lemma enquiry_reply_to_company (ce cn n e m : pystr) (msg : message) :
  In msg (send_enquiry_email_to_admin render_contact_admin mail_send ce cn n e m) ->
  m_recipients msg = [ce] /\ m_reply_to msg = ce /\ m_body msg = admin_msg_body n e.
Proof.
  unfold send_enquiry_email_to_admin.
  destruct (render_contact_admin _) as [html|ex]; [|intros []].
  destruct (mail_send _); [|intros []].
  intros [<-|[]]. repeat split.
Qed.

(** A message is sent exactly when the template renders and the server
    accepts it; otherwise nothing is sent and nothing is raised. *)
Lemma enquiry_sent_iff (ce cn n e m : pystr) :
  send_enquiry_email_to_admin render_contact_admin mail_send ce cn n e m <> []
  <-> exists html, render_contact_admin (mk_admin_data cn admin_msg_title (admin_msg_body n e) n m) = Ok html
                   /\ mail_send (enquiry_message ce n e html) = Ok tt.
Proof.
  unfold send_enquiry_email_to_admin.
  destruct (render_contact_admin _) as [html|ex].
  - destruct (mail_send _) as [[]|ex] eqn:Es.
    + split; [intros _; exists html; auto | discriminate].
    + split; [congruence|]. intros (h & Hh & Hs). inv Hh. congruence.
  - split; [congruence|]. intros (h & Hh & _). discriminate Hh.
Qed.
End SendProofs.

Definition demo_render (d : admin_data) : result pystr := Ok (ad_body d).
Definition demo_mail_send (m : message) : result unit := Ok tt.

Lemma enquiry_reply_to_company_witness :
  let ce := pys "sales@company.com" in
  let n := pys "Ann" in let e := pys "ann@example.com" in
  let msg := enquiry_message ce n e (admin_msg_body n e) in
  In msg (send_enquiry_email_to_admin demo_render demo_mail_send ce (pys "Co") n e (pys "hi"))
  /\ m_recipients msg = [ce] /\ m_reply_to msg = ce /\ m_body msg = admin_msg_body n e.
Proof.
  cbv zeta. split; [left; reflexivity|].
  apply (enquiry_reply_to_company demo_render demo_mail_send _ (pys "Co") _ _ (pys "hi")).
  left; reflexivity.
Defined.
