(* ===== verification/Helpers.v ===== *)
(** Two helpers no view calls: [get_segment] of [src/apps/home/routes.py]
    (lines 276-284), which names the current page after the last part of
    the request path, and [get_image_url] of [src/apps/home/util.py]
    (lines 30-36), which uploads an image to Cloudinary.

    [get_segment] is modelled on the path string with CPython's
    [str.split] for a one-character separator; its [except] branch is
    dead: [split] never returns an empty list, so [[-1]] never raises.
    [get_image_url] takes [os.getenv] and [cloudinary.uploader.upload] as
    parameters (the upload is a network call); the response is the
    string-valued part of the dictionary Cloudinary returns, and
    [["url"]] raises [KeyError] when the key is missing. *)

From Stdlib Require Import Bool ZArith List Lia.
From Stdlib Require String.
Import String.StringSyntax.
From S2P Require Import Prelude Bytes.
Import ListNotations.
Open Scope Z_scope.
Local Open Scope string_scope.
Local Open Scope list_scope.

(** ** [get_segment] *)

(** [s.split(sep)] for a one-character [sep]: the parts between the
    separators, the empty ones included. *)
Fixpoint py_split_char (sep : Z) (s : pystr) : list pystr :=
  match s with
  | [] => [[]]
  | c :: rest =>
      let parts := py_split_char sep rest in
      if c =? sep then [] :: parts
      else match parts with
           | p :: ps => (c :: p) :: ps
           | [] => [[c]]
           end
  end.

(** [l[-1]] *)
Definition py_last {A} (l : list A) : result A :=
  match rev l with x :: _ => Ok x | [] => Err IndexError end.

(** [get_segment(req)] on [req.path]; [None] is the [except] branch. *)
Definition get_segment (path : pystr) : option pystr :=
  match py_last (py_split_char 47 path) with
  | Ok segment => Some (if pystr_eqb segment [] then pys "index" else segment)
  | Err _ => None
  end.

(** ** [get_image_url] *)

Section Cloudinary.
(** [os.getenv(name)] *)
Variable getenv : String.string -> option pystr.
(** [cloudinary.uploader.upload(image_name)] under the configuration
    [(cloud_name, api_key, api_secret)]: the response's string values. *)
Variable upload : option pystr * option pystr * option pystr -> pystr -> result (list (pystr * pystr)).

(** [d[key]] of a dictionary. *)
Definition dict_getitem (key : pystr) (d : list (pystr * pystr)) : result pystr :=
  match find (fun '(k, _) => pystr_eqb k key) d with
  | Some (_, v) => Ok v
  | None => Err KeyError
  end.

(** [get_image_url(image_name)] *)
Definition get_image_url (image_name : pystr) : result pystr :=
  let config := (getenv "CLOUD_NAME", getenv "API_KEY", getenv "API_SECRET") in
  response <- upload config image_name ;;
  dict_getitem (pys "url") response.
End Cloudinary.

(** ** References *)

Fixpoint take_while {A} (p : A -> bool) (l : list A) : list A :=
  match l with
  | [] => []
  | x :: r => if p x then x :: take_while p r else []
  end.

(** The longest suffix of [path] without [/]. *)
Definition after_last_slash (path : pystr) : pystr :=
  rev (take_while (fun c => negb (c =? 47)) (rev path)).

(** [sep.join(parts)] *)
Fixpoint py_join (sep : Z) (parts : list pystr) : pystr :=
  match parts with
  | [] => []
  | [p] => p
  | p :: ps => p ++ sep :: py_join sep ps
  end.

(** ** Theorems *)

Section Split.
Variable sep : Z.

Lemma py_split_char_not_nil (s : pystr) : py_split_char sep s <> [].
Proof.
  destruct s as [|c s]; cbn; [discriminate|].
  destruct (c =? sep); [discriminate|]. destruct (py_split_char sep s); discriminate.
Qed.

(** A part of the result merged with a leading character. *)
Lemma py_split_char_cons (c : Z) (s : pystr) :
  c <> sep -> exists p ps, py_split_char sep s = p :: ps /\ py_split_char sep (c :: s) = (c :: p) :: ps.
Proof.
  intros Hc. cbn. rewrite (proj2 (Z.eqb_neq c sep) Hc).
  destruct (py_split_char sep s) as [|p ps] eqn:E; [exfalso; exact (py_split_char_not_nil s E)|].
  eauto.
Qed.

Lemma py_split_char_no_sep (s : pystr) :
  forallb (fun c => negb (c =? sep)) s = true -> py_split_char sep s = [s].
Proof.
  induction s as [|c s IH]; cbn; [reflexivity|]. intros H. apply andb_true_iff in H as [Hc H].
  apply negb_true_iff in Hc. rewrite Hc, (IH H). reflexivity.
Qed.

(** A separator splits the string in two independent halves. *)
Lemma py_split_char_app_sep (s1 s2 : pystr) :
  py_split_char sep (s1 ++ sep :: s2) = py_split_char sep s1 ++ py_split_char sep s2.
Proof.
  induction s1 as [|c s1 IH]; cbn.
  - rewrite Z.eqb_refl. reflexivity.
  - rewrite IH. destruct (c =? sep); [reflexivity|].
    destruct (py_split_char sep s1) as [|p ps] eqn:E; [exfalso; exact (py_split_char_not_nil s1 E)|].
    reflexivity.
Qed.

(** [sep.join(s.split(sep)) == s] *)
Lemma py_split_char_join (s : pystr) : py_join sep (py_split_char sep s) = s.
Proof.
  induction s as [|c s IH]; [reflexivity|]. cbn.
  destruct (Z.eqb_spec c sep) as [->|Hc].
  - destruct (py_split_char sep s) as [|p ps] eqn:E; [exfalso; exact (py_split_char_not_nil s E)|].
    destruct ps; cbn in *; rewrite IH; reflexivity.
  - destruct (py_split_char sep s) as [|p [|p' ps]] eqn:E; [exfalso; exact (py_split_char_not_nil s E)| |];
      cbn in *; rewrite IH; reflexivity.
Qed.

(** No part contains the separator. *)
Lemma py_split_char_parts (s p : pystr) :
  In p (py_split_char sep s) -> forallb (fun c => negb (c =? sep)) p = true.
Proof.
  revert p. induction s as [|c s IH]; intros p Hp; cbn in Hp.
  - destruct Hp as [<-|[]]. reflexivity.
  - destruct (Z.eqb_spec c sep) as [->|Hc].
    + destruct Hp as [<-|Hp]; [reflexivity | exact (IH p Hp)].
    + destruct (py_split_char sep s) as [|q qs] eqn:E; [exfalso; exact (py_split_char_not_nil s E)|].
      destruct Hp as [<-|Hp].
      * cbn. rewrite (proj2 (Z.eqb_neq c sep) Hc). apply IH. left. reflexivity.
      * apply IH. right. exact Hp.
Qed.
End Split.

Lemma take_while_split {A} (p : A -> bool) (l : list A) :
  (l = take_while p l /\ forallb p l = true)
  \/ exists x r, l = take_while p l ++ x :: r /\ p x = false.
Proof.
  induction l as [|x l IH]; cbn; [left; auto|]. destruct (p x) eqn:Hx.
  - destruct IH as [[H1 H2]|(y & r & H & Hy)].
    + left. rewrite <- H1. auto.
    + right. exists y, r. split; [rewrite H at 1; reflexivity | exact Hy].
  - right. exists x, l. auto.
Qed.

Lemma forallb_take_while {A} (p : A -> bool) (l : list A) : forallb p (take_while p l) = true.
Proof. induction l as [|x l IH]; cbn; [reflexivity|]. destruct (p x) eqn:Hx; cbn; rewrite ?Hx; auto. Qed.

(** The last part of [path.split("/")] is the text after the last [/]. *)
Lemma py_last_split (path : pystr) : py_last (py_split_char 47 path) = Ok (after_last_slash path).
Proof.
  unfold after_last_slash. set (q := fun c => negb (c =? 47)).
  destruct (take_while_split q (rev path)) as [[H1 H2]|(x & r & H & Hx)].
  - rewrite <- H1, rev_involutive. rewrite py_split_char_no_sep by (rewrite <- forallb_rev; exact H2).
    reflexivity.
  - assert (Ex : x = 47) by (unfold q in Hx; apply negb_false_iff, Z.eqb_eq in Hx; exact Hx). subst x.
    assert (Hp : path = rev r ++ 47 :: rev (take_while q (rev path))).
    { set (T := take_while q (rev path)) in *. clearbody T.
      rewrite <- (rev_involutive path), H, rev_app_distr. cbn. rewrite <- app_assoc. reflexivity. }
    rewrite Hp at 1. rewrite py_split_char_app_sep.
    rewrite (py_split_char_no_sep 47 (rev (take_while q (rev path))))
      by (rewrite forallb_rev; apply forallb_take_while).
    unfold py_last. rewrite rev_app_distr. reflexivity.
Qed.

(** C35: [get_segment] never takes its [except] branch: for every path it
    returns the text after the last [/], or ["index"] when that is empty
    (a path ending in [/]). *)
Theorem get_segment_spec (path : pystr) :
  get_segment path
  = Some (if pystr_eqb (after_last_slash path) [] then pys "index" else after_last_slash path).
Proof. unfold get_segment. rewrite py_last_split. reflexivity. Qed.
