(* ===== verification/Routing.v ===== *)
(** URL matching as Werkzeug does it for the blueprint's rules
    ([werkzeug.routing.matcher.StateMachineMatcher.match], Werkzeug 2.2),
    and the request's form as wtforms reads it.

    A rule is a list of segments: a static word, a [<name>] ([[^/]+]) or
    an [<int:name>] ([\d+]) converter.  The matcher walks the path one
    part at a time, tries the static transition first and the converters
    after it (backtracking when a branch fails), and at the end of the
    path takes the first rule that allows the method; rules that match
    but refuse the method are remembered for the 405 answer.  Converter
    values are kept as the matched text; the conversion ([int()] for
    [<int:>]) is the caller's, after the rule is chosen, as in Werkzeug.

    [path_match] says declaratively when one rule matches a path; the
    theorems of this file show that the state machine refines it: what it
    returns matches and allows the method, and it returns something
    whenever some rule matches and allows the method.  Werkzeug merges
    all converter transitions of a state into one list; the blueprint has
    at most one converter per state, so the list here is that list. *)

From Stdlib Require Import Bool ZArith List Lia.
From S2P Require Import Prelude Bytes Models Web.
Import ListNotations.
Open Scope Z_scope.

(** ** Rules and the declarative reference *)

Inductive segment := SStatic (s : pystr) | SString | SInt.

Definition http_method_eqb (a b : http_method) : bool :=
  match a, b with
  | GET, GET | POST, POST | DELETE, DELETE => true
  | _, _ => false
  end.

Lemma http_method_eqb_spec (a b : http_method) : http_method_eqb a b = true <-> a = b.
Proof. destruct a, b; cbn; split; congruence. Qed.

Definition allows (ms : list http_method) (m : http_method) : bool :=
  existsb (http_method_eqb m) ms.

Section Matcher.
(** [\d] of Python's [re] on [str] patterns: a character with a decimal
    value. *)
Variable is_digit : Z -> bool.
(** Endpoint names. *)
Context {E : Type}.

Record rule := mk_rule {
  r_segments : list segment;
  r_methods : list http_method;
  r_endpoint : E
}.

(** The converter's regular expression, on one part of the path. *)
Definition seg_test (s : segment) (part : pystr) : bool :=
  match s with
  | SStatic _ => false
  | SString => negb (Nat.eqb (length part) 0)
  | SInt => negb (Nat.eqb (length part) 0) && forallb is_digit part
  end.

(** A rule matches a path, with the text of its converters' values. *)
Fixpoint path_match (segs : list segment) (parts : list pystr) : option (list pystr) :=
  match segs, parts with
  | [], [] => Some []
  | SStatic s :: segs', p :: ps => if pystr_eqb s p then path_match segs' ps else None
  | seg :: segs', p :: ps => if seg_test seg p then option_map (cons p) (path_match segs' ps) else None
  | _, _ => None
  end.

(** ** The state machine *)

(** A rule in the matcher's current state: the segments still to match
    and the values captured so far. *)
Record cand := mk_cand { c_rest : list segment; c_vals : list pystr; c_rule : rule }.

Definition advance_all (f : cand -> option cand) (cs : list cand) : list cand :=
  flat_map (fun c => match f c with Some c' => [c'] | None => [] end) cs.

(** [state.static[part]] *)
Definition advance_static (p : pystr) (c : cand) : option cand :=
  match c_rest c with
  | SStatic s :: rest => if pystr_eqb s p then Some (mk_cand rest (c_vals c) (c_rule c)) else None
  | _ => None
  end.

(** [state.dynamic]: the converter's regex matches the part. *)
Definition advance_dynamic (p : pystr) (c : cand) : option cand :=
  match c_rest c with
  | seg :: rest => if seg_test seg p then Some (mk_cand rest (c_vals c ++ [p]) (c_rule c)) else None
  | [] => None
  end.

(** [if parts == []: for rule in state.rules: ...]: the first rule that
    allows the method, or the methods of those that do not
    ([have_match_for]). *)
Fixpoint final (m : http_method) (cs : list cand) : option (rule * list pystr) * list http_method :=
  match cs with
  | [] => (None, [])
  | c :: cs' =>
      match c_rest c with
      | [] =>
          if allows (r_methods (c_rule c)) m then (Some (c_rule c, c_vals c), [])
          else let '(r, h) := final m cs' in (r, r_methods (c_rule c) ++ h)
      | _ :: _ => final m cs'
      end
  end.

(** [_match(state, parts, values)] *)
Fixpoint sm_match (m : http_method) (parts : list pystr) (cs : list cand)
  : option (rule * list pystr) * list http_method :=
  match parts with
  | [] => final m cs
  | p :: ps =>
      let '(r1, h1) := sm_match m ps (advance_all (advance_static p) cs) in
      match r1 with
      | Some r => (Some r, h1)
      | None => let '(r2, h2) := sm_match m ps (advance_all (advance_dynamic p) cs) in (r2, h1 ++ h2)
      end
  end.

Inductive match_result :=
| Found (r : rule) (values : list pystr)
| MethodNotAllowed (valid_methods : list http_method)   (** HTTP 405 *)
| NoMatch.                                              (** HTTP 404 *)

(** [MapAdapter.match] on the path's parts (the path after its leading
    ["/"], split at ["/"]), before the values are converted. *)
Definition match_path (rules : list rule) (m : http_method) (parts : list pystr) : match_result :=
  match sm_match m parts (map (fun r => mk_cand (r_segments r) [] r) rules) with
  | (Some (r, vs), _) => Found r vs
  | (None, []) => NoMatch
  | (None, h) => MethodNotAllowed h
  end.

End Matcher.

Arguments rule : clear implicits.
Arguments match_result : clear implicits.

(** ** The request's form and arguments *)

(** [request.form] and [request.args], in the order they were sent. *)
Definition multidict := list (pystr * pystr).

(** [MultiDict.get(key)]: the first value. *)
Fixpoint multidict_get (k : pystr) (d : multidict) : option pystr :=
  match d with
  | [] => None
  | (k', v) :: rest => if pystr_eqb k k' then Some v else multidict_get k rest
  end.

(** ** The matcher refines the declarative rule matching *)

Section MatcherProofs.
Variable is_digit : Z -> bool.
Context {E : Type}.
Local Abbreviation cand := (@cand E).
Local Abbreviation path_match := (path_match is_digit).

Lemma in_advance_all (f : cand -> option cand) (cs : list cand) (c' : cand) :
  In c' (advance_all f cs) <-> exists c, In c cs /\ f c = Some c'.
Proof.
  unfold advance_all. rewrite in_flat_map. split.
  - intros (c & Hc & Hin). destruct (f c) eqn:Ef; [|destruct Hin].
    destruct Hin as [<-|[]]. eauto.
  - intros (c & Hc & Ef). exists c. rewrite Ef. split; [exact Hc | left; reflexivity].
Qed.

Lemma advance_static_spec (p : pystr) (c c' : cand) :
  advance_static p c = Some c' ->
  exists rest, c_rest c = SStatic p :: rest /\ c' = mk_cand rest (c_vals c) (c_rule c).
Proof.
  destruct c as [[|[s| |] rest] vals r]; cbn; try discriminate.
  destruct (pystr_eqb s p) eqn:Es; [|discriminate].
  apply pystr_eqb_spec in Es. subst. intros H. inv H. eauto.
Qed.

Lemma advance_dynamic_spec (p : pystr) (c c' : cand) :
  advance_dynamic is_digit p c = Some c' ->
  exists seg rest, c_rest c = seg :: rest /\ seg_test is_digit seg p = true
                   /\ c' = mk_cand rest (c_vals c ++ [p]) (c_rule c).
Proof.
  destruct c as [[|seg rest] vals r]; cbn; [discriminate|].
  destruct (seg_test is_digit seg p) eqn:Et; [|discriminate]. intros H. inv H. eauto.
Qed.

(** One step of [path_match]: through a static word or a converter. *)
Lemma path_match_cons (seg : segment) (rest : list segment) (p : pystr) (ps : list pystr) :
  path_match (seg :: rest) (p :: ps)
  = match seg with
    | SStatic s => if pystr_eqb s p then path_match rest ps else None
    | _ => if seg_test is_digit seg p then option_map (cons p) (path_match rest ps) else None
    end.
Proof. destruct seg; reflexivity. Qed.

Lemma final_sound (m : http_method) (cs : list cand) (r : rule E) (vs : list pystr) :
  fst (final m cs) = Some (r, vs) ->
  exists c, In c cs /\ c_rest c = [] /\ c_rule c = r /\ c_vals c = vs
            /\ allows (r_methods r) m = true.
Proof.
  induction cs as [|c cs IH]; cbn; [discriminate|].
  destruct (c_rest c) eqn:Er.
  - destruct (allows (r_methods (c_rule c)) m) eqn:Ea.
    + intros H. inv H. exists c. auto.
    + destruct (final m cs) as [r' h] eqn:Ef. cbn. intros H.
      destruct IH as (c' & ? & ?); [rewrite ?Ef; exact H|]. exists c'. tauto.
  - intros H. destruct (IH H) as (c' & ? & ?). exists c'. tauto.
Qed.

Lemma final_complete (m : http_method) (cs : list cand) (c : cand) :
  In c cs -> c_rest c = [] -> allows (r_methods (c_rule c)) m = true -> fst (final m cs) <> None.
Proof.
  induction cs as [|c0 cs IH]; cbn; [tauto|]. intros [<-|Hin] Hr Ha.
  - rewrite Hr, Ha. cbn. congruence.
  - destruct (c_rest c0); [|auto].
    destruct (allows (r_methods (c_rule c0)) m); [cbn; congruence|].
    specialize (IH Hin Hr Ha). destruct (final m cs) as [r' h]. exact IH.
Qed.

Lemma final_none_methods (m : http_method) (cs : list cand) :
  fst (final m cs) = None ->
  forall x, In x (snd (final m cs)) <-> exists c, In c cs /\ c_rest c = [] /\ In x (r_methods (c_rule c)).
Proof.
  induction cs as [|c cs IH]; cbn; intros Hn x.
  - split; [tauto|]. intros (? & [] & _).
  - destruct (c_rest c) eqn:Er.
    + destruct (allows (r_methods (c_rule c)) m); [discriminate|].
      destruct (final m cs) as [r' h] eqn:Ef. cbn in *. subst r'.
      rewrite in_app_iff, (IH eq_refl x). split.
      * intros [Hx|(c' & ? & ? & ?)]; [exists c|exists c']; auto.
      * intros (c' & [<-|Hin] & Hr & Hx); [left; exact Hx | right; eauto].
    + rewrite (IH Hn x). split; intros (c' & Hin & Hr & Hx).
      * eauto.
      * destruct Hin as [<-|Hin]; [congruence | eauto].
Qed.

Lemma pystr_eqb_refl (s : pystr) : pystr_eqb s s = true.
Proof. apply pystr_eqb_spec. reflexivity. Qed.

Lemma path_match_nil_r (segs : list segment) :
  path_match segs [] <> None -> segs = [].
Proof. destruct segs as [|[] ?]; cbn; congruence. Qed.

Lemma sm_match_sound (m : http_method) (parts : list pystr) : forall (cs : list cand) r vs,
  fst (sm_match is_digit m parts cs) = Some (r, vs) ->
  exists c vs', In c cs /\ c_rule c = r /\ path_match (c_rest c) parts = Some vs'
                /\ vs = c_vals c ++ vs' /\ allows (r_methods r) m = true.
Proof.
  induction parts as [|p ps IH]; intros cs r vs H; cbn [sm_match] in H.
  - destruct (final_sound m cs r vs H) as (c & Hin & Hr & Hc & Hv & Ha).
    exists c, []. rewrite Hr, app_nil_r. auto.
  - destruct (sm_match is_digit m ps (advance_all (advance_static p) cs)) as [r1 h1] eqn:E1.
    destruct r1 as [rv|].
    + cbn in H. injection H as H. subst rv.
      destruct (IH _ r vs ltac:(rewrite E1; reflexivity)) as (c' & vs' & Hin & Hr & Hp & Hv & Ha).
      apply in_advance_all in Hin as (c & Hc & Hadv).
      apply advance_static_spec in Hadv as (rest & Hrest & ->).
      exists c, vs'. cbn in *. rewrite Hrest, path_match_cons, pystr_eqb_refl. auto.
    + destruct (sm_match is_digit m ps (advance_all (advance_dynamic is_digit p) cs)) as [r2 h2] eqn:E2.
      cbn in H. subst r2.
      destruct (IH _ r vs ltac:(rewrite E2; reflexivity)) as (c' & vs' & Hin & Hr & Hp & Hv & Ha).
      apply in_advance_all in Hin as (c & Hc & Hadv).
      apply advance_dynamic_spec in Hadv as (seg & rest & Hrest & Ht & ->).
      exists c, (p :: vs'). cbn in *. rewrite Hrest, path_match_cons, <- app_assoc in *.
      destruct seg; [discriminate| |]; rewrite Ht, Hp; auto.
Qed.

Lemma sm_match_complete (m : http_method) (parts : list pystr) : forall (cs : list cand) c vs',
  In c cs -> path_match (c_rest c) parts = Some vs' -> allows (r_methods (c_rule c)) m = true ->
  fst (sm_match is_digit m parts cs) <> None.
Proof.
  induction parts as [|p ps IH]; intros cs c vs' Hin Hp Ha; cbn [sm_match].
  - apply (final_complete m cs c Hin); [|exact Ha].
    apply path_match_nil_r. congruence.
  - destruct (c_rest c) as [|seg rest] eqn:Hr; [discriminate|].
    rewrite path_match_cons in Hp.
    destruct (sm_match is_digit m ps (advance_all (advance_static p) cs)) as [r1 h1] eqn:E1.
    destruct r1 as [rv|]; [cbn; congruence|].
    destruct (sm_match is_digit m ps (advance_all (advance_dynamic is_digit p) cs)) as [r2 h2] eqn:E2.
    cbn. destruct seg as [s| |].
    1: { destruct (pystr_eqb s p) eqn:Es; [|discriminate]. apply pystr_eqb_spec in Es. subst s.
      exfalso. apply (IH (advance_all (advance_static p) cs) (mk_cand rest (c_vals c) (c_rule c)) vs');
        [| exact Hp | exact Ha | rewrite E1; reflexivity].
      apply in_advance_all. exists c. split; [exact Hin|].
      unfold advance_static. rewrite Hr, pystr_eqb_refl. reflexivity. }
    all: destruct (seg_test is_digit _ p) eqn:Et; [|discriminate].
      all: destruct (path_match rest ps) as [vs''|] eqn:Hp'; [|discriminate].
      all: specialize (IH (advance_all (advance_dynamic is_digit p) cs)
                          (mk_cand rest (c_vals c ++ [p]) (c_rule c)) vs''); rewrite E2 in IH;
        apply IH; [|exact Hp'|exact Ha].
      all: apply in_advance_all; exists c; split; [exact Hin|].
      all: unfold advance_dynamic; rewrite Hr, Et; reflexivity.
Qed.

(** When no rule is found, the methods remembered are those of every rule
    that matches the rest of the path. *)
Lemma sm_match_none_methods (m : http_method) (parts : list pystr) : forall (cs : list cand),
  fst (sm_match is_digit m parts cs) = None ->
  forall x, In x (snd (sm_match is_digit m parts cs))
            <-> exists c, In c cs /\ path_match (c_rest c) parts <> None /\ In x (r_methods (c_rule c)).
Proof.
  induction parts as [|p ps IH]; intros cs Hn x; cbn [sm_match] in *.
  - rewrite (final_none_methods m cs Hn x).
    split; intros (c & Hin & Hr & Hx); exists c; repeat split; auto.
    + rewrite Hr. discriminate.
    + apply path_match_nil_r. exact Hr.
  - destruct (sm_match is_digit m ps (advance_all (advance_static p) cs)) as [r1 h1] eqn:E1.
    destruct r1 as [rv|]; [discriminate|].
    destruct (sm_match is_digit m ps (advance_all (advance_dynamic is_digit p) cs)) as [r2 h2] eqn:E2.
    cbn in Hn |- *. subst r2. rewrite in_app_iff.
    pose proof (IH _ ltac:(rewrite E1; reflexivity) x) as I1. rewrite E1 in I1. cbn in I1.
    pose proof (IH _ ltac:(rewrite E2; reflexivity) x) as I2. rewrite E2 in I2. cbn in I2.
    rewrite I1, I2. split.
    + intros [(c' & Hin & Hp & Hx)|(c' & Hin & Hp & Hx)]; apply in_advance_all in Hin as (c & Hc & Hadv).
      * apply advance_static_spec in Hadv as (rest & Hrest & ->). exists c. cbn in *.
        rewrite Hrest, path_match_cons, pystr_eqb_refl. auto.
      * apply advance_dynamic_spec in Hadv as (seg & rest & Hrest & Ht & ->). exists c. cbn in *.
        rewrite Hrest, path_match_cons. split; [exact Hc|split; [|exact Hx]].
        destruct seg; [discriminate| |]; rewrite Ht; destruct (path_match rest ps); cbn; congruence.
    + intros (c & Hin & Hp & Hx). destruct (c_rest c) as [|seg rest] eqn:Hr; [cbn in Hp; congruence|].
      rewrite path_match_cons in Hp. destruct seg as [s| |].
      1: { left. destruct (pystr_eqb s p) eqn:Es; [|congruence]. apply pystr_eqb_spec in Es. subst s.
           exists (mk_cand rest (c_vals c) (c_rule c)). split; [|auto].
           apply in_advance_all. exists c. split; [exact Hin|].
           unfold advance_static. rewrite Hr, pystr_eqb_refl. reflexivity. }
      all: right; destruct (seg_test is_digit _ p) eqn:Et; [|congruence].
      all: exists (mk_cand rest (c_vals c ++ [p]) (c_rule c)); cbn.
      all: split; [|split; [destruct (path_match rest ps); cbn in *; congruence | exact Hx]].
      all: apply in_advance_all; exists c; split; [exact Hin|].
      all: unfold advance_dynamic; rewrite Hr, Et; reflexivity.
Qed.

Lemma in_init_cands (rules : list (rule E)) (c : cand) :
  In c (map (fun r => mk_cand (r_segments r) [] r) rules)
  <-> exists r, In r rules /\ c = mk_cand (r_segments r) [] r.
Proof. rewrite in_map_iff. split; intros (r & ? & ?); eauto. Qed.

(** The rule found matches the path and allows the method. *)
Lemma match_path_found (rules : list (rule E)) (m : http_method) (parts : list pystr) r vs :
  match_path is_digit rules m parts = Found r vs ->
  In r rules /\ path_match (r_segments r) parts = Some vs /\ allows (r_methods r) m = true.
Proof.
  unfold match_path.
  destruct (sm_match is_digit m parts _) as [[[r' vs']|] h] eqn:Em;
    [|destruct h; discriminate].
  intros H. inv H.
  destruct (sm_match_sound m parts _ r vs ltac:(rewrite Em; reflexivity))
    as (c & vs' & Hin & Hr & Hp & Hv & Ha).
  apply in_init_cands in Hin as (r' & Hr' & ->). cbn in *. subst. auto.
Qed.

(** A rule that matches and allows the method is never missed. *)
Lemma match_path_complete (rules : list (rule E)) (m : http_method) (parts : list pystr) r :
  In r rules -> path_match (r_segments r) parts <> None -> allows (r_methods r) m = true ->
  exists r' vs', match_path is_digit rules m parts = Found r' vs'.
Proof.
  intros Hin Hp Ha. destruct (path_match (r_segments r) parts) as [vs|] eqn:Epm; [|congruence].
  pose proof (sm_match_complete m parts (map (fun r => mk_cand (r_segments r) [] r) rules)
                (mk_cand (r_segments r) [] r) vs (in_map (fun r => mk_cand (r_segments r) [] r) rules r Hin) Epm Ha) as Hc.
  unfold match_path. destruct (sm_match is_digit m parts _) as [[[r' vs']|] h]; [eauto|].
  cbn in Hc. congruence.
Qed.

(** A 405 lists the methods of the rules that match the path, and none
    of them allows the request's. *)
Lemma match_path_405 (rules : list (rule E)) (m : http_method) (parts : list pystr) h :
  match_path is_digit rules m parts = MethodNotAllowed h ->
  (forall x, In x h <-> exists r, In r rules /\ path_match (r_segments r) parts <> None
                                  /\ In x (r_methods r))
  /\ (forall r, In r rules -> path_match (r_segments r) parts <> None -> allows (r_methods r) m = false).
Proof.
  intros H. split.
  - unfold match_path in H.
    destruct (sm_match is_digit m parts _) as [[[r' vs']|] h'] eqn:Em; [discriminate|].
    destruct h' as [|x0 h']; inv H. intros x.
    pose proof (sm_match_none_methods m parts _ ltac:(rewrite Em; reflexivity) x) as I.
    rewrite Em in I. cbn in I. rewrite I. split.
    + intros (c & Hin & Hp & Hx). apply in_init_cands in Hin as (r & Hr & ->). eauto.
    + intros (r & Hr & Hp & Hx). exists (mk_cand (r_segments r) [] r). split; [exact (in_map (fun r => mk_cand (r_segments r) [] r) rules r Hr)|auto].
  - intros r Hr Hp. destruct (allows (r_methods r) m) eqn:Ha; [|reflexivity].
    destruct (match_path_complete rules m parts r Hr Hp Ha) as (r' & vs' & Ef). congruence.
Qed.

(** A 404: no rule with a method matches the path. *)
Lemma match_path_404 (rules : list (rule E)) (m : http_method) (parts : list pystr) :
  match_path is_digit rules m parts = NoMatch ->
  forall r, In r rules -> path_match (r_segments r) parts <> None -> r_methods r = [].
Proof.
  unfold match_path. intros H r Hr Hp.
  destruct (sm_match is_digit m parts _) as [[[r' vs']|] h] eqn:Em; [discriminate|].
  destruct h as [|x h]; [|discriminate].
  destruct (r_methods r) as [|x ms] eqn:Hm; [reflexivity|exfalso].
  pose proof (sm_match_none_methods m parts _ ltac:(rewrite Em; reflexivity) x) as I.
  rewrite Em in I. cbn in I. apply (proj2 I).
  exists (mk_cand (r_segments r) [] r). split; [exact (in_map (fun r => mk_cand (r_segments r) [] r) rules r Hr)|]. cbn. rewrite Hm. auto with datatypes.
Qed.

(** Werkzeug's state machine refines the declarative matching of the
    rules: the rule it finds matches the path and allows the method; it
    finds one exactly when some rule matches the path and allows the
    method; and a 405 lists the methods of exactly the rules that match
    the path. *)
Theorem match_path_spec (rules : list (rule E)) (m : http_method) (parts : list pystr) :
  (forall r vs, match_path is_digit rules m parts = Found r vs ->
     In r rules /\ path_match (r_segments r) parts = Some vs /\ allows (r_methods r) m = true)
  /\ ((exists r vs, match_path is_digit rules m parts = Found r vs)
      <-> exists r, In r rules /\ path_match (r_segments r) parts <> None /\ allows (r_methods r) m = true)
  /\ (forall h, match_path is_digit rules m parts = MethodNotAllowed h ->
      forall x, In x h <-> exists r, In r rules /\ path_match (r_segments r) parts <> None
                                     /\ In x (r_methods r)).
Proof.
  split; [exact (match_path_found rules m parts)|]. split.
  - split.
    + intros (r & vs & Ef). destruct (match_path_found _ _ _ _ _ Ef) as (Hin & Hp & Ha).
      exists r. rewrite Hp. split; [exact Hin|]. split; [discriminate | exact Ha].
    + intros (r & Hin & Hp & Ha). exact (match_path_complete rules m parts r Hin Hp Ha).
  - intros h Ef. exact (proj1 (match_path_405 rules m parts h Ef)).
Qed.

End MatcherProofs.
