(* ===== verification/App.v ===== *)
(** The application as a whole: [create_app] of [src/apps/__init__.py]
    with the blueprint of [src/apps/home/routes.py], answering one HTTP
    request.

    [app_handle] follows Flask 2.2's [wsgi_app] for one request:
    - the URL is matched against the blueprint's rules ([blueprint_rules],
      one per [@blueprint.route], matched by [Routing.match_path]); the
      values of [<int:...>] are converted with [int()] after the match,
      and a [ValueError] there escapes before any blueprint is known, so
      it is Flask's bare 500;
    - a path no rule matches is the application's 404 handler
      ([page_not_found]); a path whose rules refuse the method is 405;
    - [CSRFProtect(app)]'s [before_request] refuses a POST or DELETE
      whose token (form field [csrf_token] or header [X-CSRFToken]) does
      not validate, with 400; GET is not checked;
    - the view runs ([view]), behind its decorators ([login_required],
      [admin_required], [user_logged_in]); an exception it raises goes
      through [Checkout.flask_dispatch].

    The forms are read as wtforms reads them: a [StringField] absent from
    the form has [data = None]; [DataRequired] wants a value that is not
    only whitespace; a [BooleanField] is false when absent, ["false"] or
    empty.  [FlaskForm.validate] also checks its [csrf_token] field, which
    [CSRFProtect] has already validated for the request ([g.csrf_valid]).

    The per-request inputs the code reads from the outside world (clock,
    [os.urandom]) are the record [env]. *)

From Stdlib Require Import Bool ZArith List Lia.
From Stdlib Require String.
Import String.StringSyntax.
From S2P Require Import Prelude Bytes Models Web HashLib Policy Accounts Fernet OrderCodec Checkout Routing.
Import ListNotations.
Open Scope Z_scope.
Local Open Scope string_scope.
Local Open Scope list_scope.

(** ** The blueprint's endpoints and rules *)

Inductive endpoint :=
| Index | RouteDefault | SupportRoute | EditProfileRoute | PriceMonitoringTasksRoute
| AccountMonitoringTasksRoute | Login | Register | DeleteUser | GetUsers | Logout
| ContactUs | GetCsrfToken | Templates | AdminHome | MakeAdmin | RemoveAdmin
| CreateCheckoutSession | Success | Cancel | GetOrders.

Definition endpoint_eq_dec (a b : endpoint) : {a = b} + {a <> b}.
Proof. decide equality. Defined.

Definition sw (s : String.string) : segment := SStatic (pys s).

(** [@blueprint.route(...)] in the order of [routes.py]; a route without
    [methods] is GET. *)
Definition blueprint_rules : list (rule endpoint) := [
  mk_rule [sw "index"] [GET] Index;
  mk_rule [sw ""] [GET] RouteDefault;
  mk_rule [sw "support"] [GET] SupportRoute;
  mk_rule [sw "edit_profile"] [GET] EditProfileRoute;
  mk_rule [sw "price_monitoring"] [GET] PriceMonitoringTasksRoute;
  mk_rule [sw "account_monitoring"] [GET] AccountMonitoringTasksRoute;
  mk_rule [sw "login"] [GET; POST] Login;
  mk_rule [sw "register"] [GET; POST] Register;
  mk_rule [sw "user"; SInt] [DELETE] DeleteUser;
  mk_rule [sw "all-user"] [GET] GetUsers;
  mk_rule [sw "logout"] [GET] Logout;
  mk_rule [sw "contact"] [GET; POST] ContactUs;
  mk_rule [sw "get_csrf_token"] [GET] GetCsrfToken;
  mk_rule [SString] [GET] Templates;
  mk_rule [sw "admin-home"] [GET] AdminHome;
  mk_rule [sw "admin"; sw "user"; SInt; sw "make_admin"] [POST] MakeAdmin;
  mk_rule [sw "admin"; sw "user"; SInt; sw "remove_admin"] [POST] RemoveAdmin;
  mk_rule [sw "create-checkout-session"] [POST] CreateCheckoutSession;
  mk_rule [sw "success"; SString] [GET] Success;
  mk_rule [sw "cancel"] [GET] Cancel;
  mk_rule [sw "orders"] [GET] GetOrders
].

(** ** The request *)

Record http_request := mk_http_request {
  hr_method : http_method;
  hr_path : list pystr;             (** [request.path] after its first ["/"], split at ["/"] *)
  hr_form : multidict;              (** [request.form] *)
  hr_args : multidict;              (** [request.args] *)
  hr_json : option checkout_json;   (** [request.get_json()]; [None]: the body is not JSON *)
  hr_url_root : pystr;              (** [request.url_root] *)
  hr_csrf_valid : bool              (** [validate_csrf] of the form field or the header *)
}.

(** What the handlers of [Web] read: the method and [request.form.get("username")]. *)
Definition web_request (hr : http_request) : request :=
  mk_request (hr_method hr) (multidict_get (pys "username") (hr_form hr)).

Definition form_get (hr : http_request) (k : String.string) : option pystr :=
  multidict_get (pys k) (hr_form hr).

(** The outside world a request reads: [datetime.utcnow()], [time.time()]
    and [os.urandom]. *)
Record env := mk_env {
  e_order_date : Z;
  e_now : Z;
  e_urandom60 : bytes;
  e_iv : bytes
}.

(** A view's arguments after conversion. *)
Inductive view_arg := AStr (s : pystr) | AInt (n : Z).

(** The database and session when the application starts:
    [db.create_all()] of [before_first_request] on an empty database. *)
Definition init_world : world := mk_world empty_db None.

(** [initialize_database()] of [configure_database]: [db.create_all()] on
    the configured database; when it raises, the message is printed, the
    URI is switched to the SQLite file and [db.create_all()] runs again,
    whose error is not caught. *)
Definition initialize_database (create_all_configured create_all_sqlite : result unit) : result unit :=
  match create_all_configured with
  | Ok _ => Ok tt
  | Err _ => create_all_sqlite
  end.

(** [User.get_id()]: [str(self.id)], what [login_user] stores in the session. *)
Definition get_id (id : Z) : result pystr := py_str_int id.

Section App.
Context `{HL : HashLib} `{UC : UnicodeCategories} `{FC : FernetCrypto} `{UN : UnicodeNumeric}.
Variable cipher_suite : fernet.
Variable stripe_create : list line_item -> pystr -> pystr -> result (String.string * String.string).
(** The files of [templates/], which are not under [src/]. *)
Variable template_exists : pystr -> bool.
(** [wtforms.validators.Email()] *)
Variable email_valid : pystr -> bool.

(** [\d]: a character with a decimal value. *)
Definition is_decimal (c : Z) : bool := 0 <=? unicode_todecimal c.

(** The converters' [to_python], in the order of the rule's converters:
    [int(value)] for [<int:...>], the text for [<...>]. *)
Fixpoint convert_values (segs : list segment) (vals : list pystr) : result (list view_arg) :=
  match segs with
  | [] => Ok []
  | SStatic _ :: segs' => convert_values segs' vals
  | SString :: segs' =>
      match vals with
      | v :: vs => a <- convert_values segs' vs ;; Ok (AStr v :: a)
      | [] => Ok []
      end
  | SInt :: segs' =>
      match vals with
      | v :: vs => n <- py_int_of_str v ;; a <- convert_values segs' vs ;; Ok (AInt n :: a)
      | [] => Ok []
      end
  end.

(** ** Forms *)

(** A string field's [data] where the code uses it as a string. *)
Definition str_data (data : option pystr) : pystr :=
  match data with Some s => s | None => [] end.

(** [DataRequired()]: [field.data and field.data.strip()]. *)
Definition data_required (data : option pystr) : bool :=
  match data with
  | Some s => negb (forallb unicode_isspace s)
  | None => false
  end.

(** [BooleanField]: [False] when absent or in [false_values = (False, "false", "")]. *)
Definition boolean_field (data : option pystr) : bool :=
  match data with
  | None => false
  | Some v => negb (pystr_eqb v (pys "false") || pystr_eqb v [])
  end.

(** [form.is_submitted()]: the method is in [SUBMIT_METHODS]. *)
Definition is_submitted (m : http_method) : bool :=
  match m with GET => false | _ => true end.

(** [LoginForm(request.form).validate_on_submit()] *)
Definition login_form_valid (hr : http_request) : bool :=
  is_submitted (hr_method hr) && data_required (form_get hr "username")
  && data_required (form_get hr "password").

(** [SearchForm(request.form).validate_on_submit()]; [index] builds the
    form for its template and never validates it. *)
Definition search_form_valid (hr : http_request) : bool :=
  is_submitted (hr_method hr) && data_required (form_get hr "search_query").

(** [CreateAccountForm(request.form).validate_on_submit()] *)
Definition create_account_form_valid (hr : http_request) : bool :=
  is_submitted (hr_method hr)
  && data_required (form_get hr "first_name") && data_required (form_get hr "last_name")
  && data_required (form_get hr "username")
  && data_required (form_get hr "email") && email_valid (str_data (form_get hr "email"))
  && data_required (form_get hr "confirm_email")
  && email_valid (str_data (form_get hr "confirm_email"))
  && data_required (form_get hr "password") && data_required (form_get hr "confirm_password").

(** Python's [==] on two fields' [data], [None] included. *)
Definition data_eqb (a b : option pystr) : bool :=
  match a, b with
  | Some x, Some y => pystr_eqb x y
  | None, None => true
  | _, _ => false
  end.

(** The fields of [CreateAccountForm] as [register] reads them, once the
    two comparisons of [register] have passed. *)
Definition register_form_of (hr : http_request) : register_form :=
  mk_register_form (str_data (form_get hr "first_name")) (str_data (form_get hr "last_name"))
    (str_data (form_get hr "username")) (str_data (form_get hr "email"))
    (str_data (form_get hr "confirm_email")) (str_data (form_get hr "password"))
    (str_data (form_get hr "confirm_password")) (boolean_field (form_get hr "term_agreement")).

(** [register()] on the request's form: the two comparisons are of
    [data], [None] for an absent field, and [is_valid_password(None)]
    raises [TypeError] at [len(password)]; past them the fields are
    strings and [Accounts.register] runs. *)
Definition route_register (e : env) (hr : http_request) : handler :=
  fun w =>
    match hr_method hr with
    | POST =>
        if negb (data_eqb (form_get hr "password") (form_get hr "confirm_password"))
        then Ok (register_page (Some msg_pw_mismatch), w)
        else if negb (data_eqb (form_get hr "email") (form_get hr "confirm_email"))
        then Ok (register_page (Some msg_email_mismatch), w)
        else match form_get hr "password" with
             | None => Err TypeError
             | Some _ => register POST (register_form_of hr) (create_account_form_valid hr)
                           (e_urandom60 e) w
             end
    | m => register m (register_form_of hr) (create_account_form_valid hr) (e_urandom60 e) w
    end.

(** ** Views *)

(** [login_required]: the [unauthorized_handler] answers 403. *)
Definition login_required (cu : option (Z * user_row)) (func : handler) : handler :=
  fun w =>
    if negb (is_authenticated cu) then Ok (Page "home/page-403.html" None 403, w)
    else func w.

Definition render (template : String.string) : handler :=
  fun w => Ok (Page template None 200, w).

(** [contact_us()]: [request.form["Name"]] and the two other fields raise
    [BadRequestKeyError] when absent; then [CompanyChoice], which
    [routes.py] never imports, raises [NameError]. *)
Definition contact_us (hr : http_request) : handler :=
  fun w =>
    match hr_method hr with
    | POST =>
        match form_get hr "Name", form_get hr "Email", form_get hr "Message..." with
        | Some _, Some _, Some _ => Err (NameError "CompanyChoice")
        | _, _, _ => Err BadRequestKeyError
        end
    | _ => render "home/contact.html" w
    end.

(** [templates(template_name)]: [render_template(f"home/{template_name}.html")]. *)
Definition templates (template_name : pystr) : handler :=
  fun w =>
    let path := pys "home/" ++ template_name ++ pys ".html" in
    if template_exists path then Ok (TemplatePage path, w) else Err TemplateNotFound.

(** [admin_home()] behind [@admin_required] *)
Definition admin_home (cu : option (Z * user_row)) : handler :=
  admin_required cu (render "home/admin-home.html").

(** [cancel()] *)
Definition cancel : handler := render "home/payment-cancel.html".

(** The view of an endpoint with its converted arguments; a view called
    with arguments its signature does not take raises [TypeError]. *)
Definition view (ep : endpoint) (args : list view_arg) (e : env) (hr : http_request) : handler :=
  fun w =>
    let rq := web_request hr in
    let cu := current_user w rq in
    match ep, args with
    | Index, [] => login_required cu (render "home/index.html") w
    | RouteDefault, [] => Ok (Redirect "home_blueprint.price_monitoring_tasks_route", w)
    | SupportRoute, [] =>
        login_required cu (fun w => Ok (Redirect "home_blueprint.price_monitoring_tasks_route", w)) w
    | EditProfileRoute, [] => login_required cu (render "home/edit_profile.html") w
    | PriceMonitoringTasksRoute, [] => login_required cu (render "home/pricing.html") w
    | AccountMonitoringTasksRoute, [] => login_required cu (render "home/pricing.html") w
    | Login, [] =>
        login (login_form_valid hr) (str_data (form_get hr "username"))
          (str_data (form_get hr "password")) (boolean_field (form_get hr "remember_me")) w
    | Register, [] => route_register e hr w
    | DeleteUser, [AInt user_id] => route_delete_user rq user_id w
    | GetUsers, [] => route_get_users rq w
    | Logout, [] => logout w
    | ContactUs, [] => contact_us hr w
    | GetCsrfToken, [] => Ok (JsonCsrfToken 200, w)
    | Templates, [AStr name] => templates name w
    | AdminHome, [] => admin_home cu w
    | MakeAdmin, [AInt user_id] => route_make_admin rq user_id w
    | RemoveAdmin, [AInt user_id] => route_remove_admin rq user_id w
    | CreateCheckoutSession, [] =>
        create_checkout_session cipher_suite stripe_create (hr_json hr) (e_order_date e) (e_now e)
          (e_iv e) (hr_url_root hr) w
    | Success, [AStr encrypted_order_id] =>
        success cipher_suite (multidict_get (pys "appreciate") (hr_args hr)) encrypted_order_id w
    | Cancel, [] => cancel w
    | GetOrders, [] => get_orders cu w
    | _, _ => Err TypeError
    end.

(** [WTF_CSRF_METHODS] *)
Definition csrf_method (m : http_method) : bool :=
  match m with GET => false | _ => true end.

(** [Flask.wsgi_app] for one request. *)
Definition app_handle (e : env) (hr : http_request) (w : world) : response * world :=
  match match_path is_decimal blueprint_rules (hr_method hr) (hr_path hr) with
  | NoMatch => (handle_http_exception false 404, w)
  | MethodNotAllowed _ => (handle_http_exception false 405, w)
  | Found r vals =>
      match convert_values (r_segments r) vals with
      | Err _ => (handle_http_exception false 500, w)
      | Ok args =>
          if csrf_method (hr_method hr) && negb (hr_csrf_valid hr)
          then (handle_http_exception true 400, w)
          else flask_dispatch (view (r_endpoint r) args e hr) w
      end
  end.

End App.

(** ** [create_app(config)] of [src/apps/__init__.py] *)

(** [initialize_mail(app)]: the Flask-Mail settings written into [app.config]. *)
Record mail_config := mk_mail_config {
  mail_server : String.string;
  mail_port : Z;
  mail_use_tls : bool;
  mail_username : option pystr;
  mail_password : option pystr
}.

Definition initialize_mail (getenv : String.string -> option pystr) : mail_config :=
  mk_mail_config "smtp.googlemail.com" 587 true (getenv "MAIL_USERNAME") (getenv "MAIL_PASSWORD").

(** [import_module(f"apps.{module_name}.routes").blueprint]: the rules of
    the blueprint a module registers. *)
Definition module_blueprint (module_name : String.string) : list (rule endpoint) :=
  if String.eqb module_name "home" then blueprint_rules else [].

(** [register_blueprints(app)]: the URL map, the blueprints' rules in order. *)
Definition register_blueprints : list (rule endpoint) := flat_map module_blueprint ["home"].

(** [inject_categories()]: the variables the context processor adds to
    every template; [User.query.all()] in rowid order. *)
Record template_context := mk_template_context {
  ctx_current_user : option (Z * user_row);
  ctx_users : table user_row
}.

Definition inject_categories (w : world) (rq : request) : template_context :=
  mk_template_context (current_user w rq) (users (w_db w)).

(** The application [create_app] returns: its mail settings, URL map, the
    methods [CSRFProtect(app)] checks, its error handler and its
    [before_first_request] hook.  [register_extensions] binds [db] and
    [login_manager] to it, which the model's [world] (database and
    session) stands for. *)
Record flask_app := mk_flask_app {
  app_mail : mail_config;
  app_url_map : list (rule endpoint);
  app_csrf_methods : http_method -> bool;
  app_error_handlers : Z -> option response;
  app_before_first_request : result unit -> result unit -> result unit;
  app_context_processor : world -> request -> template_context
}.

Definition create_app (getenv : String.string -> option pystr) : flask_app :=
  mk_flask_app (initialize_mail getenv) register_blueprints csrf_method app_error_handler
    initialize_database inject_categories.

(** The single-word paths of the rule table, which shadow [/<template_name>]. *)
Definition static_words : list pystr :=
  flat_map (fun r => match r_segments r with [SStatic s] => [s] | _ => [] end) blueprint_rules.

(** A handler that leaves the database as it is (the session may change). *)
Definition db_preserving (h : handler) : Prop :=
  forall w r w', h w = Ok (r, w') -> w_db w' = w_db w.

(** ** Theorems *)

Section Paths.
Context `{UN : UnicodeNumeric}.

(** The rule a GET to [/success/<t>] finds, and nothing else, is the
    one with endpoint [success]. *)
Lemma success_rule_path (r : rule endpoint) (parts : list pystr) (vals : list pystr) :
  In r blueprint_rules -> r_endpoint r = Success -> path_match is_decimal (r_segments r) parts = Some vals ->
  exists t, parts = [pys "success"; t].
Proof.
  intros Hin Hs Hp. cbn [blueprint_rules In] in Hin.
  repeat destruct Hin as [<-|Hin]; [..|contradiction]; try discriminate Hs.
  cbn [r_segments] in Hp. unfold sw in Hp.
  destruct parts as [|p [|t [|x rest]]]; try discriminate Hp;
    rewrite path_match_cons in Hp; destruct (pystr_eqb (pys "success") p) eqn:Es; try discriminate Hp;
    apply pystr_eqb_spec in Es; subst p; eauto.
  cbn in Hp. destruct (negb _); discriminate Hp.
Qed.

(** A one-part path that is no static word is taken by the catch-all
    [/<template_name>] and only by it. *)
Lemma match_catch_all (m : http_method) (name : pystr) :
  name <> [] -> existsb (pystr_eqb name) static_words = false -> m = GET ->
  match_path is_decimal blueprint_rules m [name] = Found (mk_rule [SString] [GET] Templates) [name].
Proof.
  intros Hne Hnot Hm. subst m.
  assert (Ht : path_match is_decimal [SString] [name] = Some [name]).
  { cbn. destruct name; [congruence|reflexivity]. }
  destruct (match_path_complete is_decimal blueprint_rules GET [name] (mk_rule [SString] [GET] Templates))
    as (r & vals & Em); [cbn; tauto | cbn [r_segments]; rewrite Ht; discriminate | reflexivity |].
  rewrite Em. destruct (match_path_found _ _ _ _ _ _ Em) as (Hin & Hp & _).
  cbn [blueprint_rules In] in Hin.
  repeat destruct Hin as [<-|Hin]; [..|contradiction]; cbn [r_segments] in Hp; unfold sw in Hp;
    rewrite path_match_cons in Hp;
    try (destruct (pystr_eqb _ name) eqn:Es; [apply pystr_eqb_spec in Es; subst name;
           first [ discriminate Hp | (cbn in Hp; discriminate Hp) | (vm_compute in Hnot; discriminate Hnot)]
         | discriminate Hp]).
  cbn in Hp. destruct name; [congruence|]. cbn in Hp. inv Hp. reflexivity.
Qed.

(** A GET to [/success/<t>] finds the rule of [success], with [t]. *)
Lemma match_success_path (t : pystr) :
  t <> [] ->
  match_path is_decimal blueprint_rules GET [pys "success"; t]
  = Found (mk_rule [sw "success"; SString] [GET] Success) [t].
Proof.
  intros Hne.
  assert (Ht : path_match is_decimal [sw "success"; SString] [pys "success"; t] = Some [t]).
  { unfold sw. rewrite path_match_cons, pystr_eqb_refl. cbn. destruct t; [congruence|reflexivity]. }
  destruct (match_path_complete is_decimal blueprint_rules GET [pys "success"; t]
              (mk_rule [sw "success"; SString] [GET] Success))
    as (r & vals & Em); [cbn; tauto | cbn [r_segments]; rewrite Ht; discriminate | reflexivity |].
  rewrite Em. destruct (match_path_found _ _ _ _ _ _ Em) as (Hin & Hp & _).
  cbn [blueprint_rules In] in Hin.
  repeat destruct Hin as [<-|Hin]; [..|contradiction]; cbn in Hp; try discriminate Hp.
  destruct t; [congruence|]. cbn in Hp. inv Hp. reflexivity.
Qed.
(** ASCII digits are [\d]. *)
Lemma is_decimal_dec_digit (c : Z) : is_dec_digit c = true -> is_decimal c = true.
Proof.
  unfold is_dec_digit, is_decimal. intros H. apply andb_true_iff in H as [H1 H2].
  apply Z.leb_le in H1. apply Z.leb_le in H2.
  rewrite unicode_todecimal_ascii by lia.
  rewrite (proj2 (Z.leb_le 48 c) H1), (proj2 (Z.leb_le c 57) H2). cbn [andb]. apply Z.leb_le. lia.
Qed.

(** [str()] of a non-negative id is a part the [<int:...>] converter takes. *)
Lemma py_str_int_decimal (n : Z) (ds : pystr) :
  0 <= n -> py_str_int n = Ok ds -> ds <> [] /\ forallb is_decimal ds = true.
Proof.
  intros Hn H. destruct (py_str_int_digits n) as (Hne & D & _). unfold py_str_int in H.
  destruct (_ <? _)%nat; [discriminate|]. destruct (Z.ltb_spec n 0); [lia|].
  apply Ok_inj in H. subst ds. split; [exact Hne|].
  apply forallb_forall. intros c Hc. apply is_decimal_dec_digit.
  rewrite Forall_forall in D. exact (D c Hc).
Qed.

(** A POST to [/admin/user/<digits>/make_admin] finds the rule of
    [make_admin], with the digits. *)
Lemma match_make_admin_path (ds : pystr) :
  ds <> [] -> forallb is_decimal ds = true ->
  match_path is_decimal blueprint_rules POST [pys "admin"; pys "user"; ds; pys "make_admin"]
  = Found (mk_rule [sw "admin"; sw "user"; SInt; sw "make_admin"] [POST] MakeAdmin) [ds].
Proof.
  intros Hne Hd.
  assert (Hs : seg_test is_decimal SInt ds = true).
  { cbn. rewrite Hd. destruct ds; [congruence|reflexivity]. }
  assert (Ht : path_match is_decimal [sw "admin"; sw "user"; SInt; sw "make_admin"]
                 [pys "admin"; pys "user"; ds; pys "make_admin"] = Some [ds]).
  { unfold sw. rewrite !path_match_cons, !pystr_eqb_refl, Hs. reflexivity. }
  destruct (match_path_complete is_decimal blueprint_rules POST [pys "admin"; pys "user"; ds; pys "make_admin"]
              (mk_rule [sw "admin"; sw "user"; SInt; sw "make_admin"] [POST] MakeAdmin))
    as (r & vals & Em); [cbn; tauto | cbn [r_segments]; rewrite Ht; discriminate | reflexivity |].
  rewrite Em. destruct (match_path_found _ _ _ _ _ _ Em) as (Hin & Hp & _).
  cbn [blueprint_rules In] in Hin.
  repeat destruct Hin as [<-|Hin]; [..|contradiction]; cbn [r_segments] in Hp;
    try (rewrite Ht in Hp; inv Hp; reflexivity);
    unfold sw in Hp; rewrite !path_match_cons in Hp; cbn in Hp;
    repeat match type of Hp with context [if ?c then _ else _] =>
      let E := fresh "E" in destruct c eqn:E;
      try (apply pystr_eqb_spec in E; vm_compute in E; discriminate E) end;
    discriminate Hp.
Qed.

End Paths.

Section AppProofs.
Context `{HL : HashLib} `{UC : UnicodeCategories} `{FC : FernetCrypto} `{UN : UnicodeNumeric}.
Variable cipher_suite : fernet.
Variable stripe_create : list line_item -> pystr -> pystr -> result (String.string * String.string).
Variable template_exists : pystr -> bool.
Variable email_valid : pystr -> bool.

Local Abbreviation app_handle := (app_handle cipher_suite stripe_create template_exists email_valid).
Local Abbreviation view := (view cipher_suite stripe_create template_exists email_valid).

Create HintDb app_db discriminated.

Lemma flask_dispatch_db (h : handler) (w : world) :
  db_preserving h -> w_db (snd (flask_dispatch h w)) = w_db w.
Proof.
  unfold flask_dispatch. intros H.
  destruct (h w) as [[r w']|[]] eqn:E; try reflexivity. exact (H _ _ _ E).
Qed.

Lemma render_db (t : String.string) : db_preserving (render t).
Proof. intros w r w' H. inv H. reflexivity. Qed.

Lemma login_required_db (cu : option (Z * user_row)) (f : handler) :
  db_preserving f -> db_preserving (login_required cu f).
Proof.
  intros Hf w r w' H. unfold login_required in H.
  destruct (negb _); [inv H; reflexivity | exact (Hf _ _ _ H)].
Qed.

Lemma admin_required_db (cu : option (Z * user_row)) (f : handler) :
  db_preserving f -> db_preserving (admin_required cu f).
Proof.
  intros Hf w r w' H. unfold admin_required in H.
  destruct (negb (is_authenticated cu)); [inv H; reflexivity|].
  destruct (negb (cu_is_admin cu)); [inv H; reflexivity | exact (Hf _ _ _ H)].
Qed.

Lemma user_logged_in_db (cu : option (Z * user_row)) (f : handler) :
  db_preserving f -> db_preserving (user_logged_in cu f).
Proof.
  intros Hf w r w' H. unfold user_logged_in in H.
  destruct (negb _); [inv H; reflexivity | exact (Hf _ _ _ H)].
Qed.

Lemma login_get_db (hr : http_request) (u p : pystr) (rm : bool) :
  hr_method hr = GET -> db_preserving (login (login_form_valid hr) u p rm).
Proof.
  intros Hm w r w' H. unfold login_form_valid in H. rewrite Hm in H. inv H. reflexivity.
Qed.

Lemma route_register_get_db (e : env) (hr : http_request) :
  hr_method hr = GET -> db_preserving (route_register email_valid e hr).
Proof.
  intros Hm w r w' H. unfold route_register in H. rewrite Hm in H. inv H. reflexivity.
Qed.

Lemma logout_db : db_preserving logout.
Proof. intros w r w' H. inv H. reflexivity. Qed.

Lemma ok_db (r : response) : db_preserving (fun w => Ok (r, w)).
Proof. intros w r' w' H. inv H. reflexivity. Qed.

Lemma get_users_db (rq : request) : db_preserving (route_get_users rq).
Proof. intros w r w' H. eapply admin_required_db; [|exact H]. intros ? ? ? E. inv E. reflexivity. Qed.

Lemma contact_get_db (hr : http_request) : hr_method hr = GET -> db_preserving (contact_us hr).
Proof. intros Hm w r w' H. unfold contact_us in H. rewrite Hm in H. inv H. reflexivity. Qed.

Lemma templates_db (name : pystr) : db_preserving (templates template_exists name).
Proof. intros w r w' H. unfold templates in H. destruct (template_exists _); inv H. reflexivity. Qed.

Lemma get_orders_db (cu : option (Z * user_row)) : db_preserving (get_orders cu).
Proof. unfold get_orders. apply user_logged_in_db. intros w r w' H. inv H. reflexivity. Qed.

#[local] Hint Resolve ok_db get_users_db render_db login_required_db admin_required_db login_get_db
  route_register_get_db logout_db contact_get_db templates_db get_orders_db : app_db.

Lemma admin_home_db (cu : option (Z * user_row)) : db_preserving (admin_home cu).
Proof. unfold admin_home. auto with app_db. Qed.

Lemma cancel_db : db_preserving cancel.
Proof. unfold cancel. auto with app_db. Qed.

#[local] Hint Resolve admin_home_db cancel_db : app_db.

(** Every GET view but [success] leaves the database as it is. *)
Lemma view_get_db (r : rule endpoint) (args : list view_arg) (e : env) (hr : http_request) :
  In r blueprint_rules -> allows (r_methods r) GET = true -> r_endpoint r <> Success ->
  hr_method hr = GET -> db_preserving (view (r_endpoint r) args e hr).
Proof.
  intros Hin Ha Hs Hm w0 r0 w1 H. cbn [blueprint_rules In] in Hin.
  repeat destruct Hin as [<-|Hin]; [..|contradiction]; cbn in Ha; try discriminate Ha;
    try solve [exfalso; exact (Hs eq_refl)]; cbn [r_endpoint] in H;
    destruct args as [|[a|a] [|a' args]]; cbn beta iota zeta delta [App.view] in H;
    try discriminate H; try solve [inv H; reflexivity];
    lazymatch type of H with ?h w0 = Ok (r0, w1) =>
      enough (Hp : db_preserving h) by exact (Hp _ _ _ H) end;
    eauto with app_db.
Qed.


(** C14: a GET request changes the database only when its path is
    [/success/<t>]: every other view a GET reaches (the pages, the login
    and register forms, the catch-all, the admin and order listings)
    leaves the database as it is. *)
Theorem get_db_only_success (e : env) (hr : http_request) (w : world) :
  hr_method hr = GET -> w_db (snd (app_handle e hr w)) <> w_db w ->
  exists t, hr_path hr = [pys "success"; t].
Proof.
  intros Hm Hne. unfold App.app_handle in Hne.
  destruct (match_path _ _ _ _) as [r vals| |] eqn:Em; cbn [snd] in Hne; try congruence.
  destruct (convert_values (r_segments r) vals) as [args|]; cbn [snd] in Hne; [|congruence].
  rewrite Hm in Hne. cbn [csrf_method andb] in Hne.
  destruct (match_path_found _ _ _ _ _ _ Em) as (Hin & Hp & Ha). rewrite Hm in Ha.
  destruct r as [segs ms ep]. destruct ep; try (eapply success_rule_path; eauto; fail);
    exfalso; apply Hne, flask_dispatch_db; apply (view_get_db (mk_rule segs ms _)); auto; discriminate.
Qed.

(** C6: without a valid CSRF token a POST or DELETE request changes
    nothing, whatever its path: it is refused (400) once a rule matches,
    and a path no rule takes changes nothing either. *)
Theorem csrf_guards_state (e : env) (hr : http_request) (w : world) :
  hr_method hr <> GET -> hr_csrf_valid hr = false -> snd (app_handle e hr w) = w.
Proof.
  intros Hm Hc. unfold App.app_handle.
  destruct (match_path _ _ _ _) as [r vals| |]; try reflexivity.
  destruct (convert_values _ _); [|reflexivity].
  rewrite Hc. destruct (hr_method hr); [congruence|reflexivity|reflexivity].
Qed.



(** C8: the catch-all [/<template_name>] renders [home/<name>.html] to
    anyone, logged in or not, for every name the static routes do not
    take: the pages [login_required] guards under another path (such as
    [home/pricing.html] of [/price_monitoring]) are served at [/pricing]
    without a login. *)
Theorem templates_bypass_login (e : env) (hr : http_request) (w : world) (name : pystr) :
  hr_method hr = GET -> hr_path hr = [name] -> name <> [] ->
  existsb (pystr_eqb name) static_words = false ->
  template_exists (pys "home/" ++ name ++ pys ".html") = true ->
  app_handle e hr w = (TemplatePage (pys "home/" ++ name ++ pys ".html"), w).
Proof.
  intros Hm Hp Hne Hnot Ht. unfold App.app_handle.
  rewrite Hp, (match_catch_all (hr_method hr) name Hne Hnot Hm). cbn [r_segments r_endpoint convert_values].
  rewrite Hm. cbn [csrf_method andb]. unfold flask_dispatch, App.view, templates. cbn beta iota zeta.
  rewrite Ht. reflexivity.
Qed.

(** C25: [contact_us] fails on every POST: with the three fields the
    undefined [CompanyChoice] raises [NameError] (the 500 page), and
    without one of them [request.form[...]] answers 400; the state never
    changes. *)
Theorem contact_post_fails (e : env) (hr : http_request) (w : world) :
  hr_method hr = POST -> hr_path hr = [pys "contact"] -> hr_csrf_valid hr = true ->
  app_handle e hr w
  = (match form_get hr "Name", form_get hr "Email", form_get hr "Message..." with
     | Some _, Some _, Some _ => Page "home/page-500.html" None 500
     | _, _, _ => HttpError 400
     end, w).
Proof.
  intros Hm Hp Hc. unfold App.app_handle. rewrite Hm, Hp, Hc.
  change (match_path is_decimal blueprint_rules POST [pys "contact"])
    with (Found (mk_rule [sw "contact"] [GET; POST] ContactUs) (@nil pystr)).
  cbn [r_segments r_endpoint convert_values csrf_method negb andb].
  unfold flask_dispatch, App.view, contact_us. cbn beta iota zeta. rewrite Hm.
  destruct (form_get hr "Name"), (form_get hr "Email"), (form_get hr "Message..."); reflexivity.
Qed.

(** C24: a registration POST without the password fields (and with equal
    e-mail fields) passes the two comparisons ([None == None]) and
    reaches [is_valid_password(None)], whose [len] raises [TypeError]:
    the 500 page, where a form error was meant. *)
Theorem register_missing_password_500 (e : env) (hr : http_request) (w : world) :
  hr_method hr = POST -> hr_path hr = [pys "register"] -> hr_csrf_valid hr = true ->
  form_get hr "password" = None -> form_get hr "confirm_password" = None ->
  data_eqb (form_get hr "email") (form_get hr "confirm_email") = true ->
  app_handle e hr w = (Page "home/page-500.html" None 500, w).
Proof.
  intros Hm Hp Hc Hpw Hcpw Hem. unfold App.app_handle. rewrite Hm, Hp, Hc.
  change (match_path is_decimal blueprint_rules POST [pys "register"])
    with (Found (mk_rule [sw "register"] [GET; POST] Register) (@nil pystr)).
  cbn [r_segments r_endpoint convert_values csrf_method negb andb].
  unfold flask_dispatch, App.view, route_register. cbn beta iota zeta.
  rewrite Hm, Hpw, Hcpw, Hem. reflexivity.
Qed.

(** C7: an anonymous request that names an active admin in its form
    field [username] promotes any user: [POST
    /admin/user/<id>/make_admin] with a CSRF token (which
    [/get_csrf_token] hands to anyone) and no password passes routing,
    the [<int:user_id>] converter, [CSRFProtect] and [admin_required],
    because [current_user] falls back to [request_loader]. *)
Theorem anonymous_make_admin_request (e : env) (hr : http_request) (w : world) (n ds : pystr)
  (aid target : Z) (a u : user_row) :
  hr_method hr = POST -> hr_path hr = [pys "admin"; pys "user"; ds; pys "make_admin"] ->
  hr_csrf_valid hr = true -> 0 <= target -> py_str_int target = Ok ds ->
  w_session w = None -> form_get hr "username" = Some n ->
  find (fun '(_, v) => username_is n v) (users (w_db w)) = Some (aid, a) ->
  flag (u_is_active a) = true -> flag (u_is_admin a) = true ->
  get_row (users (w_db w)) target = Some u -> db_ok (w_db w) = true ->
  exists w', app_handle e hr w = (JsonMsg "User is now admin" 200, w')
    /\ get_row (users (w_db w')) target = Some (with_admin true u).
Proof.
  intros Hm Hp Hc Ht Hs Hsess Hf Ha Hact Hadm Hu Hok.
  destruct (py_str_int_decimal target ds Ht Hs) as [Hne Hd].
  destruct (anonymous_make_admin (web_request hr) w n aid target a u Hsess Hf Ha Hact Hadm Hu Hok)
    as (w' & Hr & Hg).
  exists w'. split; [|exact Hg].
  unfold App.app_handle. rewrite Hm, Hp, (match_make_admin_path ds Hne Hd).
  cbn [r_segments r_endpoint sw convert_values]. rewrite (py_int_of_str_str target ds Hs).
  rewrite Hc. cbn [csrf_method negb andb]. unfold flask_dispatch, App.view. cbn beta iota zeta.
  rewrite Hr. reflexivity.
Qed.

End AppProofs.

(** ** Witnesses *)

(** The templates a deployment has, as far as the witnesses need them. *)
Definition demo_templates (p : pystr) : bool :=
  existsb (pystr_eqb p) (map pys ["home/pricing.html"; "home/index.html"; "home/payment-success.html"]).

Definition any_email (s : pystr) : bool := true.

Definition demo_env : env := mk_env demo_now demo_now (repeat Byte.x2a 60) demo_iv.

Definition demo_request (m : http_method) (path : list String.string) (form args : multidict)
  (csrf : bool) : http_request :=
  mk_http_request m (map pys path) form args None demo_root csrf.

Abbreviation demo_app := (app_handle demo_fernet demo_stripe demo_templates any_email demo_env).

(** The link Stripe sends the customer back to for order 1, with the code. *)
Definition success_request : http_request :=
  mk_http_request GET [pys "success"; shop_token] [] [(pys "appreciate", secret_code_expected)] None
    demo_root false.

Lemma get_db_only_success_witness :
  hr_method success_request = GET
  /\ w_db (snd (demo_app success_request shop_world)) <> w_db shop_world
  /\ exists t, hr_path success_request = [pys "success"; t].
Proof.
  assert (Hne : w_db (snd (demo_app success_request shop_world)) <> w_db shop_world)
    by (vm_compute; discriminate).
  split; [reflexivity|]. split; [exact Hne|].
  exact (get_db_only_success demo_fernet demo_stripe demo_templates any_email demo_env success_request
           shop_world eq_refl Hne).
Defined.

Lemma csrf_guards_state_witness :
  snd (demo_app (demo_request DELETE ["user"; "1"] [] [] false) demo_world) = demo_world.
Proof.
  apply csrf_guards_state; [discriminate | reflexivity].
Defined.

Lemma templates_bypass_login_witness :
  demo_app (demo_request GET ["pricing"] [] [] false) init_world
  = (TemplatePage (pys "home/" ++ pys "pricing" ++ pys ".html"), init_world)
  /\ demo_app (demo_request GET ["price_monitoring"] [] [] false) init_world
     = (Page "home/page-403.html" None 403, init_world).
Proof.
  split.
  - apply templates_bypass_login; [reflexivity | reflexivity | discriminate | vm_compute; reflexivity
                                  | vm_compute; reflexivity].
  - vm_compute. reflexivity.
Defined.

Definition contact_request : http_request :=
  demo_request POST ["contact"]
    [(pys "Name", pys "Ada"); (pys "Email", pys "ada@x"); (pys "Message...", pys "hi")] [] true.

Lemma contact_post_fails_witness :
  demo_app contact_request demo_world
  = (match form_get contact_request "Name", form_get contact_request "Email",
           form_get contact_request "Message..." with
     | Some _, Some _, Some _ => Page "home/page-500.html" None 500
     | _, _, _ => HttpError 400
     end, demo_world)
  /\ demo_app contact_request demo_world = (Page "home/page-500.html" None 500, demo_world).
Proof.
  assert (H : demo_app contact_request demo_world
              = (match form_get contact_request "Name", form_get contact_request "Email",
                       form_get contact_request "Message..." with
                 | Some _, Some _, Some _ => Page "home/page-500.html" None 500
                 | _, _, _ => HttpError 400
                 end, demo_world))
    by (apply (contact_post_fails demo_fernet demo_stripe demo_templates any_email demo_env
                 contact_request demo_world); reflexivity).
  split; [exact H|]. rewrite H. reflexivity.
Defined.

Lemma register_missing_password_500_witness :
  demo_app (demo_request POST ["register"] [(pys "username", pys "eve")] [] true) demo_world
  = (Page "home/page-500.html" None 500, demo_world).
Proof.
  apply register_missing_password_500; vm_compute; reflexivity.
Defined.

(** [POST /index]: the static rule and the catch-all both take the path
    and both refuse POST. *)
Lemma match_path_spec_witness :
  match_path is_decimal blueprint_rules POST [pys "index"] = MethodNotAllowed [GET; GET]
  /\ (forall x, In x [GET; GET] <-> exists r, In r blueprint_rules
                 /\ path_match is_decimal (r_segments r) [pys "index"] <> None /\ In x (r_methods r)).
Proof.
  assert (Ef : match_path is_decimal blueprint_rules POST [pys "index"] = MethodNotAllowed [GET; GET])
    by (vm_compute; reflexivity).
  split; [exact Ef|].
  exact (proj2 (proj2 (match_path_spec is_decimal blueprint_rules POST [pys "index"])) _ Ef).
Defined.

(** An anonymous POST naming [ada], an active admin, promotes [bob]. *)
Definition make_admin_request : http_request :=
  demo_request POST ["admin"; "user"; "2"; "make_admin"] [(pys "username", ada)] [] true.

Lemma anonymous_make_admin_request_witness :
  exists w', demo_app make_admin_request demo_world = (JsonMsg "User is now admin" 200, w')
    /\ get_row (users (w_db w')) 2 = Some (with_admin true (seeded_user bob true false)).
Proof.
  apply (anonymous_make_admin_request demo_fernet demo_stripe demo_templates any_email demo_env
           make_admin_request demo_world ada (pys "2") 1 2 (seeded_user ada true true));
    vm_compute; first [reflexivity | discriminate].
Defined.
