(* ===== verification/Lifecycle.v ===== *)
(** The life of the server state across requests: the application of
    [App] as a step relation on worlds, started from the empty database
    of [before_first_request], and what holds along every run.

    - [app_step w w']: some request, under some clock and [os.urandom],
      takes [w] to [w'] ([App.app_handle]); [reachable] is what a run
      from [App.init_world] can reach ([Prelude.star]).
    - The order book ([order_book]) is the abstract state the shop
      promises its customers: each order has an id and is paid or not;
      [book_step] opens an unpaid order under a new id or marks one
      paid, and nothing else.  [abs_world] reads the book off the [Order]
      table.
    - The refinement: every run of the application is a run of the book
      (a simulation, proved one request at a time: [step_ok] records what
      a handler may do to the database, and every view is shown to do
      only that).  From it: no order is ever deleted and no payment is
      ever revoked.  By rule induction on runs: the database constraints
      ([Models.db_ok]) hold in every reachable state, and no user and no
      row of the six other tables ever exists ([step_ok] also records
      that a request only deletes users, sets [is_admin], or cascades a
      deletion, and never adds a user).  And every unpaid
      order of a reachable state can be paid by one request, the
      [/success/<token>] link of its checkout. *)

From Stdlib Require Import Bool ZArith List Lia.
From Stdlib Require String.
From S2P Require Import Prelude Bytes Models Web HashLib Policy Accounts Base64 Fernet OrderCodec Checkout Routing App.
Import ListNotations.
Open Scope Z_scope.
Import String.StringSyntax.
Local Open Scope string_scope.
Local Open Scope list_scope.

(** ** The abstract order book *)

Definition order_book := list (Z * bool).

Definition book_ids (b : order_book) : list Z := map fst b.

Definition book_pay (id : Z) (b : order_book) : order_book :=
  map (fun '(k, p) => if k =? id then (k, true) else (k, p)) b.

(** What one request may do to the book. *)
Inductive book_step : order_book -> order_book -> Prop :=
| book_skip b : book_step b b
| book_create b id : ~ In id (book_ids b) -> book_step b (b ++ [(id, false)])
| book_pay_step b id : In id (book_ids b) -> book_step b (book_pay id b).

(** ** The abstraction of the server state *)

Definition abs_orders (t : table order_row) : order_book :=
  map (fun '(id, o) => (id, flag (o_payment_status o))) t.

Definition abs_world (w : world) : order_book := abs_orders (orders (w_db w)).

(** What one request may do to the [Order] table. *)
Inductive orders_change (t : table order_row) : table order_row -> Prop :=
| oc_same : orders_change t t
| oc_create o : o_payment_status o = Some false -> orders_change t (t ++ [(fresh_id t, o)])
| oc_pay id o : get_row t id = Some o -> orders_change t (update_row t id with_paid).

(** What one request may do to the [User] table: delete a row or set a
    row's [is_admin].  None adds a user: [register]'s commit always fails. *)
Inductive users_change (t : table user_row) : table user_row -> Prop :=
| uc_same : users_change t t
| uc_delete id : users_change t (delete_row t id)
| uc_admin id b : users_change t (update_row t id (with_admin b)).

(** What one request may do to the six other tables: only the cascade of
    a user's deletion. *)
Inductive aux_change (x : aux_tables) : aux_tables -> Prop :=
| ac_same : aux_change x x
| ac_cascade id : aux_change x (cascade_user_delete id x).

(** One request's effect on the database: none, or a state [commit]
    accepted, with each table changed as above. *)
Definition step_ok (w w' : world) : Prop :=
  (w_db w' = w_db w \/ db_ok (w_db w') = true)
  /\ users_change (users (w_db w)) (users (w_db w'))
  /\ orders_change (orders (w_db w)) (orders (w_db w'))
  /\ aux_change (aux (w_db w)) (aux (w_db w')).

Definition handler_ok (h : handler) : Prop :=
  forall w r w', h w = Ok (r, w') -> step_ok w w'.

(** ** The application as a step relation *)

Section System.
Context `{HL : HashLib} `{UC : UnicodeCategories} `{FC : FernetCrypto} `{UN : UnicodeNumeric}.
Variable cipher_suite : fernet.
Variable stripe_create : list line_item -> pystr -> pystr -> result (String.string * String.string).
Variable template_exists : pystr -> bool.
Variable email_valid : pystr -> bool.

(** One request, under whatever clock and random bytes. *)
Definition app_step (w w' : world) : Prop :=
  exists e hr, snd (app_handle cipher_suite stripe_create template_exists email_valid e hr w) = w'.

Definition reachable (w : world) : Prop := star app_step init_world w.
End System.

(** ** Every handler does only what [step_ok] allows *)

Lemma step_ok_same (w w' : world) : w_db w' = w_db w -> step_ok w w'.
Proof. intros H. split; [left; exact H|]. rewrite H. repeat split; constructor. Qed.

Lemma db_preserving_ok (h : handler) : db_preserving h -> handler_ok h.
Proof. intros H w r w' E. apply step_ok_same. exact (H _ _ _ E). Qed.

(** A commit that only changes the [User] table, as allowed. *)
Lemma commit_users_ok (w : world) (us : table user_row) (d' : db) :
  commit (set_users (w_db w) us) = Ok d' -> users_change (users (w_db w)) us ->
  step_ok w (set_db w d').
Proof.
  intros H Hu. apply commit_ok in H as [-> Hok]. split; [right; exact Hok|].
  repeat split; [exact Hu | constructor | constructor].
Qed.

(** The commit of [delete_user]. *)
Lemma commit_delete_ok (w : world) (id : Z) (d' : db) :
  commit (delete_user_rows (w_db w) id) = Ok d' -> step_ok w (set_db w d').
Proof.
  intros H. apply commit_ok in H as [-> Hok]. split; [right; exact Hok|].
  repeat split; constructor.
Qed.

Lemma login_user_ok (w : world) (id : Z) (u : user_row) : step_ok w (login_user id u w).
Proof. unfold login_user. destruct (flag _); apply step_ok_same; reflexivity. Qed.

(** Case analysis on the guards and results of a handler's body. *)
Ltac step_cases H :=
  repeat match type of H with
  | context [if ?c then _ else _] => destruct c eqn:?
  | context [match ?m with Ok _ => _ | Err _ => _ end] => destruct m eqn:?
  | context [match ?m with Some _ => _ | None => _ end] => destruct m eqn:?
  | context [let (_, _) := ?p in _] => destruct p eqn:?
  end; try discriminate H; inv H.

Ltac close_step :=
  first [ apply step_ok_same; reflexivity
        | apply login_user_ok
        | eapply commit_delete_ok; eassumption
        | eapply commit_users_ok; [eassumption | constructor]
        | exfalso; match goal with
          | Hu : user_init _ _ _ _ _ _ _ _ _ = Ok ?u, Hc : commit _ = Ok _ |- _ =>
              erewrite user_init_commit_fails in Hc by exact Hu; discriminate Hc
          end ].

Lemma admin_required_ok (cu : option (Z * user_row)) (f : handler) :
  handler_ok f -> handler_ok (admin_required cu f).
Proof.
  intros Hf w r w' H. unfold admin_required in H.
  destruct (negb (is_authenticated cu)); [inv H; close_step|].
  destruct (negb (cu_is_admin cu)); [inv H; close_step | exact (Hf _ _ _ H)].
Qed.

Section Handlers.
Context `{HL : HashLib} `{UC : UnicodeCategories} `{FC : FernetCrypto} `{UN : UnicodeNumeric}.
Variable cipher_suite : fernet.
Variable stripe_create : list line_item -> pystr -> pystr -> result (String.string * String.string).
Variable template_exists : pystr -> bool.
Variable email_valid : pystr -> bool.

Lemma login_ok (fv : bool) (u p : pystr) (rm : bool) : handler_ok (login fv u p rm).
Proof. intros w r w' H. unfold login in H. step_cases H; close_step. Qed.

Lemma register_ok (m : http_method) (form : register_form) (fv : bool) (rnd : bytes) :
  handler_ok (register m form fv rnd).
Proof. intros w r w' H. unfold register in H. destruct m; step_cases H; close_step. Qed.

Lemma route_register_ok (e : env) (hr : http_request) :
  handler_ok (route_register email_valid e hr).
Proof.
  intros w r w' H. unfold route_register in H.
  destruct (hr_method hr); [exact (register_ok _ _ _ _ _ _ _ H) | | exact (register_ok _ _ _ _ _ _ _ H)].
  destruct (negb _); [inv H; close_step|]. destruct (negb _); [inv H; close_step|].
  destruct (form_get hr "password"); [exact (register_ok _ _ _ _ _ _ _ H) | discriminate H].
Qed.

Lemma route_delete_user_ok (rq : request) (uid : Z) : handler_ok (route_delete_user rq uid).
Proof.
  intros w r w' H. unfold route_delete_user in H. revert H. apply admin_required_ok.
  clear w r w'. intros w r w' H. unfold delete_user in H. cbv zeta in H. step_cases H; close_step.
Qed.

Lemma set_admin_ok (b : bool) (msg : String.string) (uid : Z) : handler_ok (set_admin b msg uid).
Proof. intros w r w' H. unfold set_admin in H. cbv zeta in H. step_cases H; close_step. Qed.

Lemma route_make_admin_ok (rq : request) (uid : Z) : handler_ok (route_make_admin rq uid).
Proof. intros w r w' H. exact (admin_required_ok _ _ (set_admin_ok _ _ _) _ _ _ H). Qed.

Lemma route_remove_admin_ok (rq : request) (uid : Z) : handler_ok (route_remove_admin rq uid).
Proof. intros w r w' H. exact (admin_required_ok _ _ (set_admin_ok _ _ _) _ _ _ H). Qed.

(** [create_checkout_session] leaves the database as it was or commits
    one new unpaid order under the next id, whatever happens after. *)
Lemma checkout_body_ok (data : option checkout_json) (od now : Z) (iv : bytes) (root : pystr)
  (w : world) :
  step_ok w (set_db w (snd (checkout_body cipher_suite stripe_create data od now iv root (w_db w)))).
Proof.
  unfold checkout_body. destruct data as [j|]; [|apply step_ok_same; reflexivity].
  destruct (commit _) as [d1|ex] eqn:Hc; [|apply step_ok_same; reflexivity].
  apply commit_ok in Hc as [Hd1 Hok].
  assert (H : step_ok w (set_db w d1)).
  { split; [right; exact Hok|]. subst d1. repeat split; [constructor | apply oc_create; reflexivity | constructor]. }
  destruct (cj_cart_items j) as [[|? ?]|]; try exact H.
  destruct (encrypt_order_id _ _ _ _); [|exact H].
  destruct (stripe_create _ _ _) as [[? ?]|]; exact H.
Qed.

Lemma create_checkout_session_ok (data : option checkout_json) (od now : Z) (iv : bytes)
  (root : pystr) : handler_ok (create_checkout_session cipher_suite stripe_create data od now iv root).
Proof.
  intros w r w' H. unfold create_checkout_session in H.
  pose proof (checkout_body_ok data od now iv root w) as Hb.
  destruct (checkout_body _ _ _ _ _ _ _ _) as [res d]. cbn [snd] in Hb.
  destruct res; inv H; exact Hb.
Qed.

(** [success] marks one existing order paid, or changes nothing. *)
Lemma success_ok (code : option pystr) (tok : pystr) : handler_ok (success cipher_suite code tok).
Proof.
  intros w r w' H. unfold success in H.
  destruct (negb _); [inv H; close_step|].
  destruct (decrypt_order_id _ _) as [id|ex]; [|discriminate H]. cbv zeta in H.
  destruct (get_row (orders (w_db w)) id) as [o|] eqn:Hg; [|inv H; close_step].
  destruct (commit _) as [d'|ex] eqn:Hc; [|discriminate H]. inv H.
  apply commit_ok in Hc as [-> Hok]. split; [right; exact Hok|].
  repeat split; [constructor | eapply oc_pay; exact Hg | constructor].
Qed.

Lemma contact_db (hr : http_request) : db_preserving (contact_us hr).
Proof.
  intros w r w' H. unfold contact_us in H.
  destruct (hr_method hr); [inv H; reflexivity | | inv H; reflexivity].
  destruct (form_get hr "Name"), (form_get hr "Email"), (form_get hr "Message..."); discriminate H.
Qed.

Create HintDb lifecycle discriminated.
#[local] Hint Resolve db_preserving_ok ok_db render_db login_required_db admin_required_db
  get_orders_db logout_db templates_db get_users_db contact_db admin_home_db cancel_db login_ok route_register_ok
  route_delete_user_ok route_make_admin_ok route_remove_admin_ok create_checkout_session_ok
  success_ok : lifecycle.

Lemma view_ok (ep : endpoint) (args : list view_arg) (e : env) (hr : http_request) :
  handler_ok (view cipher_suite stripe_create template_exists email_valid ep args e hr).
Proof.
  intros w0 r0 w1 H.
  destruct ep; destruct args as [|[a|a] [|a' args]]; cbn beta iota zeta delta [App.view] in H;
    try discriminate H; try solve [inv H; close_step];
    lazymatch type of H with ?h w0 = Ok (r0, w1) =>
      enough (Hp : handler_ok h) by exact (Hp _ _ _ H) end;
    eauto 6 with lifecycle.
Qed.

(** One request of the application. *)
Lemma app_handle_ok (e : env) (hr : http_request) (w : world) :
  step_ok w (snd (app_handle cipher_suite stripe_create template_exists email_valid e hr w)).
Proof.
  unfold App.app_handle.
  destruct (match_path _ _ _ _) as [r vals| |]; try (apply step_ok_same; reflexivity).
  destruct (convert_values _ _) as [args|]; [|apply step_ok_same; reflexivity].
  destruct (_ && _); [apply step_ok_same; reflexivity|].
  unfold flask_dispatch.
  destruct (App.view _ _ _ _ _ _ _ _ w) as [[r' w']|[]] eqn:E;
    try (apply step_ok_same; reflexivity).
  exact (view_ok _ _ _ _ _ _ _ E).
Qed.
End Handlers.

(** ** The order table refines the order book *)

Lemma book_ids_abs (t : table order_row) : book_ids (abs_orders t) = map fst t.
Proof. unfold book_ids, abs_orders. rewrite map_map. apply map_ext. intros [k o]. reflexivity. Qed.

Lemma abs_orders_app (t1 t2 : table order_row) :
  abs_orders (t1 ++ t2) = abs_orders t1 ++ abs_orders t2.
Proof. apply map_app. Qed.

Lemma abs_orders_pay (t : table order_row) (id : Z) :
  abs_orders (update_row t id with_paid) = book_pay id (abs_orders t).
Proof.
  unfold abs_orders, update_row, book_pay. rewrite !map_map. apply map_ext.
  intros [k o]. destruct (k =? id); reflexivity.
Qed.

Lemma get_row_in_ids {A} (t : table A) (id : Z) (x : A) : get_row t id = Some x -> In id (map fst t).
Proof.
  unfold get_row. destruct (find _ t) as [[k y]|] eqn:E; [|discriminate]. intros _.
  apply find_some in E as [Hin Hk]. apply Z.eqb_eq in Hk. subst k.
  apply in_map_iff. exists (id, y). auto.
Qed.

(** One change of the table is one step of the book. *)
Lemma orders_change_book (t t' : table order_row) :
  orders_change t t' -> book_step (abs_orders t) (abs_orders t').
Proof.
  destruct 1 as [|o Ho|id o Hg].
  - apply book_skip.
  - rewrite abs_orders_app. cbn. rewrite Ho. apply book_create.
    rewrite book_ids_abs. intros Hin. apply in_map_iff in Hin as ([k r] & Hk & Hin).
    cbn in Hk. subst k. exact (fresh_id_new t _ r Hin eq_refl).
  - rewrite abs_orders_pay. apply book_pay_step. rewrite book_ids_abs. exact (get_row_in_ids t id o Hg).
Qed.

(** The book never loses an order nor a payment. *)
Lemma book_step_ids (b b' : order_book) :
  book_step b b' -> forall id, In id (book_ids b) -> In id (book_ids b').
Proof.
  destruct 1 as [|b id0 _|b id0 _]; intros id Hin; [exact Hin| |].
  - unfold book_ids in *. rewrite map_app. apply in_or_app. left. exact Hin.
  - unfold book_ids, book_pay in *. rewrite map_map.
    erewrite map_ext; [exact Hin|]. intros [k p]. destruct (k =? id0); reflexivity.
Qed.

Lemma book_pay_paid (b : order_book) (id k : Z) (p : bool) :
  In (k, p) b -> (p = true \/ k = id) -> In (k, true) (book_pay id b).
Proof.
  intros Hin Hp. unfold book_pay. apply in_map_iff. exists (k, p). split; [|exact Hin].
  destruct (Z.eqb_spec k id); [reflexivity|]. destruct Hp; [subst; reflexivity | congruence].
Qed.

Lemma book_step_paid (b b' : order_book) :
  book_step b b' -> forall id, In (id, true) b -> In (id, true) b'.
Proof.
  destruct 1 as [|b id0 _|b id0 _]; intros id Hin; [exact Hin| |].
  - apply in_or_app. left. exact Hin.
  - apply (book_pay_paid _ _ _ true Hin). left. reflexivity.
Qed.

Lemma in_ids_get_row {A} (t : table A) (id : Z) : In id (map fst t) -> exists x, get_row t id = Some x.
Proof.
  intros Hin. unfold get_row. destruct (find (fun '(k, _) => k =? id) t) as [[k x]|] eqn:E;
    [exists x; reflexivity|].
  exfalso. apply in_map_iff in Hin as ([k' x'] & Hk & Hin). cbn in Hk. subst k'.
  apply (find_none _ _ E) in Hin. rewrite Z.eqb_refl in Hin. discriminate.
Qed.

(** A database holding orders only: no user and the six other tables empty. *)
Definition only_orders (d : db) : Prop := users d = [] /\ aux d = empty_aux.

Lemma step_only_orders (w w' : world) :
  step_ok w w' -> only_orders (w_db w) -> only_orders (w_db w').
Proof.
  intros (_ & Hu & _ & Ha) [H1 H2]. rewrite H1 in Hu. rewrite H2 in Ha.
  split; [destruct Hu; reflexivity | destruct Ha; reflexivity].
Qed.

Section Runs.
Context `{HL : HashLib} `{UC : UnicodeCategories} `{FC : FernetCrypto} `{UN : UnicodeNumeric}.
Variable cipher_suite : fernet.
Variable stripe_create : list line_item -> pystr -> pystr -> result (String.string * String.string).
Variable template_exists : pystr -> bool.
Variable email_valid : pystr -> bool.

Local Abbreviation app_step := (app_step cipher_suite stripe_create template_exists email_valid).
Local Abbreviation app_handle := (app_handle cipher_suite stripe_create template_exists email_valid).

Lemma app_step_book (w w' : world) : app_step w w' -> book_step (abs_world w) (abs_world w').
Proof.
  intros (e & hr & <-). apply orders_change_book. apply app_handle_ok.
Qed.

Lemma star_db_ok (w w' : world) : star app_step w w' -> db_ok (w_db w) = true -> db_ok (w_db w') = true.
Proof.
  apply (star_invariant app_step (fun w => db_ok (w_db w) = true)).
  intros a b Ha (e & hr & <-).
  destruct (app_handle_ok cipher_suite stripe_create template_exists email_valid e hr a) as [[Heq|Hok] _];
    [rewrite Heq; exact Ha | exact Hok].
Qed.

(** C5: every run of the application is a run of the order book: each
    request leaves the [Order] table as it is, adds one unpaid order under
    an id no order has, or marks an existing order paid. *)
Theorem runs_refine_book (w w' : world) :
  star app_step w w' -> star book_step (abs_world w) (abs_world w').
Proof.
  induction 1 as [w|w w1 w' Hs _ IH]; [apply star_refl|].
  eapply star_step; [apply app_step_book; exact Hs | exact IH].
Qed.

(** The database constraints (non-NULL columns, unique usernames and
    e-mails, distinct keys) hold in every state the application reaches
    from its empty database, whatever the requests. *)
Theorem reachable_db_ok (w : world) : reachable cipher_suite stripe_create template_exists email_valid w ->
  db_ok (w_db w) = true.
Proof. intros H. apply (star_db_ok init_world w H). reflexivity. Qed.

(** C12: from the empty database no request ever creates a user or
    writes the six other tables: in every reachable state the [User]
    table is empty (the only insertion, [register]'s, always fails its
    commit) and so are the monitor-account, subscription, social-media,
    pricing-task, card and order-item tables.  Every order of a reachable
    state therefore names, in [user_id], a user that does not exist. *)
Theorem reachable_only_orders (w : world) :
  reachable cipher_suite stripe_create template_exists email_valid w ->
  users (w_db w) = [] /\ aux (w_db w) = empty_aux.
Proof.
  intros H. apply (star_invariant app_step (fun w => only_orders (w_db w))) with init_world;
    [| exact H | split; reflexivity].
  intros a b Ha (e & hr & <-). exact (step_only_orders _ _ (app_handle_ok _ _ _ _ e hr a) Ha).
Qed.

(** C18: along any run no order is deleted and no payment is revoked: an
    order id present stays present and a paid order stays paid. *)
Theorem orders_never_lost (w w' : world) :
  star app_step w w' ->
  (forall id, In id (book_ids (abs_world w)) -> In id (book_ids (abs_world w')))
  /\ (forall id, In (id, true) (abs_world w) -> In (id, true) (abs_world w')).
Proof.
  induction 1 as [w|w w1 w' Hs _ IH]; [split; auto|].
  pose proof (app_step_book _ _ Hs) as Hb. destruct IH as [IH1 IH2].
  split; intros id Hin; [apply IH1; exact (book_step_ids _ _ Hb id Hin)
                        | apply IH2; exact (book_step_paid _ _ Hb id Hin)].
Qed.

(** C13: every unpaid order of a reachable state can be paid: the GET of
    its [/success/<token>] link, with the code, marks it paid (for the
    [cipher_suite] built from a valid [FERNET_KEY], and an id [str()]
    can print). *)
Theorem unpaid_order_payable (fernet_key : option pystr) (w : world) (id : Z) :
  cipher_suite_init fernet_key = Ok cipher_suite ->
  reachable cipher_suite stripe_create template_exists email_valid w ->
  In (id, false) (abs_world w) -> Z.abs id < 10 ^ 4300 ->
  exists e hr, hr_method hr = GET /\ In (id, true) (abs_world (snd (app_handle e hr w))).
Proof.
  intros Hf Hr Hin Hid.
  pose proof (star_db_ok init_world w Hr eq_refl) as Hok.
  pose proof (cipher_suite_init_keys _ _ Hf) as Hk.
  assert (Hids : In id (map fst (orders (w_db w)))).
  { rewrite <- book_ids_abs. apply in_map_iff. exists (id, false). auto. }
  destruct (in_ids_get_row _ _ Hids) as [o Hg].
  destruct (py_str_int id) as [s|ex] eqn:Hs.
  2:{ exfalso. apply (proj1 (Z.lt_nge (Z.abs id) (10 ^ 4300))); [exact Hid|].
      apply py_str_int_error_iff. eauto. }
  clear Hid. set (iv := repeat Byte.x00 16).
  set (t := map ord (urlsafe_b64encode (order_token_data cipher_suite 0 iv s))).
  assert (Hdec : decrypt_order_id cipher_suite t = Ok id)
    by (apply decrypt_order_id_token; [tauto | reflexivity | lia | exact Hs]).
  assert (Hne : t <> []).
  { unfold t. intros E. apply (f_equal (@length Z)) in E. rewrite length_map, urlsafe_b64encode_length in E.
    unfold order_token_data in E. cbn [app length] in E.
    apply Nat.mul_eq_0 in E as [E|E]; [discriminate|]. apply Nat.div_small_iff in E; lia. }
  exists (mk_env 0 0 [] iv),
    (mk_http_request GET [pys "success"; t] [] [(pys "appreciate", secret_code_expected)] None [] false).
  split; [reflexivity|]. unfold App.app_handle. cbn [hr_method hr_path hr_csrf_valid].
  rewrite (match_success_path t Hne). cbn [r_segments r_endpoint sw convert_values csrf_method andb].
  unfold flask_dispatch, App.view. cbn beta iota zeta delta [hr_args].
  change (multidict_get (pys "appreciate") [(pys "appreciate", secret_code_expected)])
    with (Some secret_code_expected).
  rewrite (success_paid_eq cipher_suite t id o w Hok Hdec Hg).
  unfold abs_world. cbn [snd w_db set_db set_orders orders]. rewrite abs_orders_pay.
  apply (book_pay_paid _ _ _ false Hin). right. reflexivity.
Qed.
End Runs.

(** ** Witnesses *)

(** A run from the empty database: a checkout opens order 1, then its
    success link pays it. *)
Definition checkout_request : http_request :=
  mk_http_request POST [pys "create-checkout-session"] [] []
    (Some (mk_checkout_json (Some 5) (Some 2500) (Some []))) demo_root true.

Definition run_world1 : world := snd (demo_app checkout_request init_world).
Definition run_world2 : world := snd (demo_app success_request run_world1).

Abbreviation demo_step := (app_step demo_fernet demo_stripe demo_templates any_email).

Lemma runs_refine_book_witness :
  star demo_step init_world run_world1
  /\ star book_step (abs_world init_world) (abs_world run_world1)
  /\ abs_world run_world1 = [(1, false)].
Proof.
  assert (H : star demo_step init_world run_world1)
    by (apply star_one; exists demo_env, checkout_request; reflexivity).
  split; [exact H|]. split; [exact (runs_refine_book demo_fernet demo_stripe demo_templates any_email _ _ H)|].
  vm_compute. reflexivity.
Defined.

Lemma reachable_db_ok_witness :
  reachable demo_fernet demo_stripe demo_templates any_email run_world1 /\ db_ok (w_db run_world1) = true.
Proof.
  assert (H : reachable demo_fernet demo_stripe demo_templates any_email run_world1)
    by (apply star_one; exists demo_env, checkout_request; reflexivity).
  split; [exact H | exact (reachable_db_ok demo_fernet demo_stripe demo_templates any_email _ H)].
Defined.

Lemma reachable_only_orders_witness :
  reachable demo_fernet demo_stripe demo_templates any_email run_world1
  /\ (users (w_db run_world1) = [] /\ aux (w_db run_world1) = empty_aux)
  /\ orders_fk_ok (w_db run_world1) = false.
Proof.
  assert (H : reachable demo_fernet demo_stripe demo_templates any_email run_world1)
    by (apply star_one; exists demo_env, checkout_request; reflexivity).
  split; [exact H|]. split; [exact (reachable_only_orders demo_fernet demo_stripe demo_templates any_email _ H)|].
  vm_compute. reflexivity.
Defined.

Lemma orders_never_lost_witness :
  star demo_step run_world1 run_world2
  /\ ((forall id, In id (book_ids (abs_world run_world1)) -> In id (book_ids (abs_world run_world2)))
      /\ (forall id, In (id, true) (abs_world run_world1) -> In (id, true) (abs_world run_world2)))
  /\ abs_world run_world2 = [(1, true)].
Proof.
  assert (H : star demo_step run_world1 run_world2)
    by (apply star_one; exists demo_env, success_request; reflexivity).
  split; [exact H|]. split; [exact (orders_never_lost demo_fernet demo_stripe demo_templates any_email _ _ H)|].
  vm_compute. reflexivity.
Defined.

Lemma unpaid_order_payable_witness :
  cipher_suite_init (Some demo_key) = Ok demo_fernet
  /\ reachable demo_fernet demo_stripe demo_templates any_email run_world1
  /\ In (1, false) (abs_world run_world1) /\ Z.abs 1 < 10 ^ 4300
  /\ exists e hr, hr_method hr = GET
     /\ In (1, true) (abs_world (snd (app_handle demo_fernet demo_stripe demo_templates any_email e hr run_world1))).
Proof.
  assert (Hf : cipher_suite_init (Some demo_key) = Ok demo_fernet) by (vm_compute; reflexivity).
  assert (Hr : reachable demo_fernet demo_stripe demo_templates any_email run_world1)
    by (apply star_one; exists demo_env, checkout_request; reflexivity).
  assert (Hin : In (1, false) (abs_world run_world1)) by (vm_compute; left; reflexivity).
  assert (Hb : Z.abs 1 < 10 ^ 4300) by (vm_compute; reflexivity).
  split; [exact Hf|]. split; [exact Hr|]. split; [exact Hin|]. split; [exact Hb|].
  exact (unpaid_order_payable demo_fernet demo_stripe demo_templates any_email (Some demo_key) _ 1
           Hf Hr Hin Hb).
Defined.
