(* ===== verification/Access.v ===== *)
(** Which responses reach whom: the admin page of [routes.py].

    [/admin-home] is guarded by [@admin_required] (lines 334-337), but the
    catch-all [/<template_name>] (lines 328-331), registered before it,
    renders [home/<name>.html] for anyone (C8).  Werkzeug tries static
    parts before converters, so the path [/admin-home] never reaches the
    catch-all, and no other view renders [home/admin-home.html]: the page
    is served to authenticated admins only.  The proof goes through every
    view of [App.view], every error handler and the matcher of
    [Routing]. *)

From Stdlib Require Import Bool ZArith List Lia.
From Stdlib Require String.
From S2P Require Import Prelude Bytes Models Web HashLib Policy Accounts Base64 Fernet OrderCodec Checkout Routing App Lifecycle.
Import ListNotations.
Open Scope Z_scope.
Import String.StringSyntax.
Local Open Scope string_scope.
Local Open Scope list_scope.

Definition admin_page : String.string := "home/admin-home.html".

(** A response that shows the admin page, by [render_template] of the
    literal name or of the catch-all's computed one. *)
Definition is_admin_page (r : response) : bool :=
  match r with
  | Page t _ _ => String.eqb t admin_page
  | TemplatePage t => pystr_eqb t (pys admin_page)
  | _ => false
  end.

(** A handler that never answers with the admin page. *)
Definition no_admin_page (h : handler) : Prop :=
  forall w r w', h w = Ok (r, w') -> is_admin_page r = false.

(** ** Every view but [admin_home] and the catch-all *)

Ltac no_admin_cases :=
  let H := fresh "H" in
  intros ? ? ? H; step_cases H; reflexivity.

Lemma no_admin_ok (r : response) : is_admin_page r = false -> no_admin_page (fun w => Ok (r, w)).
Proof. intros Hr w r' w' H. inv H. exact Hr. Qed.

Lemma no_admin_render (t : String.string) : String.eqb t admin_page = false -> no_admin_page (render t).
Proof. intros Ht w r w' H. inv H. exact Ht. Qed.

Lemma no_admin_login_required (cu : option (Z * user_row)) (f : handler) :
  no_admin_page f -> no_admin_page (login_required cu f).
Proof.
  intros Hf w r w' H. unfold login_required in H.
  destruct (negb _); [inv H; reflexivity | exact (Hf _ _ _ H)].
Qed.

Lemma no_admin_admin_required (cu : option (Z * user_row)) (f : handler) :
  no_admin_page f -> no_admin_page (admin_required cu f).
Proof.
  intros Hf w r w' H. unfold admin_required in H.
  destruct (negb (is_authenticated cu)); [inv H; reflexivity|].
  destruct (negb (cu_is_admin cu)); [inv H; reflexivity | exact (Hf _ _ _ H)].
Qed.

Section Views.
Context `{HL : HashLib} `{UC : UnicodeCategories} `{FC : FernetCrypto} `{UN : UnicodeNumeric}.
Variable cipher_suite : fernet.
Variable stripe_create : list line_item -> pystr -> pystr -> result (String.string * String.string).
Variable template_exists : pystr -> bool.
Variable email_valid : pystr -> bool.

Lemma no_admin_login (fv : bool) (u p : pystr) (rm : bool) : no_admin_page (login fv u p rm).
Proof. unfold login. no_admin_cases. Qed.

Lemma no_admin_route_register (e : env) (hr : http_request) :
  no_admin_page (route_register email_valid e hr).
Proof. unfold route_register, register. destruct (hr_method hr); no_admin_cases. Qed.

Lemma no_admin_delete_user (rq : request) (uid : Z) : no_admin_page (route_delete_user rq uid).
Proof.
  intros w r w' H. refine (no_admin_admin_required _ _ _ w r w' H). unfold delete_user. no_admin_cases.
Qed.

Lemma no_admin_get_users (rq : request) : no_admin_page (route_get_users rq).
Proof. intros w r w' H. refine (no_admin_admin_required _ _ _ w r w' H). unfold get_users. no_admin_cases. Qed.

Lemma no_admin_set_admin (rq : request) (uid : Z) (b : bool) (msg : String.string) :
  no_admin_page (fun w => admin_required (current_user w rq) (set_admin b msg uid) w).
Proof. intros w r w' H. refine (no_admin_admin_required _ _ _ w r w' H). unfold set_admin. no_admin_cases. Qed.

Lemma no_admin_contact (hr : http_request) : no_admin_page (contact_us hr).
Proof. unfold contact_us, render. destruct (hr_method hr); no_admin_cases. Qed.

Lemma no_admin_checkout (data : option checkout_json) (od now : Z) (iv : bytes) (root : pystr) :
  no_admin_page (create_checkout_session cipher_suite stripe_create data od now iv root).
Proof.
  intros w r w' H. unfold create_checkout_session in H.
  destruct (checkout_body _ _ _ _ _ _ _ _) as [res d] eqn:E. destruct res as [r0|ex]; inv H; [|reflexivity].
  unfold checkout_body in E. step_cases E; reflexivity.
Qed.

Lemma no_admin_success (code : option pystr) (tok : pystr) : no_admin_page (success cipher_suite code tok).
Proof. unfold success. no_admin_cases. Qed.

Lemma no_admin_get_orders (cu : option (Z * user_row)) : no_admin_page (get_orders cu).
Proof.
  intros w r w' H. unfold get_orders, user_logged_in in H.
  destruct (negb _); inv H; reflexivity.
Qed.

Lemma no_admin_logout : no_admin_page logout.
Proof. unfold logout. no_admin_cases. Qed.

Lemma no_admin_make_admin (rq : request) (uid : Z) : no_admin_page (route_make_admin rq uid).
Proof. exact (no_admin_set_admin rq uid true _). Qed.

Lemma no_admin_remove_admin (rq : request) (uid : Z) : no_admin_page (route_remove_admin rq uid).
Proof. exact (no_admin_set_admin rq uid false _). Qed.

Create HintDb noadmin discriminated.
#[local] Hint Resolve no_admin_ok no_admin_render no_admin_login_required no_admin_login
  no_admin_route_register no_admin_delete_user no_admin_get_users no_admin_make_admin
  no_admin_remove_admin no_admin_contact no_admin_checkout no_admin_success no_admin_get_orders
  no_admin_logout : noadmin.
#[local] Hint Extern 1 (String.eqb _ _ = false) => reflexivity : noadmin.
#[local] Hint Extern 1 (is_admin_page _ = false) => reflexivity : noadmin.

(** Every view but [admin_home] and the catch-all never shows the page. *)
Lemma view_no_admin (ep : endpoint) (args : list view_arg) (e : env) (hr : http_request) :
  ep <> AdminHome -> ep <> Templates ->
  no_admin_page (view cipher_suite stripe_create template_exists email_valid ep args e hr).
Proof.
  intros H1 H2 w0 r0 w1 H.
  destruct ep; try congruence; destruct args as [|[a|a] [|a' args]];
    cbn beta iota zeta delta [App.view] in H; try discriminate H; try solve [inv H; reflexivity];
    lazymatch type of H with ?h w0 = Ok (r0, w1) =>
      enough (Hp : no_admin_page h) by exact (Hp _ _ _ H) end;
    eauto with noadmin.
Qed.

(** The path [/admin-home] is taken by the static rule of [admin_home]. *)
Lemma match_admin_home_path :
  match_path is_decimal blueprint_rules GET [pys "admin-home"]
  = Found (mk_rule [sw "admin-home"] [GET] AdminHome) [].
Proof. reflexivity. Qed.

(** The catch-all renders the admin page only for the name ["admin-home"]. *)
Lemma templates_admin_name (name : pystr) :
  pystr_eqb (pys "home/" ++ name ++ pys ".html") (pys admin_page) = true -> name = pys "admin-home".
Proof.
  intros H. apply pystr_eqb_spec in H.
  change (pys admin_page) with (pys "home/" ++ pys "admin-home" ++ pys ".html") in H.
  apply app_inv_head in H. apply app_inv_tail in H. exact H.
Qed.

(** An exception never shows the admin page. *)
Lemma handle_http_exception_no_admin (b : bool) (code : Z) :
  is_admin_page (handle_http_exception b code) = false.
Proof.
  unfold handle_http_exception, blueprint_error_handler, app_error_handler.
  destruct b; repeat (destruct (_ =? _); try reflexivity).
Qed.

(** C9: the admin page [home/admin-home.html] is shown only to an
    authenticated admin, whatever the request: [/admin-home] is guarded
    by [admin_required], and although the catch-all [/<template_name>]
    renders [home/<name>.html] for anyone, Werkzeug's static-first
    matching never lets it take [/admin-home]. *)
Theorem admin_page_only_admins (e : env) (hr : http_request) (w : world) :
  is_admin_page (fst (app_handle cipher_suite stripe_create template_exists email_valid e hr w)) = true ->
  is_authenticated (current_user w (web_request hr)) = true
  /\ cu_is_admin (current_user w (web_request hr)) = true.
Proof.
  intros H. unfold App.app_handle in H.
  destruct (match_path _ _ _ _) as [r vals| |] eqn:Em; cbn [fst] in H;
    try (rewrite handle_http_exception_no_admin in H; discriminate H).
  destruct (convert_values (r_segments r) vals) as [args|] eqn:Ec; cbn [fst] in H;
    [|rewrite handle_http_exception_no_admin in H; discriminate H].
  destruct (_ && _); cbn [fst] in H; [rewrite handle_http_exception_no_admin in H; discriminate H|].
  unfold flask_dispatch in H.
  destruct (App.view _ _ _ _ _ _ _ _ w) as [[r' w']|ex] eqn:Ev;
    [|destruct ex; cbn [fst] in H; rewrite handle_http_exception_no_admin in H; discriminate H].
  cbn [fst] in H. destruct (match_path_found _ _ _ _ _ _ Em) as (Hin & Hp & Ha).
  destruct r as [segs ms ep]. cbn [r_endpoint r_segments r_methods] in *.
  destruct (endpoint_eq_dec ep AdminHome) as [->|Hadm].
  - destruct args; [|discriminate Ev]. cbn beta iota zeta delta [App.view] in Ev. unfold admin_home, admin_required in Ev.
    destruct (negb (is_authenticated (current_user w (web_request hr)))) eqn:Ea; [cbn iota in Ev; inv Ev; vm_compute in H; discriminate H|].
    destruct (negb (cu_is_admin (current_user w (web_request hr)))) eqn:Eb; [cbn iota in Ev; inv Ev; vm_compute in H; discriminate H|].
    apply negb_false_iff in Ea, Eb. auto.
  - destruct (endpoint_eq_dec ep Templates) as [->|Htpl];
      [|rewrite (view_no_admin _ _ _ _ Hadm Htpl _ _ _ Ev) in H; discriminate H].
    exfalso. cbn [blueprint_rules In] in Hin.
    repeat destruct Hin as [E|Hin]; [..|contradiction]; try discriminate E. inv E.
    destruct (hr_path hr) as [|name [|p' ps]] eqn:Epath; try discriminate Hp;
      [|cbn in Hp; destruct (negb _); discriminate Hp].
    destruct name as [|c name']; [discriminate Hp|]. cbn in Hp. inv Hp. cbn in Ec. inv Ec.
    cbn beta iota zeta delta [App.view] in Ev. unfold templates in Ev.
    destruct (template_exists (pys "home/" ++ (c :: name') ++ pys ".html")); [|discriminate Ev].
    inv Ev. cbn [is_admin_page] in H.
    apply (templates_admin_name (c :: name')) in H. destruct (hr_method hr); try discriminate Ha.
    rewrite H, match_admin_home_path in Em. discriminate Em.
Qed.

End Views.

(** ** Witness *)

(** Ada, an admin logged in, opens [/admin-home]. *)
Lemma admin_page_only_admins_witness :
  let w := mk_world demo_db (Some 1) in
  let hr := demo_request GET ["admin-home"] [] [] false in
  is_admin_page (fst (demo_app hr w)) = true
  /\ is_authenticated (current_user w (web_request hr)) = true
  /\ cu_is_admin (current_user w (web_request hr)) = true.
Proof.
  cbv zeta. assert (H : is_admin_page (fst (demo_app (demo_request GET ["admin-home"] [] [] false)
                                          (mk_world demo_db (Some 1)))) = true) by (vm_compute; reflexivity).
  split; [exact H|].
  exact (admin_page_only_admins demo_fernet demo_stripe demo_templates any_email _ _ _ H).
Defined.
